(** * Adaptive performance governance: PerformanceMonitor and AnimationOptimizer

    A shallow embedding of [assets/js/performance-monitor.js] (the
    [PerformanceMonitor] singleton) and of the [animate] / [shouldAnimate]
    pair of the animation optimizer, followed by the properties of the
    governance engine.

    Conventions of the embedding.
    - JavaScript numbers that hold clock readings, durations and the device
      memory estimate are rationals ([Q]); counters, frame rates and the
      concurrency limit are integers ([Z]).  Arithmetic is exact.
    - The singleton's mutable fields are the fields of the record [Monitor];
      every method is a function from [Monitor] to [Monitor] (and a result
      where the method returns one).
    - [activeAnimations] is a JavaScript [Set] of ticket ids: a [gset string].
    - Console output and the calls of [applyDegradationStrategy] are kept in
      the state ([console], [policyRecomputes]) so that they can be counted.
    - What the monitor leaves with the browser is counted in the state too:
      the live report timers ([reportTimers]) and the sets of listeners
      added ([listenerSets]); the fields [monitoringInterval] and
      [loggingInterval] only say whether a handle is held. *)

From Stdlib Require Import ZArith QArith Qround Bool Lia Lqa.
From stdpp Require Import gmap strings list.

Local Open Scope Z_scope.

(** ** JavaScript helpers *)

(** Comparisons of numbers, as booleans. *)
Definition Qleb (x y : Q) : bool := Qle_bool x y.
Definition Qltb (x y : Q) : bool := negb (Qle_bool y x).
Definition Qgtb (x y : Q) : bool := Qltb y x.
Definition Qgeb (x y : Q) : bool := Qleb y x.

(** [Math.round]: the nearest integer, halves rounded towards +infinity. *)
Definition Math_round (x : Q) : Z := Qfloor (x + (1 # 2))%Q.

(** [Math.min] on two numbers. *)
Definition Math_min (x y : Q) : Q := if Qleb x y then x else y.

(** [hint || dflt] on an optional number: [undefined] and [0] are falsy. *)
Definition or_defaultZ (hint : option Z) (dflt : Z) : Z :=
  match hint with
  | Some v => if v =? 0 then dflt else v
  | None => dflt
  end.

Definition or_defaultQ (hint : option Q) (dflt : Q) : Q :=
  match hint with
  | Some v => if Qeq_bool v 0 then dflt else v
  | None => dflt
  end.

(** Truthiness of an optional string argument: [undefined] and the empty
    string are falsy. *)
Definition truthy (id : option string) : bool :=
  match id with
  | Some s => negb (String.eqb s "")
  | None => false
  end.

(** ** Configuration constants ([config.thresholds], [config.monitoring]) *)

Module thresholds.
Definition lowFPS : Z := 30.
Definition mediumFPS : Z := 50.
Definition highFPS : Z := 58.
Definition longTaskThreshold : Q := 50.
Definition memoryLimit : Z := 100.
End thresholds.

Module monitoring.
Definition sampleInterval : Z := 1000.
Definition sampleCount : Z := 5.
Definition fpsWindow : Q := 2000.
Definition enableLogging : bool := true.
Definition logInterval : Z := 5000.
End monitoring.

(** ** Data model *)

(** [performanceData.deviceTier]: one of ['low'], ['medium'], ['high']. *)
Inductive Tier : Set := low | medium | high.

Definition Tier_eqb (a b : Tier) : bool :=
  match a, b with
  | low, low | medium, medium | high, high => true
  | _, _ => false
  end.

Definition Tier_name (t : Tier) : string :=
  match t with low => "low" | medium => "medium" | high => "high" end.

(** [config.degradation]. *)
Record Degradation : Type := mkDegradation {
  disableComplexAnimations : bool;
  reduceAnimationDuration : bool;
  disableParallax : bool;
  reduceBlurEffects : bool;
  limitConcurrentAnimations : Z
}.

(** One element of [performanceData.longTasks]. *)
Record LongTask : Type := mkLongTask {
  lt_duration : Q;
  lt_startTime : Q;
  lt_timestamp : Z
}.

(** [performanceData.memoryUsage] (megabytes). *)
Record MemoryUsage : Type := mkMemoryUsage {
  usedJSHeapSize : Z;
  totalJSHeapSize : Z;
  jsHeapSizeLimit : Z
}.

(** [performanceData]. *)
Record PerformanceData : Type := mkPerformanceData {
  fps : Z;
  fpsHistory : list Z;
  longTasks : list LongTask;
  memoryUsage : option MemoryUsage;
  deviceTier : Tier;
  isReducedMotion : bool;
  activeAnimations : gset string;
  isMonitoring : bool
}.

(** [document.documentElement], as far as the monitor writes to it: the
    custom properties of its inline style and its class list. *)
Record RootElement : Type := mkRootElement {
  style : gmap string string;
  classList : gset string
}.

(** Console levels used by [log]. *)
Inductive Level : Set := info | warn.

(** The closure variables of [startFPSMonitoring]. *)
Record FpsSampler : Type := mkFpsSampler {
  frameCount : Z;
  lastTime : Q
}.

(** The singleton together with the parts of the page it acts on.

    [monitoringInterval] and [loggingInterval] are the two fields of that
    name: whether the field holds a timer handle (the code only tests them
    and passes them to [clearInterval]).  The browser's side is counted
    apart: [reportTimers] is the number of live intervals whose callback is
    the report, and [listenerSets] the number of times the three listeners
    (media query, visibility, resize) have been added; neither is ever
    removed by overwriting a field.  A sample interval is only created while
    [isMonitoring] is false and is cleared where that flag is reset, so the
    field [monitoringInterval] says whether one is live. *)
Record Monitor : Type := mkMonitor {
  degradation : Degradation;
  performanceData : PerformanceData;
  monitoringInterval : bool;
  loggingInterval : bool;
  sampler : option FpsSampler;
  longTaskObserver : bool;
  listenerSets : nat;
  root : RootElement;
  console : list (Level * string);
  policyRecomputes : nat;
  reportTimers : nat
}.

(** The page has listeners of the monitor: their callbacks can run. *)
Definition listeners (m : Monitor) : bool :=
  match listenerSets m with
  | O => false
  | S _ => true
  end.

(** *** Field updates *)

Definition with_degradation (d : Degradation) (m : Monitor) : Monitor :=
  mkMonitor d (performanceData m) (monitoringInterval m) (loggingInterval m)
            (sampler m) (longTaskObserver m) (listenerSets m) (root m) (console m)
            (policyRecomputes m) (reportTimers m).

Definition with_performanceData (p : PerformanceData) (m : Monitor) : Monitor :=
  mkMonitor (degradation m) p (monitoringInterval m) (loggingInterval m)
            (sampler m) (longTaskObserver m) (listenerSets m) (root m) (console m)
            (policyRecomputes m) (reportTimers m).

Definition with_root (r : RootElement) (m : Monitor) : Monitor :=
  mkMonitor (degradation m) (performanceData m) (monitoringInterval m)
            (loggingInterval m) (sampler m) (longTaskObserver m) (listenerSets m) r (console m)
            (policyRecomputes m) (reportTimers m).

Definition with_sampler (s : option FpsSampler) (m : Monitor) : Monitor :=
  mkMonitor (degradation m) (performanceData m) (monitoringInterval m)
            (loggingInterval m) s (longTaskObserver m) (listenerSets m) (root m) (console m)
            (policyRecomputes m) (reportTimers m).

Definition set_fps (v : Z) (p : PerformanceData) : PerformanceData :=
  mkPerformanceData v (fpsHistory p) (longTasks p) (memoryUsage p)
                    (deviceTier p) (isReducedMotion p) (activeAnimations p)
                    (isMonitoring p).

Definition set_fpsHistory (h : list Z) (p : PerformanceData) : PerformanceData :=
  mkPerformanceData (fps p) h (longTasks p) (memoryUsage p)
                    (deviceTier p) (isReducedMotion p) (activeAnimations p)
                    (isMonitoring p).

Definition set_longTasks (l : list LongTask) (p : PerformanceData) : PerformanceData :=
  mkPerformanceData (fps p) (fpsHistory p) l (memoryUsage p)
                    (deviceTier p) (isReducedMotion p) (activeAnimations p)
                    (isMonitoring p).

Definition set_memoryUsage (u : option MemoryUsage) (p : PerformanceData) : PerformanceData :=
  mkPerformanceData (fps p) (fpsHistory p) (longTasks p) u
                    (deviceTier p) (isReducedMotion p) (activeAnimations p)
                    (isMonitoring p).

Definition set_deviceTier (t : Tier) (p : PerformanceData) : PerformanceData :=
  mkPerformanceData (fps p) (fpsHistory p) (longTasks p) (memoryUsage p)
                    t (isReducedMotion p) (activeAnimations p)
                    (isMonitoring p).

Definition set_isReducedMotion (b : bool) (p : PerformanceData) : PerformanceData :=
  mkPerformanceData (fps p) (fpsHistory p) (longTasks p) (memoryUsage p)
                    (deviceTier p) b (activeAnimations p)
                    (isMonitoring p).

Definition set_activeAnimations (a : gset string) (p : PerformanceData) : PerformanceData :=
  mkPerformanceData (fps p) (fpsHistory p) (longTasks p) (memoryUsage p)
                    (deviceTier p) (isReducedMotion p) a
                    (isMonitoring p).

Definition set_isMonitoring (b : bool) (p : PerformanceData) : PerformanceData :=
  mkPerformanceData (fps p) (fpsHistory p) (longTasks p) (memoryUsage p)
                    (deviceTier p) (isReducedMotion p) (activeAnimations p)
                    b.

(** ** The object literal: state before [init] *)

Definition initial : Monitor :=
  {| degradation := mkDegradation false false false false 3;
     performanceData :=
       {| fps := 60; fpsHistory := []; longTasks := []; memoryUsage := None;
          deviceTier := high; isReducedMotion := false;
          activeAnimations := ∅; isMonitoring := false |};
     monitoringInterval := false;
     loggingInterval := false;
     sampler := None;
     longTaskObserver := false;
     listenerSets := 0;
     root := mkRootElement ∅ ∅;
     console := [];
     policyRecomputes := 0;
     reportTimers := 0 |}.

(** ** [log] *)

Definition log (message : string) (level : Level) (m : Monitor) : Monitor :=
  if negb monitoring.enableLogging then m
  else mkMonitor (degradation m) (performanceData m) (monitoringInterval m)
                 (loggingInterval m) (sampler m) (longTaskObserver m) (listenerSets m) (root m)
                 (console m ++ [(level, message)]) (policyRecomputes m)
                 (reportTimers m).

(** ** Degradation controller *)

(** [applyCSSVariables]. *)
Definition applyCSSVariables (m : Monitor) : Monitor :=
  let d := degradation m in
  let st := style (root m) in
  let st :=
    if reduceAnimationDuration d then
      <["--duration-slow" := "250ms"]>
        (<["--duration-base" := "150ms"]>
           (<["--duration-fast" := "100ms"]> st))
    else
      <["--duration-slow" := "500ms"]>
        (<["--duration-base" := "300ms"]>
           (<["--duration-fast" := "150ms"]> st)) in
  let st :=
    if reduceBlurEffects d then <["--glass-blur" := "10px"]> st
    else <["--glass-blur" := "20px"]> st in
  with_root (mkRootElement st (classList (root m))) m.

(** [applyCSSClasses]. *)
Definition applyCSSClasses (m : Monitor) : Monitor :=
  let d := degradation m in
  let p := performanceData m in
  let cl := classList (root m) in
  let cl := cl ∖ {["perf-low"; "perf-medium"; "perf-high"]} in
  let cl := cl ∖ {["reduced-motion"]} in
  let cl := cl ∖ {["no-complex-animations"]} in
  let cl := cl ∖ {["no-parallax"]} in
  let cl := cl ∖ {["reduced-blur"]} in
  let cl := cl ∪ {[ String.append "perf-" (Tier_name (deviceTier p)) ]} in
  let cl := if isReducedMotion p then cl ∪ {["reduced-motion"]} else cl in
  let cl := if disableComplexAnimations d then cl ∪ {["no-complex-animations"]} else cl in
  let cl := if disableParallax d then cl ∪ {["no-parallax"]} else cl in
  let cl := if reduceBlurEffects d then cl ∪ {["reduced-blur"]} else cl in
  with_root (mkRootElement (style (root m)) cl) m.

(** Assignments to the fields of [config.degradation]. *)
Definition set_disableComplexAnimations (b : bool) (d : Degradation) : Degradation :=
  mkDegradation b (reduceAnimationDuration d) (disableParallax d)
                (reduceBlurEffects d) (limitConcurrentAnimations d).

Definition set_reduceAnimationDuration (b : bool) (d : Degradation) : Degradation :=
  mkDegradation (disableComplexAnimations d) b (disableParallax d)
                (reduceBlurEffects d) (limitConcurrentAnimations d).

Definition set_disableParallax (b : bool) (d : Degradation) : Degradation :=
  mkDegradation (disableComplexAnimations d) (reduceAnimationDuration d) b
                (reduceBlurEffects d) (limitConcurrentAnimations d).

Definition set_reduceBlurEffects (b : bool) (d : Degradation) : Degradation :=
  mkDegradation (disableComplexAnimations d) (reduceAnimationDuration d)
                (disableParallax d) b (limitConcurrentAnimations d).

Definition set_limitConcurrentAnimations (n : Z) (d : Degradation) : Degradation :=
  mkDegradation (disableComplexAnimations d) (reduceAnimationDuration d)
                (disableParallax d) (reduceBlurEffects d) n.

(** Statements in sequence: [x |> f |> g] runs [f], then [g]. *)
Local Notation "x |> f" := (f x) (at level 45, left associativity, only parsing).

(** The assignments [applyDegradationStrategy] makes to [config.degradation]:
    the reset of all five fields, then the reduced-motion branch or the
    switch on the tier. *)
Definition strategy (deviceTier : Tier) (isReducedMotion : bool)
    (config : Degradation) : Degradation :=
  let config :=
    config |> set_disableComplexAnimations false
           |> set_reduceAnimationDuration false
           |> set_disableParallax false
           |> set_reduceBlurEffects false
           |> set_limitConcurrentAnimations 3 in
  if isReducedMotion then
    config |> set_disableComplexAnimations true
           |> set_disableParallax true
           |> set_reduceBlurEffects true
           |> set_limitConcurrentAnimations 1
  else
    match deviceTier with
    | low =>
        config |> set_disableComplexAnimations true
               |> set_reduceAnimationDuration true
               |> set_disableParallax true
               |> set_reduceBlurEffects true
               |> set_limitConcurrentAnimations 1
    | medium =>
        config |> set_reduceAnimationDuration true
               |> set_disableParallax true
               |> set_limitConcurrentAnimations 2
    | high =>
        config |> set_limitConcurrentAnimations 5
    end.

(** [applyDegradationStrategy]. *)
Definition applyDegradationStrategy (m : Monitor) : Monitor :=
  let p := performanceData m in
  let m := with_degradation
             (strategy (deviceTier p) (isReducedMotion p) (degradation m)) m in
  let m := applyCSSVariables m in
  let m := applyCSSClasses m in
  let m := log "Degradation strategy applied" info m in
  mkMonitor (degradation m) (performanceData m) (monitoringInterval m)
            (loggingInterval m) (sampler m) (longTaskObserver m) (listenerSets m) (root m)
            (console m) (S (policyRecomputes m)) (reportTimers m).

(** ** Capability profiler *)

(** What the monitor reads from [navigator].  [mobileUserAgent] is the result
    of the mobile-signature test on [navigator.userAgent]; [connection] is
    the [effectiveType] of the first connection object available. *)
Record Navigator : Type := mkNavigator {
  hardwareConcurrency : option Z;
  deviceMemory : option Q;
  mobileUserAgent : bool;
  connection : option string
}.

(** The locals [hardwareConcurrency] and [deviceMemory] of both detectors. *)
Definition coresOf (nav : Navigator) : Z := or_defaultZ (hardwareConcurrency nav) 2.
Definition memoryOf (nav : Navigator) : Q := or_defaultQ (deviceMemory nav) 4.

(** [detectLowEndDevice]. *)
Definition detectLowEndDevice (nav : Navigator) : bool :=
  if coresOf nav <=? 2 then true
  else if Qleb (memoryOf nav) 2 then true
  else match connection nav with
       | Some effectiveType =>
           if String.eqb effectiveType "slow-2g" || String.eqb effectiveType "2g"
           then true else false
       | None => false
       end.

(** [detectReducedMotion]; [matches] is [mediaQuery.matches].  The change
    listener it installs is [onReducedMotionChange]. *)
Definition detectReducedMotion (matches : bool) (nav : Navigator) (m : Monitor) : Monitor :=
  let m := with_performanceData (set_isReducedMotion matches (performanceData m)) m in
  let isMobile := mobileUserAgent nav in
  let isLowEnd := detectLowEndDevice nav in
  if isMobile || isLowEnd
  then with_performanceData (set_isReducedMotion true (performanceData m)) m
  else m.

Definition onReducedMotionChange (matches : bool) (m : Monitor) : Monitor :=
  let m := with_performanceData (set_isReducedMotion matches (performanceData m)) m in
  let m := applyDegradationStrategy m in
  log "Reduced motion preference changed" info m.

(** The tier chosen from the benchmark duration alone. *)
Definition benchmarkTier (duration : Q) : Tier :=
  if Qgtb duration 100 then low
  else if Qgtb duration 50 then medium
  else high.

(** [detectDevicePerformance]; [startTime] and [endTime] are the two readings
    of [performance.now()] around the benchmark loop. *)
Definition detectDevicePerformance (startTime endTime : Q) (nav : Navigator)
    (m : Monitor) : Monitor :=
  let duration := (endTime - startTime)%Q in
  let m := with_performanceData
             (set_deviceTier (benchmarkTier duration) (performanceData m)) m in
  let hardwareConcurrency := coresOf nav in
  let deviceMemory := memoryOf nav in
  let m :=
    if (hardwareConcurrency <=? 2) || Qleb deviceMemory 2 then
      if Tier_eqb (deviceTier (performanceData m)) high
      then with_performanceData (set_deviceTier medium (performanceData m)) m
      else m
    else m in
  log "Device performance detected" info m.

(** ** Admission controller *)

(** [registerAnimation]: the returned boolean and the state afterwards. *)
Definition registerAnimation (animationId : string) (m : Monitor) : bool * Monitor :=
  let limit := limitConcurrentAnimations (degradation m) in
  let active := activeAnimations (performanceData m) in
  if Z.of_nat (size active) >=? limit then
    (false, log "Animation limit reached, skipping" info m)
  else
    (true, with_performanceData
             (set_activeAnimations (active ∪ {[animationId]}) (performanceData m)) m).

(** [unregisterAnimation]. *)
Definition unregisterAnimation (animationId : string) (m : Monitor) : Monitor :=
  with_performanceData
    (set_activeAnimations (activeAnimations (performanceData m) ∖ {[animationId]})
                          (performanceData m)) m.

(** ** Live sampler and transition rule *)

(** [history.reduce((a, b) => a + b, 0)]. *)
Definition sumFPS (history : list Z) : Z := fold_left Z.add history 0.

(** [getAverageFPS], on the history it reads. *)
Definition averageFPS (history : list Z) : Z :=
  if Nat.eqb (length history) 0 then 60
  else Math_round (inject_Z (sumFPS history) / inject_Z (Z.of_nat (length history)))%Q.

Definition getAverageFPS (m : Monitor) : Z :=
  averageFPS (fpsHistory (performanceData m)).

(** [checkPerformanceDegradation]. *)
Definition checkPerformanceDegradation (m : Monitor) : Monitor :=
  let avgFPS := getAverageFPS m in
  let len := Z.of_nat (length (fpsHistory (performanceData m))) in
  let tier := deviceTier (performanceData m) in
  if (avgFPS <? thresholds.lowFPS) && (len >=? 5) then
    if negb (Tier_eqb tier low) then
      let m := with_performanceData (set_deviceTier low (performanceData m)) m in
      let m := applyDegradationStrategy m in
      log "Performance degraded to low tier" info m
    else m
  else if (avgFPS <? thresholds.mediumFPS) && (len >=? 5) then
    if Tier_eqb tier high then
      let m := with_performanceData (set_deviceTier medium (performanceData m)) m in
      let m := applyDegradationStrategy m in
      log "Performance degraded to medium tier" info m
    else m
  else if (avgFPS >=? thresholds.highFPS) && (len >=? 5) then
    if negb (Tier_eqb tier high) then
      let m := with_performanceData (set_deviceTier high (performanceData m)) m in
      let m := applyDegradationStrategy m in
      log "Performance improved to high tier" info m
    else m
  else m.

(** [array.shift()]: drop the first element. *)
Definition shift {A : Type} (l : list A) : list A := tail l.

(** The append of one sample to [fpsHistory] inside [measureFPS]: [push],
    then one [shift] when more than 30 samples are held. *)
Definition pushFPS (v : Z) (history : list Z) : list Z :=
  let history := history ++ [v] in
  if (30 <? length history)%nat then shift history else history.

(** One run of the frame callback [measureFPS] of [startFPSMonitoring];
    [currentTime] is its reading of [performance.now()]. *)
Definition measureFPS (currentTime : Q) (m : Monitor) : Monitor :=
  match sampler m with
  | None => m
  | Some s =>
      let frameCount := frameCount s + 1 in
      let elapsed := (currentTime - lastTime s)%Q in
      if Qgeb elapsed monitoring.fpsWindow then
        let fps := Math_round (inject_Z (frameCount * 1000) / elapsed)%Q in
        let p := performanceData m in
        let p := set_fps fps p in
        let p := set_fpsHistory (pushFPS fps (fpsHistory p)) p in
        let m := with_performanceData p m in
        let m := checkPerformanceDegradation m in
        with_sampler (Some (mkFpsSampler 0 currentTime)) m
      else
        with_sampler (Some (mkFpsSampler frameCount (lastTime s))) m
  end.

(** [startFPSMonitoring]; [now] is the first reading of [performance.now()]. *)
Definition startFPSMonitoring (now : Q) (m : Monitor) : Monitor :=
  with_sampler (Some (mkFpsSampler 0 now)) m.

(** An entry delivered by the [PerformanceObserver]. *)
Record PerformanceEntry : Type := mkPerformanceEntry {
  entry_duration : Q;
  entry_startTime : Q
}.

(** The body of the observer's loop for one entry; [now] is [Date.now()]. *)
Definition recordLongTask (entry : PerformanceEntry) (now : Z) (m : Monitor) : Monitor :=
  if Qgtb (entry_duration entry) thresholds.longTaskThreshold then
    let p := performanceData m in
    let tasks := longTasks p ++ [mkLongTask (entry_duration entry) (entry_startTime entry) now] in
    let tasks := if (10 <? length tasks)%nat then shift tasks else tasks in
    let m := with_performanceData (set_longTasks tasks p) m in
    log "Long task detected" info m
  else m.

(** The observer callback: the loop over [list.getEntries()], each entry with
    the wall-clock reading taken when it is recorded. *)
Definition observeEntries (entries : list (PerformanceEntry * Z)) (m : Monitor) : Monitor :=
  fold_left (fun m e => recordLongTask (fst e) (snd e) m) entries m.

(** [startLongTaskMonitoring]; [available] says that [PerformanceObserver] is
    in [window], [throws] that constructing or starting the observer throws. *)
Definition startLongTaskMonitoring (available throws : bool) (m : Monitor) : Monitor :=
  if available then
    if throws then log "PerformanceObserver for longtask not supported" warn m
    else mkMonitor (degradation m) (performanceData m) (monitoringInterval m)
                   (loggingInterval m) (sampler m) true (listenerSets m) (root m) (console m)
                   (policyRecomputes m) (reportTimers m)
  else m.

(** ** Lifecycle *)

(** What [samplePerformance] reads: [performance.memory] (bytes) and the two
    fields of [performance.timing] it subtracts, when present. *)
Record HeapInfo : Type := mkHeapInfo {
  raw_usedJSHeapSize : Z;
  raw_totalJSHeapSize : Z;
  raw_jsHeapSizeLimit : Z
}.

Definition toMB (bytes : Z) : Z := Math_round (inject_Z bytes / 1048576)%Q.

(** [samplePerformance]. *)
Definition samplePerformance (memory : option HeapInfo) (timing : option (Z * Z))
    (m : Monitor) : Monitor :=
  let m :=
    match memory with
    | Some h =>
        let usage := mkMemoryUsage (toMB (raw_usedJSHeapSize h))
                                   (toMB (raw_totalJSHeapSize h))
                                   (toMB (raw_jsHeapSizeLimit h)) in
        let m := with_performanceData (set_memoryUsage (Some usage) (performanceData m)) m in
        if usedJSHeapSize usage >? thresholds.memoryLimit
        then log "Memory usage high" warn m else m
    | None => m
    end in
  match timing with
  | Some (loadEventEnd, navigationStart) =>
      let pageLoadTime := loadEventEnd - navigationStart in
      if pageLoadTime >? 3000 then log "Page load time high" warn m else m
  | None => m
  end.

(** [pauseMonitoring], [resumeMonitoring], [stopMonitoring].  The last
    clears the interval whose handle [loggingInterval] holds, the one armed
    last: one report timer less. *)
Definition pauseMonitoring (m : Monitor) : Monitor :=
  let m := with_performanceData (set_activeAnimations ∅ (performanceData m)) m in
  log "Monitoring paused" info m.

Definition resumeMonitoring (m : Monitor) : Monitor :=
  log "Monitoring resumed" info m.


(** The environment as [init] finds it. *)
Record Environment : Type := mkEnvironment {
  prefersReducedMotion : bool;
  navigator : Navigator;
  benchmarkStart : Q;
  benchmarkEnd : Q;
  monitoringStart : Q;
  observerAvailable : bool;
  observerThrows : bool
}.

(** [startMonitoring]. *)
Definition startMonitoring (env : Environment) (m : Monitor) : Monitor :=
  if isMonitoring (performanceData m) then m
  else
    let m := with_performanceData (set_isMonitoring true (performanceData m)) m in
    let m := startFPSMonitoring (monitoringStart env) m in
    let m := startLongTaskMonitoring (observerAvailable env) (observerThrows env) m in
    mkMonitor (degradation m) (performanceData m) true (loggingInterval m)
              (sampler m) (longTaskObserver m) (listenerSets m) (root m) (console m)
              (policyRecomputes m) (reportTimers m).

(** [startPerformanceLogging] arms one more report timer and stores its
    handle over the one held; each tick of a report timer is [logReport]. *)
Definition startPerformanceLogging (m : Monitor) : Monitor :=
  mkMonitor (degradation m) (performanceData m) (monitoringInterval m) true
            (sampler m) (longTaskObserver m) (listenerSets m) (root m) (console m)
            (policyRecomputes m) (S (reportTimers m)).

Definition logReport (m : Monitor) : Monitor := log "Performance report" info m.

(** The subscriptions made during [init]: the change listener of the media
    query ([detectReducedMotion]), [setupVisibilityListener] and
    [setupResizeListener].  Their callbacks are [onReducedMotionChange],
    [onVisibilityChange] and [onResize].  Each call adds one more of each
    ([addEventListener] with a new function every time). *)
Definition setupListeners (m : Monitor) : Monitor :=
  mkMonitor (degradation m) (performanceData m) (monitoringInterval m)
            (loggingInterval m) (sampler m) (longTaskObserver m) (S (listenerSets m))
            (root m) (console m) (policyRecomputes m) (reportTimers m).

(** [init]. *)
Definition init (env : Environment) (m : Monitor) : Monitor :=
  let m := detectReducedMotion (prefersReducedMotion env) (navigator env) m in
  let m := detectDevicePerformance (benchmarkStart env) (benchmarkEnd env) (navigator env) m in
  let m := applyDegradationStrategy m in
  let m := startMonitoring env m in
  let m := setupListeners m in
  let m := if monitoring.enableLogging then startPerformanceLogging m else m in
  log "PerformanceMonitor initialized" info m.

(** The callback of the debounced resize listener. *)
Definition onResize (startTime endTime : Q) (nav : Navigator) (m : Monitor) : Monitor :=
  let m := detectDevicePerformance startTime endTime nav m in
  applyDegradationStrategy m.

(** The listener of [visibilitychange]. *)
Definition onVisibilityChange (hidden : bool) (m : Monitor) : Monitor :=
  if hidden then pauseMonitoring m else resumeMonitoring m.

(** ** The monitor as a transition system

    Everything that runs on the page's event loop and touches the monitor:
    [init], the frame callback, the observer callback, the timers, the
    listeners, and the two admission calls made by the rendering code.
    An event is one run of one callback: a page with [listenerSets m]
    listeners of a kind runs the callback that many times for one DOM event,
    and each live report timer ticks on its own.
    ([stopMonitoring] is never called by the page.) *)
Inductive Event : Type :=
| EvInit (env : Environment)
| EvFrame (currentTime : Q)
| EvEntries (entries : list (PerformanceEntry * Z))
| EvSample (memory : option HeapInfo) (timing : option (Z * Z))
| EvReport
| EvReducedMotionChange (matches : bool)
| EvResize (startTime endTime : Q) (nav : Navigator)
| EvVisibilityChange (hidden : bool)
| EvRegister (animationId : string)
| EvUnregister (animationId : string).

Definition step (e : Event) (m : Monitor) : Monitor :=
  match e with
  | EvInit env => init env m
  | EvFrame t => measureFPS t m
  | EvEntries es => if longTaskObserver m then observeEntries es m else m
  | EvSample mem tim => if monitoringInterval m then samplePerformance mem tim m else m
  | EvReport => match reportTimers m with
                | O => m
                | S _ => logReport m
                end
  | EvReducedMotionChange b => if listeners m then onReducedMotionChange b m else m
  | EvResize s e nav => if listeners m then onResize s e nav m else m
  | EvVisibilityChange h => if listeners m then onVisibilityChange h m else m
  | EvRegister id => snd (registerAnimation id m)
  | EvUnregister id => unregisterAnimation id m
  end.

(** Running a sequence of events, oldest first. *)
Definition run (events : list Event) (m : Monitor) : Monitor :=
  fold_left (fun m e => step e m) events m.

(** States the page can be in. *)
Inductive reachable : Monitor -> Prop :=
| reachable_initial : reachable initial
| reachable_step e m : reachable m -> reachable (step e m).

(** ** Animation optimizer: [animate] and [shouldAnimate]

    Callbacks are opaque to the optimizer: a callback is named by a number and
    each call of one is appended to [callbackCalls] with the progress it was
    given.  The closure [animate] creates (its variables [startTime],
    [cancelled], [rafId] and the captured [callback] and [id]) is a record in
    [closures]; pending [requestAnimationFrame] registrations are in
    [frameRequests]. *)

Record Animation : Type := mkAnimation {
  an_callback : nat;
  an_id : option string;
  an_startTime : option Q;
  an_cancelled : bool;
  an_rafId : option nat
}.

Record Window : Type := mkWindow {
  PerformanceMonitor : option Monitor;
  closures : list Animation;
  frameRequests : gmap nat nat;
  nextFrameRequest : nat;
  callbackCalls : list (nat * Q)
}.

(** The object returned by [animate]: [{ cancel: () => {} }] or the handle of
    a running animation. *)
Inductive CancelHandle : Type :=
| NoopCancel
| CancelOf (closure : nat).

Definition with_monitor (pm : option Monitor) (w : Window) : Window :=
  mkWindow pm (closures w) (frameRequests w) (nextFrameRequest w) (callbackCalls w).

Definition with_closure (k : nat) (a : Animation) (w : Window) : Window :=
  mkWindow (PerformanceMonitor w) (<[k := a]> (closures w)) (frameRequests w)
           (nextFrameRequest w) (callbackCalls w).

(** [callback(progress)]. *)
Definition call (callback : nat) (progress : Q) (w : Window) : Window :=
  mkWindow (PerformanceMonitor w) (closures w) (frameRequests w)
           (nextFrameRequest w) (callbackCalls w ++ [(callback, progress)]).

(** [requestAnimationFrame(animate)] for closure [k]: the handle and the
    window afterwards.  Handles are nonzero, hence truthy. *)
Definition requestAnimationFrame (k : nat) (w : Window) : nat * Window :=
  let r := S (nextFrameRequest w) in
  (r, mkWindow (PerformanceMonitor w) (closures w) (<[r := k]> (frameRequests w))
               r (callbackCalls w)).

Definition cancelAnimationFrame (r : nat) (w : Window) : Window :=
  mkWindow (PerformanceMonitor w) (closures w) (delete r (frameRequests w))
           (nextFrameRequest w) (callbackCalls w).

(** [shouldAnimate]. *)
Definition shouldAnimate (w : Window) : bool :=
  match PerformanceMonitor w with
  | Some pm =>
      let p := performanceData pm in
      if isReducedMotion p then false
      else if Tier_eqb (deviceTier p) low then false
      else true
  | None => true
  end.

(** [if (id) window.PerformanceMonitor.unregisterAnimation(id)]; [None] is the
    [TypeError] of a method call on [undefined]. *)
Definition unregisterIfId (id : option string) (w : Window) : option Window :=
  match id with
  | Some s =>
      if truthy id then
        match PerformanceMonitor w with
        | Some pm => Some (with_monitor (Some (unregisterAnimation s pm)) w)
        | None => None
        end
      else Some w
  | None => Some w
  end.

(** [id && !window.PerformanceMonitor.registerAnimation(id)]: the value of the
    condition and the window afterwards; [None] is the [TypeError]. *)
Definition registrationRefused (id : option string) (w : Window) : option (bool * Window) :=
  match id with
  | Some s =>
      if truthy id then
        match PerformanceMonitor w with
        | Some pm =>
            let '(admitted, pm) := registerAnimation s pm in
            Some (negb admitted, with_monitor (Some pm) w)
        | None => None
        end
      else Some (false, w)
  | None => Some (false, w)
  end.

(** [animate(callback, id)]. *)
Definition animate (callback : nat) (id : option string) (w : Window)
    : option (CancelHandle * Window) :=
  if negb (shouldAnimate w) then
    Some (NoopCancel, call callback 1 w)
  else
    match registrationRefused id w with
    | None => None
    | Some (true, w) => Some (NoopCancel, call callback 1 w)
    | Some (false, w) =>
        let k := length (closures w) in
        let w := mkWindow (PerformanceMonitor w)
                          (closures w ++ [mkAnimation callback id None false None])
                          (frameRequests w) (nextFrameRequest w) (callbackCalls w) in
        let '(r, w) := requestAnimationFrame k w in
        let w := with_closure k (mkAnimation callback id None false (Some r)) w in
        Some (CancelOf k, w)
    end.

(** The inner frame callback [animate(timestamp)] of closure [k]. *)
Definition animateFrame (k : nat) (timestamp : Q) (w : Window) : option Window :=
  match closures w !! k with
  | None => Some w
  | Some a =>
      if an_cancelled a then unregisterIfId (an_id a) w
      else
        let startTime :=
          match an_startTime a with
          | Some t => if Qeq_bool t 0 then timestamp else t
          | None => timestamp
          end in
        let a := mkAnimation (an_callback a) (an_id a) (Some startTime)
                             (an_cancelled a) (an_rafId a) in
        let w := with_closure k a w in
        let progress := Math_min ((timestamp - startTime) / 300)%Q 1 in
        let w := call (an_callback a) progress w in
        if Qltb progress 1 then
          let '(r, w) := requestAnimationFrame k w in
          Some (with_closure k (mkAnimation (an_callback a) (an_id a) (an_startTime a)
                                            (an_cancelled a) (Some r)) w)
        else unregisterIfId (an_id a) w
  end.

(** The browser delivering frame request [r] at [timestamp]. *)
Definition deliverFrame (r : nat) (timestamp : Q) (w : Window) : option Window :=
  match frameRequests w !! r with
  | Some k => animateFrame k timestamp (cancelAnimationFrame r w)
  | None => Some w
  end.

(** Invoking [handle.cancel()]. *)
Definition cancel (h : CancelHandle) (w : Window) : option Window :=
  match h with
  | NoopCancel => Some w
  | CancelOf k =>
      match closures w !! k with
      | None => Some w
      | Some a =>
          let a := mkAnimation (an_callback a) (an_id a) (an_startTime a) true (an_rafId a) in
          let w := with_closure k a w in
          let w := match an_rafId a with
                   | Some r => cancelAnimationFrame r w
                   | None => w
                   end in
          unregisterIfId (an_id a) w
      end
  end.

(** The active ticket set as seen from the window. *)
Definition activeTickets (w : Window) : option (gset string) :=
  (fun pm => activeAnimations (performanceData pm)) <$> PerformanceMonitor w.

(** ** Vocabulary of the properties and concrete pages *)

(** A navigator that reports neither hint. *)
Definition noHints (mobile : bool) (conn : option string) : Navigator :=
  mkNavigator None None mobile conn.

(** The rule in the words of the specification: the ordered cases on the
    rounded mean and the current tier. *)
Definition transitionRule (mean : Z) (tier : Tier) : Tier :=
  if mean <? 30 then low
  else if (mean <? 50) && Tier_eqb tier high then medium
  else if (mean >=? 58) && negb (Tier_eqb tier high) then high
  else tier.

(** [checkPerformanceDegradation] either leaves the monitor as it is or sets a
    new tier, recomputes the policy and logs. *)
Definition retier (t : Tier) (message : string) (m : Monitor) : Monitor :=
  log message info
      (applyDegradationStrategy
         (with_performanceData (set_deviceTier t (performanceData m)) m)).

(** The two components of the state the admission controller works on. *)
Definition tickets (m : Monitor) : gset string := activeAnimations (performanceData m).
Definition limit (m : Monitor) : Z := limitConcurrentAnimations (degradation m).

(** The active set is within the configured limit. *)
Definition withinLimit (m : Monitor) : Prop := Z.of_nat (size (tickets m)) <= limit m.

(** The limits of the policy table. *)
Definition tableLimit (z : Z) : Prop := z = 1 \/ z = 2 \/ z = 5.

(** [m'] has the tickets of [m], and the limit of [m] or one of the table. *)
Definition policyOnly (m m' : Monitor) : Prop :=
  tickets m' = tickets m /\ (limit m' = limit m \/ tableLimit (limit m')).

(** A function that leaves [config.degradation] and the active set alone. *)
Definition silent (f : Monitor -> Monitor) : Prop :=
  forall m, tickets (f m) = tickets m /\ degradation (f m) = degradation m.

(** A desktop that reports 8 cores and 8 GB, finishes the benchmark in 10 ms
    and has no reduced-motion preference. *)
Definition fastDesktop : Environment :=
  {| prefersReducedMotion := false;
     navigator := mkNavigator (Some 8) (Some 8%Q) false None;
     benchmarkStart := 0; benchmarkEnd := 10;
     monitoringStart := 0;
     observerAvailable := true; observerThrows := false |}.

(** [init] on a fast desktop, five tickets admitted under the limit 5, then
    five sampling windows with a single frame each. *)
Definition busyThenSlow : list Event :=
  [EvInit fastDesktop;
   EvRegister "a"; EvRegister "b"; EvRegister "c"; EvRegister "d"; EvRegister "e";
   EvFrame 2000; EvFrame 4000; EvFrame 6000; EvFrame 8000; EvFrame 10000].

(** The two sample histories of a monitor. *)
Definition histories (m : Monitor) : list Z * list LongTask :=
  (fpsHistory (performanceData m), longTasks (performanceData m)).

(** A navigator that reports 8 cores and no memory estimate. *)
Definition eightCores : Navigator := mkNavigator (Some 8) None false None.

(** Five samples with mean 60 held at tier medium. *)
Definition fiveGoodSamples : Monitor :=
  with_performanceData
    (set_deviceTier medium
       (set_fpsHistory [60; 58; 59; 60; 61] (performanceData initial)))
    initial.

(** Two samples whose mean, 30.5, lies halfway between two integers. *)
Definition twoSamples : Monitor :=
  with_performanceData (set_fpsHistory [30; 31] (performanceData initial)) initial.

(** Seven samples with mean 29, held at tier high. *)
Definition sevenPoorSamples : Monitor :=
  with_performanceData
    (set_fpsHistory [60; 20; 25; 28; 22; 30; 18] (performanceData initial)) initial.

(** Six samples with mean 54.5, held at tier medium. *)
Definition sixMiddlingSamples : Monitor :=
  with_performanceData
    (set_deviceTier medium
       (set_fpsHistory [55; 52; 57; 54; 56; 53] (performanceData initial)))
    initial.

(** Navigators that report both hints. *)
Definition eightCoresOneGB : Navigator := mkNavigator (Some 8) (Some 1%Q) false None.
Definition twoCoresEightGB : Navigator := mkNavigator (Some 2) (Some 8%Q) false None.
Definition eightCoresEightGB : Navigator := mkNavigator (Some 8) (Some 8%Q) false None.

(** Three tickets held under the limit 3 of the object literal. *)
Definition threeTickets : Monitor :=
  run [EvRegister "a"; EvRegister "b"; EvRegister "c"] initial.

(** Ten long tasks of 60 ms recorded on a fresh monitor. *)
Definition tenLongTasks : Monitor :=
  observeEntries
    (map (fun k => (mkPerformanceEntry 60 (inject_Z k), k)) [1; 2; 3; 4; 5; 6; 7; 8; 9; 10])
    initial.

(** An entry of 80 ms that starts at 11 ms. *)
Definition eleventh : PerformanceEntry := mkPerformanceEntry 80 11.

(** A page whose monitor holds the reduced-motion preference. *)
Definition calmWindow : Window :=
  mkWindow
    (Some (onReducedMotionChange true (init fastDesktop initial)))
    [] ∅ 0 [].

(** ** Vocabulary of the further properties *)

(** The classes [applyCSSClasses] owns: it removes all of them before it adds
    the ones in force. *)
Definition managedClasses : gset string :=
  {["perf-low"; "perf-medium"; "perf-high"; "reduced-motion";
    "no-complex-animations"; "no-parallax"; "reduced-blur"]}.

(** The class of a tier, [`perf-${deviceTier}`]. *)
Definition tierClass (t : Tier) : string := String.append "perf-" (Tier_name t).

(** The custom properties [applyCSSVariables] owns. *)
Definition managedVariables : gset string :=
  {["--duration-fast"; "--duration-base"; "--duration-slow"; "--glass-blur"]}.

(** What the policy is derived from, with the policy itself, and the two
    subscriptions [init] makes. *)
Definition profile (m : Monitor)
    : Degradation * Tier * bool * option FpsSampler * bool :=
  (degradation m, deviceTier (performanceData m),
   isReducedMotion (performanceData m), sampler m, listeners m).

(** The policy held is the one derived from the tier and the preference held. *)
Definition inSync (m : Monitor) : Prop :=
  degradation m =
  strategy (deviceTier (performanceData m)) (isReducedMotion (performanceData m))
           (degradation m).

(** The monitor as the object literal has it, before [init]: no frame
    callback, no listener, and the literal's tier, preference and policy. *)
Definition pristine (m : Monitor) : Prop :=
  profile m = profile initial.

(** The frame-rate data of a monitor: history, last sample, frame callback. *)
Definition samples (m : Monitor) : list Z * Z * option FpsSampler :=
  (fpsHistory (performanceData m), fps (performanceData m), sampler m).

(** No sample, and no frame counter, is negative. *)
Definition samplesNonNegative (m : Monitor) : Prop :=
  Forall (fun v => 0 <= v) (fpsHistory (performanceData m)) /\
  0 <= fps (performanceData m) /\
  (forall s, sampler m = Some s -> 0 <= frameCount s).

(** The active set with the ticket of an animation added, and removed; an
    animation started without an id (or with the empty one) holds none. *)
Definition holdTicket (id : option string) (a : gset string) : gset string :=
  match id with
  | Some s => if truthy id then a ∪ {[s]} else a
  | None => a
  end.

Definition releaseTicket (id : option string) (a : gset string) : gset string :=
  match id with
  | Some s => if truthy id then a ∖ {[s]} else a
  | None => a
  end.

(** The start time the frame callback of an animation works with:
    [if (!startTime) startTime = timestamp]. *)
Definition effectiveStart (a : Animation) (timestamp : Q) : Q :=
  match an_startTime a with
  | Some t => if Qeq_bool t 0 then timestamp else t
  | None => timestamp
  end.

(** The page becoming hidden, seen from the window: the monitor's
    [visibilitychange] listener runs. *)
Definition hidePage (w : Window) : Window :=
  with_monitor (onVisibilityChange true <$> PerformanceMonitor w) w.

(** The monitor after [if (id) unregisterAnimation(id)]. *)
Definition releaseIn (id : option string) (pm : Monitor) : Monitor :=
  match id with
  | Some s => if truthy id then unregisterAnimation s pm else pm
  | None => pm
  end.

(** A closure after [cancelled = true]. *)
Definition cancelled (a : Animation) : Animation :=
  mkAnimation (an_callback a) (an_id a) (an_startTime a) true (an_rafId a).



(** ** Animation optimizer: [batchUpdate] and [cleanup]

    Update functions are opaque and named by numbers, like callbacks.
    [pendingUpdates] is a JavaScript [Set] whose iteration order matters
    ([Array.from]): a list without repetitions, in insertion order.  A
    pending frame request of the optimizer runs the outer callback of
    [batchUpdate] (the flush) or the inner one (the updates of a flushed
    batch).  [throws] says which update functions throw when called. *)

Inductive BatchFrame : Type :=
| FlushPending
| RunUpdates (updates : list nat).

Record Batcher : Type := mkBatcher {
  pendingUpdates : list nat;
  batchUpdateTimer : option nat;
  batchFrames : gmap nat BatchFrame;
  nextBatchFrame : nat;
  updatesRun : list nat;
  batchErrors : list nat
}.

(** The optimizer as the object literal has it. *)
Definition idleBatcher : Batcher := mkBatcher [] None ∅ 0 [] [].

(** [set.add(x)]. *)
Definition setAdd (x : nat) (l : list nat) : list nat :=
  if decide (x ∈ l) then l else l ++ [x].

(** [batchUpdate(updateFn)]. *)
Definition batchUpdate (updateFn : nat) (b : Batcher) : Batcher :=
  let pending := setAdd updateFn (pendingUpdates b) in
  match batchUpdateTimer b with
  | Some _ =>
      mkBatcher pending (batchUpdateTimer b) (batchFrames b) (nextBatchFrame b)
                (updatesRun b) (batchErrors b)
  | None =>
      let r := S (nextBatchFrame b) in
      mkBatcher pending (Some r) (<[r := FlushPending]> (batchFrames b)) r
                (updatesRun b) (batchErrors b)
  end.

(** The body of [updates.forEach]: the call of one update inside [try],
    with the [console.error] of the [catch]. *)
Definition runUpdate (throws : nat -> bool) (b : Batcher) (fn : nat) : Batcher :=
  mkBatcher (pendingUpdates b) (batchUpdateTimer b) (batchFrames b) (nextBatchFrame b)
            (updatesRun b ++ [fn])
            (if throws fn then batchErrors b ++ [fn] else batchErrors b).

(** The browser delivering frame request [r] of the optimizer. *)
Definition deliverBatchFrame (throws : nat -> bool) (r : nat) (b : Batcher) : Batcher :=
  match batchFrames b !! r with
  | None => b
  | Some FlushPending =>
      let updates := pendingUpdates b in
      let r' := S (nextBatchFrame b) in
      mkBatcher [] None (<[r' := RunUpdates updates]> (delete r (batchFrames b))) r'
                (updatesRun b) (batchErrors b)
  | Some (RunUpdates updates) =>
      fold_left (runUpdate throws) updates
        (mkBatcher (pendingUpdates b) (batchUpdateTimer b) (delete r (batchFrames b))
                   (nextBatchFrame b) (updatesRun b) (batchErrors b))
  end.

(** [cleanup], as far as the batched updates go (the [animationQueue] it
    also empties is never filled by the optimizer itself). *)
Definition cleanup (b : Batcher) : Batcher :=
  let frames :=
    match batchUpdateTimer b with
    | Some r => delete r (batchFrames b)
    | None => batchFrames b
    end in
  mkBatcher [] None frames (nextBatchFrame b) (updatesRun b) (batchErrors b).

(** A sequence of [batchUpdate] calls. *)
Definition batchUpdates (fns : list nat) (b : Batcher) : Batcher :=
  fold_left (fun b fn => batchUpdate fn b) fns b.

(** The pending set after adding the functions of [fns] in order. *)
Definition addAll (fns : list nat) (pending : list nat) : list nat :=
  fold_left (fun l fn => setAdd fn l) fns pending.

(** ** Animation optimizer: [renderList]

    The container is [None] when the argument is null, else the list of its
    children; the fragment is the list of its child nodes.  Appending the
    fragment to the container moves all its nodes and leaves it empty; each
    such append is also recorded.  The [await] after a batch lets other code
    run; the model follows this call only. *)

Section RenderList.

Context {Item Node : Type}.

Variable renderItem : Item -> nat -> Node.

Record RenderState : Type := mkRenderState {
  rs_children : list Node;
  rs_fragment : list Node;
  rs_appends : list (list Node)
}.

(** [container.appendChild(fragment)]. *)
Definition appendFragment (st : RenderState) : RenderState :=
  mkRenderState (rs_children st ++ rs_fragment st) []
                (rs_appends st ++ [rs_fragment st]).

(** [(i + 1) % batchSize === 0]; the remainder by 0 is [NaN]. *)
Definition isBatchEnd (i batchSize : nat) : bool :=
  match batchSize with
  | O => false
  | S _ => Nat.eqb (S i mod batchSize) 0
  end.

(** The body of the loop for the item at index [i]. *)
Definition renderStep (batchSize : nat) (st : RenderState) (item : Item) (i : nat)
    : RenderState :=
  let st := mkRenderState (rs_children st) (rs_fragment st ++ [renderItem item i])
                          (rs_appends st) in
  if isBatchEnd i batchSize then appendFragment st else st.

(** The loop from index [i] on. *)
Fixpoint renderLoop (batchSize : nat) (items : list Item) (i : nat) (st : RenderState)
    : RenderState :=
  match items with
  | [] => st
  | item :: rest => renderLoop batchSize rest (S i) (renderStep batchSize st item i)
  end.

(** [renderList(items, renderItem, container, batchSize)]: the children of
    the container afterwards and the appends made, oldest first. *)
Definition renderList (items : list Item) (container : option (list Node))
    (batchSize : nat) : option (list Node) * list (list Node) :=
  match container with
  | None => (None, [])
  | Some old =>
      if Nat.eqb (length items) 0 then (Some old, [])
      else
        let st := renderLoop batchSize items 0 (mkRenderState [] [] []) in
        let st := if (0 <? length (rs_fragment st))%nat then appendFragment st else st in
        (Some (rs_children st), rs_appends st)
  end.

(** The nodes of the items from index [i] on, in order. *)
Definition renderedFrom (i : nat) (items : list Item) : list Node :=
  imap (fun j item => renderItem item (i + j)) items.

End RenderList.

(** ** Animation optimizer: [animateElement] and the three entrances

    An element is its [id], its [className] and the properties of its inline
    style.  A style value is a text or the transition
    [`all ${duration}ms ${easing}`].  [Object.assign(element.style, styles)]
    is the union that prefers [styles].  The promise returned is already
    resolved, or is resolved by a timer whose callback is [finishTransition];
    [Threw] is the [TypeError] of reading [style] of [null]. *)

Inductive StyleValue : Type :=
| Text (s : string)
| TransitionAll (duration : Q) (easing : string).

Record Element : Type := mkElement {
  el_id : string;
  el_className : string;
  el_style : gmap string StyleValue
}.

Record AnimateOptions : Type := mkAnimateOptions {
  opt_duration : option Q;
  opt_easing : option string;
  opt_id : option string
}.

Inductive Settled : Type :=
| Threw
| Resolved (element : option Element)
| Pending (element : Element) (delay : Q).

Definition setStyle (k : string) (v : StyleValue) (el : Element) : Element :=
  mkElement (el_id el) (el_className el) (<[k := v]> (el_style el)).

Definition assignStyles (styles : gmap string StyleValue) (el : Element) : Element :=
  mkElement (el_id el) (el_className el) (styles ∪ el_style el).

(** [s || dflt] on an optional string: [undefined] and [''] are falsy. *)
Definition or_defaultS (s : option string) (dflt : string) : string :=
  match s with
  | Some v => if String.eqb v "" then dflt else v
  | None => dflt
  end.

(** [animateElement(element, styles, options)]. *)
Definition animateElement (w : Window) (element : option Element)
    (styles : gmap string StyleValue) (options : AnimateOptions) : Settled :=
  match element with
  | None => Threw
  | Some el =>
      if negb (shouldAnimate w) then Resolved (Some (assignStyles styles el))
      else
        let duration := or_defaultQ (opt_duration options) 300 in
        let easing := or_defaultS (opt_easing options) "ease-out" in
        let el := setStyle "transition" (TransitionAll duration easing) el in
        let el := assignStyles styles el in
        Pending el duration
  end.

(** The callback of the timer of [animateElement]. *)
Definition finishTransition (el : Element) : Element :=
  setStyle "transition" (Text "") el.

(** [element.id || element.className]. *)
Definition idOrClass (el : Element) : string :=
  if String.eqb (el_id el) "" then el_className el else el_id el.

(** A default parameter [duration = 300]: used when the argument is
    [undefined]. *)
Definition defaultDuration (duration : option Q) : Q :=
  match duration with Some d => d | None => 300 end.

(** [fadeIn(element, duration)]. *)
Definition fadeIn (w : Window) (element : option Element) (duration : option Q) : Settled :=
  match element with
  | None => Resolved None
  | Some el =>
      animateElement w (Some el)
        {[ "opacity" := Text "1"; "transform" := Text "translateZ(0) scale(1)" ]}
        (mkAnimateOptions (Some (defaultDuration duration)) None
                          (Some (String.append "fade-in-" (idOrClass el))))
  end.

(** [slideIn(element, duration)]. *)
Definition slideIn (w : Window) (element : option Element) (duration : option Q) : Settled :=
  match element with
  | None => Resolved None
  | Some el =>
      let el := setStyle "opacity" (Text "0") el in
      let el := setStyle "transform" (Text "translateZ(0) translateY(20px)") el in
      animateElement w (Some el)
        {[ "opacity" := Text "1"; "transform" := Text "translateZ(0) translateY(0)" ]}
        (mkAnimateOptions (Some (defaultDuration duration)) None
                          (Some (String.append "slide-in-" (idOrClass el))))
  end.

(** [scaleIn(element, duration)]. *)
Definition scaleIn (w : Window) (element : option Element) (duration : option Q) : Settled :=
  match element with
  | None => Resolved None
  | Some el =>
      let el := setStyle "opacity" (Text "0") el in
      let el := setStyle "transform" (Text "translateZ(0) scale(0.9)") el in
      animateElement w (Some el)
        {[ "opacity" := Text "1"; "transform" := Text "translateZ(0) scale(1)" ]}
        (mkAnimateOptions (Some (defaultDuration duration)) None
                          (Some (String.append "scale-in-" (idOrClass el))))
  end.

(** The element once the promise of a call is resolved: at once, or after
    the timer has run. *)
Definition settledElement (s : Settled) : option Element :=
  match s with
  | Threw => None
  | Resolved el => el
  | Pending el _ => Some (finishTransition el)
  end.

(** ** Animation optimizer: [throttledScroll] and [debouncedScroll]

    Scroll events are named by numbers; the callback is opaque and its calls
    are recorded with the event passed.  Each record below is the closure
    the function returns: its variable ([ticking], [timeout]) and the frame
    or timer callbacks it has requested, each with the event it captured.
    Neither closure reads its [delay] argument except to arm the timer. *)

Record Throttled : Type := mkThrottled {
  th_ticking : bool;
  th_frames : list nat;
  th_calls : list nat
}.

(** The handler returned by [throttledScroll]. *)
Definition throttledHandler (event : nat) (t : Throttled) : Throttled :=
  if negb (th_ticking t)
  then mkThrottled true (th_frames t ++ [event]) (th_calls t)
  else t.

(** One frame callback requested by the handler. *)
Definition throttledCallback (t : Throttled) (event : nat) : Throttled :=
  mkThrottled false (th_frames t) (th_calls t ++ [event]).

(** The next animation frame: the requested callbacks run, oldest first. *)
Definition throttledFrame (t : Throttled) : Throttled :=
  fold_left throttledCallback (th_frames t)
            (mkThrottled (th_ticking t) [] (th_calls t)).

Record Debounced : Type := mkDebounced {
  db_timeout : option nat;
  db_timers : gmap nat nat;
  db_nextTimer : nat;
  db_calls : list nat
}.

(** The handler returned by [debouncedScroll]. *)
Definition debouncedHandler (event : nat) (d : Debounced) : Debounced :=
  let timers :=
    match db_timeout d with
    | Some t => delete t (db_timers d)
    | None => db_timers d
    end in
  let t' := S (db_nextTimer d) in
  mkDebounced (Some t') (<[t' := event]> timers) t' (db_calls d).

(** Timer [t] firing after its delay. *)
Definition debouncedFire (t : nat) (d : Debounced) : Debounced :=
  match db_timers d !! t with
  | Some event =>
      mkDebounced None (delete t (db_timers d)) (db_nextTimer d) (db_calls d ++ [event])
  | None => d
  end.

(** ** Concrete pages of the further properties *)

(** The monitor of a fast desktop after [init]. *)
Definition readyMonitor : Monitor := init fastDesktop initial.

(** A page with that monitor and no animation yet. *)
Definition readyWindow : Window := mkWindow (Some readyMonitor) [] ∅ 0 [].

(** A page without [window.PerformanceMonitor]. *)
Definition bareWindow : Window := mkWindow None [] ∅ 0 [].

(** The closure of [animate 7 "fade"] before its first frame, and the page
    after that call on [readyWindow]. *)
Definition fadeAnimation : Animation :=
  mkAnimation 7 (Some "fade") None false (Some 1%nat).

Definition runningMonitor : Monitor := snd (registerAnimation "fade" readyMonitor).

Definition runningWindow : Window :=
  mkWindow (Some runningMonitor) [fadeAnimation] {[1%nat := 0%nat]} 1 [].

(** A page whose monitor the sampler has brought down to tier low. *)
Definition slowWindow : Window :=
  mkWindow (Some (run busyThenSlow initial)) [] ∅ 0 [].

(** An update function that throws: number 2. *)
Definition secondThrows (fn : nat) : bool := Nat.eqb fn 2.

(** A throttled and a debounced handler at rest. *)
Definition restingThrottle : Throttled := mkThrottled false [] [].
Definition restingDebounce : Debounced := mkDebounced None ∅ 0 [].

(** ** Vocabulary of timers and listeners *)

(** The browser's side of what [init] subscribes to, with the handle field
    of the report timer. *)
Definition subscriptions (m : Monitor) : nat * nat * bool :=
  (listenerSets m, reportTimers m, loggingInterval m).



(** A phone: no reduced-motion preference set, 4 cores and 1 GB reported,
    a benchmark of 20 ms. *)
Definition smallPhone : Environment :=
  {| prefersReducedMotion := false;
     navigator := mkNavigator (Some 4) (Some 1%Q) true None;
     benchmarkStart := 0; benchmarkEnd := 20;
     monitoringStart := 5;
     observerAvailable := true; observerThrows := false |}.

(** * Properties *)

(** ** Tiers *)

Lemma Tier_eqb_eq a b : Tier_eqb a b = true <-> a = b.
Proof. destruct a, b; simpl; split; congruence. Qed.


(** ** Numbers *)

Lemma Qleb_le x y : Qleb x y = true <-> (x <= y)%Q.
Proof. apply Qle_bool_iff. Qed.

Lemma Qltb_lt x y : Qltb x y = true <-> (x < y)%Q.
Proof.
  unfold Qltb. rewrite negb_true_iff. split.
  - intros Hb. apply Qnot_le_lt. intros Hle.
    apply Qle_bool_iff in Hle. congruence.
  - intros Hlt. destruct (Qle_bool y x) eqn:Hb; [|reflexivity].
    apply Qle_bool_iff in Hb. exfalso. exact (Qlt_not_le _ _ Hlt Hb).
Qed.

Lemma Qleb_gt x y : Qleb x y = false <-> (y < x)%Q.
Proof.
  rewrite <- Qltb_lt. unfold Qltb, Qleb.
  destruct (Qle_bool x y); simpl; split; congruence.
Qed.

Lemma Qltb_ge x y : Qltb x y = false <-> (y <= x)%Q.
Proof.
  rewrite <- Qleb_le. unfold Qltb, Qleb.
  destruct (Qle_bool y x); simpl; split; congruence.
Qed.

(** [Math_round x] is the integer [r] with [r - 1/2 <= x < r + 1/2]. *)
Lemma Math_round_bounds x :
  (inject_Z (Math_round x) - (1 # 2) <= x)%Q /\
  (x < inject_Z (Math_round x) + (1 # 2))%Q.
Proof.
  unfold Math_round.
  pose proof (Qfloor_le (x + (1 # 2))) as Hlo.
  pose proof (Qlt_floor (x + (1 # 2))) as Hhi.
  rewrite inject_Z_plus in Hhi.
  change (inject_Z 1) with 1%Q in Hhi.
  split; lra.
Qed.

Lemma Math_round_unique x r :
  (inject_Z r - (1 # 2) <= x)%Q -> (x < inject_Z r + (1 # 2))%Q ->
  Math_round x = r.
Proof.
  intros Hlo Hhi. unfold Math_round. symmetry.
  apply Z.le_antisymm.
  - rewrite <- (Qfloor_Z r) at 1. apply Qfloor_resp_le. lra.
  - assert (Hlt : (x + (1 # 2) < inject_Z (r + 1))%Q).
    { rewrite inject_Z_plus. change (inject_Z 1) with 1%Q. lra. }
    pose proof (Qfloor_le (x + (1 # 2))) as Hfl.
    assert (Hz : (inject_Z (Qfloor (x + (1 # 2))) < inject_Z (r + 1))%Q)
      by (eapply Qle_lt_trans; eassumption).
    rewrite <- Zlt_Qlt in Hz. lia.
Qed.

(** ** What a policy evaluation touches *)

Lemma log_degradation msg lvl m : degradation (log msg lvl m) = degradation m.
Proof. reflexivity. Qed.

Lemma log_performanceData msg lvl m : performanceData (log msg lvl m) = performanceData m.
Proof. reflexivity. Qed.

Lemma log_policyRecomputes msg lvl m : policyRecomputes (log msg lvl m) = policyRecomputes m.
Proof. reflexivity. Qed.

Lemma applyDegradationStrategy_degradation m :
  degradation (applyDegradationStrategy m) =
  strategy (deviceTier (performanceData m)) (isReducedMotion (performanceData m))
           (degradation m).
Proof. reflexivity. Qed.

Lemma applyDegradationStrategy_performanceData m :
  performanceData (applyDegradationStrategy m) = performanceData m.
Proof. reflexivity. Qed.

Lemma applyDegradationStrategy_policyRecomputes m :
  policyRecomputes (applyDegradationStrategy m) = S (policyRecomputes m).
Proof. reflexivity. Qed.

(** The policy does not depend on the policy it replaces. *)
Lemma strategy_fresh t r d d' : strategy t r d = strategy t r d'.
Proof. destruct t, r; reflexivity. Qed.

(** The policy table of the tiers, without the reduced-motion preference. *)
Lemma strategy_table d :
  strategy low false d = mkDegradation true true true true 1 /\
  strategy medium false d = mkDegradation false true true false 2 /\
  strategy high false d = mkDegradation false false false false 5.
Proof. repeat split. Qed.

(** C1, as the code has it: with the reduced-motion preference set, a policy
    evaluation sets [disableComplexAnimations], [disableParallax] and
    [reduceBlurEffects] and the limit 1 for every tier, but leaves
    [reduceAnimationDuration] at the [false] of the reset; the low tier
    without the preference sets all four toggles. *)
Theorem reduced_motion_policy_keeps_duration (m : Monitor) :
  let m' := applyDegradationStrategy
              (with_performanceData
                 (set_isReducedMotion true (performanceData m)) m) in
  degradation m' = mkDegradation true false true true 1 /\
  reduceAnimationDuration (degradation m') = false /\
  reduceAnimationDuration (strategy low false (degradation m)) = true.
Proof.
  cbv zeta. rewrite applyDegradationStrategy_degradation. simpl.
  destruct (deviceTier (performanceData m)); repeat split.
Qed.

(** ** Capability profiler *)

Lemma coresOf_absent nav : hardwareConcurrency nav = None -> coresOf nav = 2.
Proof. unfold coresOf. intros ->. reflexivity. Qed.

Lemma memoryOf_absent nav : deviceMemory nav = None -> memoryOf nav = 4%Q.
Proof. unfold memoryOf. intros ->. reflexivity. Qed.

Lemma coresOf_reported nav c :
  hardwareConcurrency nav = Some c -> c <> 0 -> coresOf nav = c.
Proof.
  unfold coresOf. intros -> Hc. simpl.
  destruct (Z.eqb_spec c 0); congruence.
Qed.

Lemma memoryOf_reported nav q :
  deviceMemory nav = Some q -> ~ (q == 0)%Q -> memoryOf nav = q.
Proof.
  unfold memoryOf. intros -> Hq. simpl.
  destruct (Qeq_bool q 0) eqn:E; [|reflexivity].
  apply Qeq_bool_iff in E. contradiction.
Qed.

Lemma benchmarkTier_spec d :
  ((100 < d)%Q -> benchmarkTier d = low) /\
  ((50 < d)%Q -> (d <= 100)%Q -> benchmarkTier d = medium) /\
  ((d <= 50)%Q -> benchmarkTier d = high).
Proof.
  unfold benchmarkTier, Qgtb. repeat split.
  - intros H. apply Qltb_lt in H. rewrite H. reflexivity.
  - intros H1 H2. apply Qltb_lt in H1. apply Qltb_ge in H2.
    rewrite H2, H1. reflexivity.
  - intros H.
    assert (H100 : (d <= 100)%Q) by lra.
    apply Qltb_ge in H, H100. rewrite H100, H. reflexivity.
Qed.

(** The tier after [detectDevicePerformance]: the benchmark tier, with [high]
    replaced by [medium] when the core count or the memory is at most 2. *)
Lemma detectDevicePerformance_tier startTime endTime nav m :
  deviceTier (performanceData (detectDevicePerformance startTime endTime nav m)) =
  let t := benchmarkTier (endTime - startTime) in
  if (coresOf nav <=? 2) || Qleb (memoryOf nav) 2
  then match t with high => medium | _ => t end
  else t.
Proof.
  unfold detectDevicePerformance. cbv zeta. rewrite log_performanceData.
  destruct ((coresOf nav <=? 2) || Qleb (memoryOf nav) 2); simpl;
    destruct (benchmarkTier (endTime - startTime)); reflexivity.
Qed.

Lemma weak_hardware_iff nav :
  (coresOf nav <=? 2) || Qleb (memoryOf nav) 2 = true <->
  coresOf nav <= 2 \/ (memoryOf nav <= 2)%Q.
Proof. rewrite orb_true_iff, Z.leb_le, Qleb_le. reflexivity. Qed.

(** The two tests of the demotion, on the hints themselves. *)
Lemma coresOf_few nav :
  coresOf nav <= 2 <->
  match hardwareConcurrency nav with Some c => c <= 2 | None => True end.
Proof.
  unfold coresOf, or_defaultZ. destruct (hardwareConcurrency nav) as [c|].
  - destruct (Z.eqb_spec c 0); lia.
  - lia.
Qed.

Lemma memoryOf_little nav :
  (memoryOf nav <= 2)%Q <->
  match deviceMemory nav with
  | Some mem => (mem <= 2)%Q /\ ~ (mem == 0)%Q
  | None => False
  end.
Proof.
  unfold memoryOf, or_defaultQ. destruct (deviceMemory nav) as [q|].
  - destruct (Qeq_bool q 0) eqn:E.
    + apply Qeq_bool_iff in E. split.
      * intros H. exfalso. vm_compute in H. apply H. reflexivity.
      * intros [_ H]. contradiction.
    + split.
      * intros H. split; [exact H|]. intros Hq. apply Qeq_bool_iff in Hq. congruence.
      * intros [H _]. exact H.
  - split; [|contradiction]. intros H. vm_compute in H. apply H. reflexivity.
Qed.

(** C4: the benchmark duration selects low above 100 ms, medium in (50, 100]
    and high up to 50 ms; a high result ends as medium exactly when the core
    count is at most 2 or the device memory is at most 2, and a medium or low
    result is kept.  Core count and memory are read off the navigator: a
    reported core count [c] and memory [mem] (neither 0) demote exactly when
    [c <= 2] or [mem <= 2]; an absent or zero core hint counts as few cores,
    an absent or zero memory hint as enough memory. *)
Theorem detectDevicePerformance_classifies (startTime endTime : Q)
    (nav : Navigator) (m : Monitor) :
  let d := (endTime - startTime)%Q in
  let tier' :=
    deviceTier (performanceData (detectDevicePerformance startTime endTime nav m)) in
  let fewCores :=
    match hardwareConcurrency nav with Some c => c <= 2 | None => True end in
  let littleMemory :=
    match deviceMemory nav with
    | Some mem => (mem <= 2)%Q /\ ~ (mem == 0)%Q
    | None => False
    end in
  let weak := fewCores \/ littleMemory in
  ((100 < d)%Q -> benchmarkTier d = low /\ tier' = low) /\
  ((50 < d)%Q /\ (d <= 100)%Q -> benchmarkTier d = medium /\ tier' = medium) /\
  ((d <= 50)%Q ->
     benchmarkTier d = high /\ (tier' = medium <-> weak) /\ (tier' = high <-> ~ weak)) /\
  (forall c mem,
     hardwareConcurrency nav = Some c -> c <> 0 ->
     deviceMemory nav = Some mem -> ~ (mem == 0)%Q ->
     (weak <-> c <= 2 \/ (mem <= 2)%Q)) /\
  (weak <-> coresOf nav <= 2 \/ (memoryOf nav <= 2)%Q).
Proof.
  cbv zeta. rewrite detectDevicePerformance_tier. cbv zeta.
  destruct (benchmarkTier_spec (endTime - startTime)) as (Hlow & Hmed & Hhigh).
  pose proof (weak_hardware_iff nav) as Hweak.
  rewrite (coresOf_few nav), (memoryOf_little nav) in Hweak.
  split; [|split; [|split; [|split]]].
  - intros H. split; [auto|]. rewrite (Hlow H). destruct (_ || _); reflexivity.
  - intros [H1 H2]. split; [auto|]. rewrite (Hmed H1 H2). destruct (_ || _); reflexivity.
  - intros H. split; [auto|]. rewrite (Hhigh H). split; split.
    + destruct (_ || _); intros Ht; [apply Hweak; reflexivity | discriminate].
    + intros Hw. apply Hweak in Hw. rewrite Hw. reflexivity.
    + destruct (_ || _); intros Ht Hw; [discriminate|].
      apply Hweak in Hw. discriminate.
    + intros Hw. destruct (_ || _); [|reflexivity].
      exfalso. apply Hw, Hweak. reflexivity.
  - intros c mem Hc Hc0 Hmem Hmem0. rewrite Hc, Hmem. tauto.
  - rewrite (coresOf_few nav), (memoryOf_little nav). reflexivity.
Qed.

(** C2, counterexample: a 10 ms benchmark (tier high) on a navigator without
    either hint.  The defaults 2 and 4 are used, and the default of 2 cores
    meets the [<= 2] test: the tier ends as medium, not high. *)
Lemma absent_hints_demote_high :
  let nav := noHints false None in
  let m' := detectDevicePerformance 0 10 nav initial in
  hardwareConcurrency nav = None /\ deviceMemory nav = None /\
  benchmarkTier (10 - 0) = high /\
  deviceTier (performanceData m') = medium /\
  deviceTier (performanceData m') <> high.
Proof. cbv zeta. repeat split. discriminate. Qed.

(** C2, amended: absent hints are replaced by 2 cores and 4 GB.  The core
    default alone triggers the demotion (a high benchmark result with the
    core hint absent ends as medium, whatever the memory hint); the memory
    default does not (with more than 2 cores reported and no memory hint the
    benchmark tier is kept). *)
Theorem absent_hints_defaults (startTime endTime : Q) (nav : Navigator) (m : Monitor) :
  let tier' :=
    deviceTier (performanceData (detectDevicePerformance startTime endTime nav m)) in
  let t := benchmarkTier (endTime - startTime) in
  (hardwareConcurrency nav = None ->
     coresOf nav = 2 /\ tier' = match t with high => medium | _ => t end) /\
  (deviceMemory nav = None ->
     memoryOf nav = 4%Q /\ (2 < coresOf nav -> tier' = t)).
Proof.
  cbv zeta. rewrite detectDevicePerformance_tier. cbv zeta. split.
  - intros Hc. rewrite (coresOf_absent nav Hc). split; reflexivity.
  - intros Hm. rewrite (memoryOf_absent nav Hm). split; [reflexivity|].
    intros Hc. apply Z.leb_gt in Hc. rewrite Hc. reflexivity.
Qed.

(** ** Average frame rate *)

Lemma averageFPS_nil : averageFPS [] = 60.
Proof. reflexivity. Qed.

Lemma averageFPS_cons v history :
  averageFPS (v :: history) =
  Math_round (inject_Z (sumFPS (v :: history)) /
              inject_Z (Z.of_nat (length (v :: history))))%Q.
Proof. reflexivity. Qed.

Lemma fold_left_add_shift (l : list Z) (a : Z) :
  fold_left Z.add l a = a + fold_left Z.add l 0.
Proof.
  revert a. induction l as [|x l IH]; intros a; simpl.
  - lia.
  - rewrite (IH (a + x)), (IH (0 + x)). lia.
Qed.

Lemma sumFPS_cons v h : sumFPS (v :: h) = v + sumFPS h.
Proof. unfold sumFPS. simpl. apply fold_left_add_shift. Qed.

Lemma sumFPS_bounds lo hi h :
  Forall (fun v => lo <= v <= hi) h ->
  Z.of_nat (length h) * lo <= sumFPS h <= Z.of_nat (length h) * hi.
Proof.
  induction 1 as [|v h Hv Hh IH].
  - unfold sumFPS. simpl. lia.
  - rewrite sumFPS_cons. simpl length. lia.
Qed.

(** [reduce] from the left with [+] adds up the whole history. *)
Lemma sumFPS_foldr h : sumFPS h = foldr Z.add 0 h.
Proof.
  induction h as [|v h IH]; [reflexivity|].
  rewrite sumFPS_cons, IH. reflexivity.
Qed.

(** Rounding a quotient of integers, in integer arithmetic. *)
Lemma Math_round_quotient (a b : Z) :
  0 < b -> Math_round (inject_Z a / inject_Z b) = (2 * a + b) / (2 * b).
Proof.
  intros Hb.
  assert (Hq : (0 < inject_Z b)%Q)
    by (change 0%Q with (inject_Z 0); rewrite <- Zlt_Qlt; exact Hb).
  pose proof (Z.div_mod (2 * a + b) (2 * b) ltac:(lia)) as Hdm.
  pose proof (Z.mod_pos_bound (2 * a + b) (2 * b) ltac:(lia)) as Hmod.
  set (r := (2 * a + b) / (2 * b)) in *.
  apply Math_round_unique.
  - apply Qle_shift_div_l; [exact Hq|].
    assert (H : ((inject_Z r - (1 # 2)) * inject_Z b == inject_Z (2 * r * b - b) / 2)%Q).
    { unfold Z.sub. rewrite inject_Z_plus, inject_Z_opp, !inject_Z_mult.
      change (inject_Z 2) with 2%Q. field. }
    rewrite H. apply Qle_shift_div_r; [reflexivity|].
    change 2%Q with (inject_Z 2). rewrite <- inject_Z_mult, <- Zle_Qle. lia.
  - apply Qlt_shift_div_r; [exact Hq|].
    assert (H : ((inject_Z r + (1 # 2)) * inject_Z b == inject_Z (2 * r * b + b) / 2)%Q).
    { rewrite inject_Z_plus, !inject_Z_mult. change (inject_Z 2) with 2%Q. field. }
    rewrite H. apply Qlt_shift_div_l; [reflexivity|].
    change 2%Q with (inject_Z 2). rewrite <- inject_Z_mult, <- Zlt_Qlt. lia.
Qed.

(** The nearest integer to [a / b], halves up, is the only [r] with
    [2 b r - b <= 2 a < 2 b r + b]. *)
Lemma nearest_unique (a b r : Z) :
  0 < b -> ((2 * a + b) / (2 * b) = r <-> 2 * b * r - b <= 2 * a < 2 * b * r + b).
Proof.
  intros Hb. split.
  - intros <-.
    pose proof (Z.div_mod (2 * a + b) (2 * b) ltac:(lia)) as Hdm.
    pose proof (Z.mod_pos_bound (2 * a + b) (2 * b) ltac:(lia)) as Hmod.
    lia.
  - intros [Hlo Hhi]. symmetry. apply (Z.div_unique _ _ r (2 * a + b - 2 * b * r)); lia.
Qed.

Lemma averageFPS_nearest h :
  h <> [] ->
  averageFPS h =
  (2 * foldr Z.add 0 h + Z.of_nat (length h)) / (2 * Z.of_nat (length h)).
Proof.
  intros Hne. destruct h as [|v h]; [congruence|].
  rewrite averageFPS_cons, sumFPS_foldr.
  apply Math_round_quotient. simpl length. lia.
Qed.

(** C8: on an empty history [getAverageFPS] returns 60 (so not 0); on a
    non-empty one it returns the integer nearest to the arithmetic mean of the
    whole history, halves rounded up.  The mean is taken of the sum of all
    samples held, written here with [foldr] and not with the code's own
    [reduce]; the last two conjuncts say the same in integer arithmetic:
    the result is the only [r] with [2 n r - n <= 2 total < 2 n r + n]. *)
Theorem getAverageFPS_rounded_mean (m : Monitor) :
  let history := fpsHistory (performanceData m) in
  let n := Z.of_nat (length history) in
  let total := foldr Z.add 0 history in
  let mean := (inject_Z total / inject_Z n)%Q in
  (history = [] -> getAverageFPS m = 60 /\ getAverageFPS m <> 0) /\
  (history <> [] ->
     getAverageFPS m = Math_round mean /\
     (inject_Z (getAverageFPS m) - (1 # 2) <= mean)%Q /\
     (mean < inject_Z (getAverageFPS m) + (1 # 2))%Q /\
     getAverageFPS m = (2 * total + n) / (2 * n) /\
     (forall r : Z,
        getAverageFPS m = r <-> 2 * n * r - n <= 2 * total < 2 * n * r + n)).
Proof.
  cbv zeta. unfold getAverageFPS. split.
  - intros ->. rewrite averageFPS_nil. split; [reflexivity | discriminate].
  - intros Hne.
    assert (Hn : 0 < Z.of_nat (length (fpsHistory (performanceData m)))).
    { destruct (fpsHistory (performanceData m)); [congruence | simpl length; lia]. }
    pose proof (averageFPS_nearest _ Hne) as Hnear.
    assert (Hround : averageFPS (fpsHistory (performanceData m)) =
                     Math_round (inject_Z (foldr Z.add 0 (fpsHistory (performanceData m))) /
                                 inject_Z (Z.of_nat (length (fpsHistory (performanceData m)))))).
    { rewrite Hnear. symmetry. apply Math_round_quotient, Hn. }
    split; [exact Hround|].
    split; [rewrite Hround at 1; apply Math_round_bounds|].
    split; [rewrite Hround at 1; apply Math_round_bounds|].
    split; [exact Hnear|].
    intros r. rewrite Hnear. apply nearest_unique, Hn.
Qed.

(** ** Transition rule *)

Lemma retier_tier t msg m : deviceTier (performanceData (retier t msg m)) = t.
Proof. reflexivity. Qed.

Lemma retier_policyRecomputes t msg m :
  policyRecomputes (retier t msg m) = S (policyRecomputes m).
Proof. reflexivity. Qed.

Lemma retier_degradation t msg m :
  degradation (retier t msg m) =
  strategy t (isReducedMotion (performanceData m)) (degradation m).
Proof. reflexivity. Qed.

Lemma retier_fpsHistory t msg m :
  fpsHistory (performanceData (retier t msg m)) = fpsHistory (performanceData m).
Proof. reflexivity. Qed.

Lemma retier_activeAnimations t msg m :
  activeAnimations (performanceData (retier t msg m)) =
  activeAnimations (performanceData m).
Proof. reflexivity. Qed.

Lemma checkPerformanceDegradation_cases m :
  let m' := checkPerformanceDegradation m in
  let t := deviceTier (performanceData m) in
  let t' := transitionRule (getAverageFPS m) t in
  (5 <= length (fpsHistory (performanceData m)))%nat ->
  (t' = t /\ m' = m) \/
  (t' <> t /\ exists msg, m' = retier t' msg m).
Proof.
  cbv zeta. intros Hlen.
  unfold checkPerformanceDegradation, transitionRule,
    thresholds.lowFPS, thresholds.mediumFPS, thresholds.highFPS.
  assert (Hge : (Z.of_nat (length (fpsHistory (performanceData m))) >=? 5) = true)
    by (rewrite Z.geb_leb; apply Z.leb_le; lia).
  rewrite Hge, !andb_true_r, !Z.geb_leb.
  destruct (Z.ltb_spec (getAverageFPS m) 30);
    destruct (Z.ltb_spec (getAverageFPS m) 50);
    destruct (Z.leb_spec 58 (getAverageFPS m)); try lia;
    destruct (deviceTier (performanceData m)); simpl;
    first [ left; split; reflexivity
          | right; split; [discriminate | eexists; reflexivity] ].
Qed.

(** C3: with at least 5 samples held, one evaluation moves the tier as the
    ordered rule says, on the rounded mean of the whole history: below 30 to
    low; else below 50 from high to medium; else from 58 on to high; else no
    change, so that a mean in [50, 58) changes nothing, at tier medium or any
    other.  The mean is the integer nearest to the sum of all samples held
    divided by their number, halves up (first conjunct), computed here from
    the history itself.  The policy is recomputed exactly when the tier
    changes, and then for the new tier. *)
Theorem checkPerformanceDegradation_rule (m : Monitor) :
  (5 <= length (fpsHistory (performanceData m)))%nat ->
  let history := fpsHistory (performanceData m) in
  let n := Z.of_nat (length history) in
  let total := foldr Z.add 0 history in
  let mean := (2 * total + n) / (2 * n) in
  let tier := deviceTier (performanceData m) in
  let m' := checkPerformanceDegradation m in
  let tier' := deviceTier (performanceData m') in
  (2 * n * mean - n <= 2 * total < 2 * n * mean + n) /\
  tier' = transitionRule mean tier /\
  (mean < 30 -> tier' = low) /\
  (30 <= mean < 50 -> tier = high -> tier' = medium) /\
  (30 <= mean < 50 -> tier <> high -> m' = m) /\
  (58 <= mean -> tier' = high) /\
  (50 <= mean < 58 -> m' = m) /\
  (tier' = tier -> m' = m) /\
  (tier' <> tier ->
     policyRecomputes m' = S (policyRecomputes m) /\
     degradation m' =
       strategy tier' (isReducedMotion (performanceData m)) (degradation m)) /\
  fpsHistory (performanceData m') = fpsHistory (performanceData m).
Proof.
  intros Hlen. cbv zeta.
  assert (Hne : fpsHistory (performanceData m) <> []).
  { intros E. rewrite E in Hlen. simpl in Hlen. lia. }
  assert (Hn : 0 < Z.of_nat (length (fpsHistory (performanceData m)))) by lia.
  pose proof (checkPerformanceDegradation_cases m Hlen) as Hcases.
  cbv zeta in Hcases. unfold getAverageFPS in Hcases.
  rewrite (averageFPS_nearest _ Hne) in Hcases.
  split; [apply nearest_unique; [exact Hn | reflexivity]|].
  set (mean := (2 * foldr Z.add 0 (fpsHistory (performanceData m)) +
                Z.of_nat (length (fpsHistory (performanceData m)))) /
               (2 * Z.of_nat (length (fpsHistory (performanceData m))))) in *.
  set (tier := deviceTier (performanceData m)) in *.
  assert (Htier : deviceTier (performanceData (checkPerformanceDegradation m)) =
                  transitionRule mean tier).
  { destruct Hcases as [[Heq ->] | [_ [msg ->]]].
    - symmetry. exact Heq.
    - apply retier_tier. }
  split; [exact Htier|]. rewrite Htier.
  assert (Hkeep : transitionRule mean tier = tier -> checkPerformanceDegradation m = m).
  { intros Hsame. destruct Hcases as [[_ ->] | [Hne' _]]; [reflexivity|].
    contradiction. }
  split; [|split; [|split; [|split; [|split; [|split; [|split]]]]]].
  - intros Hm. unfold transitionRule.
    apply Z.ltb_lt in Hm. rewrite Hm. reflexivity.
  - intros [Hlo Hhi] ->. unfold transitionRule.
    apply Z.ltb_ge in Hlo. apply Z.ltb_lt in Hhi. rewrite Hlo, Hhi. reflexivity.
  - intros [Hlo Hhi] Hnh. apply Hkeep. unfold transitionRule.
    assert (H30 : (mean <? 30) = false) by (apply Z.ltb_ge; lia).
    assert (H50 : (mean <? 50) = true) by (apply Z.ltb_lt; lia).
    assert (H58 : (mean >=? 58) = false)
      by (rewrite Z.geb_leb; apply Z.leb_gt; lia).
    rewrite H30, H50, H58. destruct tier; try reflexivity. congruence.
  - intros Hm. unfold transitionRule.
    assert (H30 : (mean <? 30) = false) by (apply Z.ltb_ge; lia).
    assert (H50 : (mean <? 50) = false) by (apply Z.ltb_ge; lia).
    assert (H58 : (mean >=? 58) = true) by (rewrite Z.geb_leb; apply Z.leb_le; lia).
    rewrite H30, H50, H58. destruct tier; reflexivity.
  - intros [Hlo Hhi]. apply Hkeep. unfold transitionRule.
    assert (H30 : (mean <? 30) = false) by (apply Z.ltb_ge; lia).
    assert (H50 : (mean <? 50) = false) by (apply Z.ltb_ge; lia).
    assert (H58 : (mean >=? 58) = false)
      by (rewrite Z.geb_leb; apply Z.leb_gt; lia).
    rewrite H30, H50, H58. destruct tier; reflexivity.
  - exact Hkeep.
  - intros Hdiff. destruct Hcases as [[Heq _] | [_ [msg ->]]]; [contradiction|].
    rewrite retier_policyRecomputes, retier_degradation. split; reflexivity.
  - destruct Hcases as [[_ ->] | [_ [msg ->]]]; [reflexivity|].
    apply retier_fpsHistory.
Qed.

(** ** Admission *)

Lemma monitor_eta m :
  mkMonitor (degradation m) (performanceData m) (monitoringInterval m)
            (loggingInterval m) (sampler m) (longTaskObserver m) (listenerSets m)
            (root m) (console m) (policyRecomputes m) (reportTimers m) = m.
Proof. destruct m; reflexivity. Qed.

Lemma performanceData_eta p :
  mkPerformanceData (fps p) (fpsHistory p) (longTasks p) (memoryUsage p)
                    (deviceTier p) (isReducedMotion p) (activeAnimations p)
                    (isMonitoring p) = p.
Proof. destruct p; reflexivity. Qed.

(** Writing back the set that is already there changes nothing. *)
Lemma set_tickets_same m a :
  a = tickets m ->
  with_performanceData (set_activeAnimations a (performanceData m)) m = m.
Proof.
  intros ->. unfold with_performanceData, set_activeAnimations, tickets.
  rewrite performanceData_eta. apply monitor_eta.
Qed.

Lemma size_add_ticket (a : gset string) id :
  size (a ∪ {[id]}) = if decide (id ∈ a) then size a else S (size a).
Proof.
  destruct (decide (id ∈ a)) as [Hin | Hout].
  - f_equal. set_solver.
  - rewrite size_union by set_solver. rewrite size_singleton. lia.
Qed.

Lemma size_remove_ticket (a : gset string) id : (size (a ∖ {[id]}) <= size a)%nat.
Proof. apply subseteq_size. set_solver. Qed.

Lemma registerAnimation_admitted id m :
  Z.of_nat (size (tickets m)) < limit m ->
  registerAnimation id m =
  (true, with_performanceData
           (set_activeAnimations (tickets m ∪ {[id]}) (performanceData m)) m).
Proof.
  intros Hlt. unfold registerAnimation. fold (tickets m) (limit m).
  rewrite Z.geb_leb. apply Z.leb_gt in Hlt. rewrite Hlt. reflexivity.
Qed.

Lemma registerAnimation_refused id m :
  limit m <= Z.of_nat (size (tickets m)) ->
  registerAnimation id m = (false, log "Animation limit reached, skipping" info m).
Proof.
  intros Hge. unfold registerAnimation. fold (tickets m) (limit m).
  rewrite Z.geb_leb. apply Z.leb_le in Hge. rewrite Hge. reflexivity.
Qed.

(** The outcome of [registerAnimation], by comparison of size and limit. *)
Lemma registerAnimation_spec id m :
  let r := registerAnimation id m in
  (fst r = true <-> Z.of_nat (size (tickets m)) < limit m) /\
  (fst r = true -> tickets (snd r) = tickets m ∪ {[id]}) /\
  (fst r = false -> tickets (snd r) = tickets m) /\
  degradation (snd r) = degradation m.
Proof.
  cbv zeta.
  destruct (Z.lt_ge_cases (Z.of_nat (size (tickets m))) (limit m)) as [Hlt | Hge].
  - rewrite (registerAnimation_admitted id m Hlt). simpl.
    repeat split; auto; discriminate.
  - rewrite (registerAnimation_refused id m Hge). simpl.
    repeat split; auto; try discriminate. lia.
Qed.

(** C10: registering an id that is already active, while a slot is free,
    returns [true] and changes nothing; and a call of [registerAnimation]
    leaves the size of the active set as it was or raises it by one. *)
Theorem registerAnimation_reregister (id : string) (m : Monitor) :
  (id ∈ tickets m -> Z.of_nat (size (tickets m)) < limit m ->
     registerAnimation id m = (true, m)) /\
  (size (tickets (snd (registerAnimation id m))) = size (tickets m) \/
   size (tickets (snd (registerAnimation id m))) = S (size (tickets m))).
Proof.
  split.
  - intros Hin Hlt. rewrite (registerAnimation_admitted id m Hlt).
    f_equal. apply set_tickets_same. set_solver.
  - destruct (Z.lt_ge_cases (Z.of_nat (size (tickets m))) (limit m)) as [Hlt | Hge].
    + rewrite (registerAnimation_admitted id m Hlt). simpl.
      change (tickets (with_performanceData _ m)) with (tickets m ∪ {[id]}).
      rewrite size_add_ticket. destruct (decide (id ∈ tickets m)); auto.
    + rewrite (registerAnimation_refused id m Hge). left. reflexivity.
Qed.

(** C9: [unregisterAnimation] is total; on an id that is not active it
    returns the monitor it was given, and a second call with the same id
    changes nothing more. *)
Theorem unregisterAnimation_idempotent (id : string) (m : Monitor) :
  (id ∉ tickets m -> unregisterAnimation id m = m) /\
  unregisterAnimation id (unregisterAnimation id m) = unregisterAnimation id m /\
  id ∉ tickets (unregisterAnimation id m).
Proof.
  split; [|split].
  - intros Hout. unfold unregisterAnimation. apply set_tickets_same.
    unfold tickets in *. set_solver.
  - apply set_tickets_same.
    change (tickets (unregisterAnimation id m)) with (tickets m ∖ {[id]}).
    set_solver.
  - change (tickets (unregisterAnimation id m)) with (tickets m ∖ {[id]}).
    set_solver.
Qed.

(** *** What each event does to the tickets and to the limit *)

Lemma strategy_limit t r d : tableLimit (limitConcurrentAnimations (strategy t r d)).
Proof. unfold tableLimit. destruct t, r; simpl; auto. Qed.

Lemma policyOnly_refl m : policyOnly m m.
Proof. split; auto. Qed.

Lemma policyOnly_trans m1 m2 m3 :
  policyOnly m1 m2 -> policyOnly m2 m3 -> policyOnly m1 m3.
Proof.
  intros [Ht1 Hl1] [Ht2 Hl2]. split; [congruence|].
  destruct Hl2 as [Hl2 | Hl2]; [|auto].
  rewrite Hl2. exact Hl1.
Qed.

Lemma silent_policyOnly f m : silent f -> policyOnly m (f m).
Proof.
  intros Hf. destruct (Hf m) as [Ht Hd]. split; [exact Ht|].
  left. unfold limit. rewrite Hd. reflexivity.
Qed.

(** [m'] is [m] up to fields other than the tickets and the policy. *)
Ltac quiet := split; [reflexivity | left; reflexivity].

Ltac silence :=
  intros m; unfold tickets; repeat case_match; split; reflexivity.

Lemma log_silent msg lvl : silent (log msg lvl).
Proof. silence. Qed.

Lemma detectReducedMotion_silent matches nav : silent (detectReducedMotion matches nav).
Proof. unfold detectReducedMotion. silence. Qed.

Lemma detectDevicePerformance_silent s e nav : silent (detectDevicePerformance s e nav).
Proof. unfold detectDevicePerformance. silence. Qed.

Lemma startMonitoring_silent env : silent (startMonitoring env).
Proof. unfold startMonitoring, startLongTaskMonitoring. silence. Qed.

Lemma samplePerformance_silent mem tim : silent (samplePerformance mem tim).
Proof. unfold samplePerformance. silence. Qed.

Lemma recordLongTask_silent entry now : silent (recordLongTask entry now).
Proof. unfold recordLongTask. silence. Qed.

Lemma observeEntries_silent entries : silent (observeEntries entries).
Proof.
  unfold observeEntries. induction entries as [|e entries IH]; intros m.
  - split; reflexivity.
  - simpl. destruct (IH (recordLongTask (fst e) (snd e) m)) as [Ht Hd].
    destruct (recordLongTask_silent (fst e) (snd e) m) as [Ht' Hd'].
    split; congruence.
Qed.

Lemma applyDegradationStrategy_policyOnly m : policyOnly m (applyDegradationStrategy m).
Proof.
  split; [reflexivity|]. right. unfold limit.
  rewrite applyDegradationStrategy_degradation. apply strategy_limit.
Qed.

Lemma retier_policyOnly t msg m : policyOnly m (retier t msg m).
Proof.
  split; [reflexivity|]. right. unfold limit.
  rewrite retier_degradation. apply strategy_limit.
Qed.

(** Without any assumption on the history: an evaluation changes nothing or
    sets a tier and recomputes. *)
Lemma checkPerformanceDegradation_effect m :
  checkPerformanceDegradation m = m \/
  exists t msg, checkPerformanceDegradation m = retier t msg m.
Proof.
  unfold checkPerformanceDegradation.
  repeat case_match; first [left; reflexivity | right; eexists _, _; reflexivity].
Qed.

Lemma checkPerformanceDegradation_policyOnly m :
  policyOnly m (checkPerformanceDegradation m).
Proof.
  destruct (checkPerformanceDegradation_effect m) as [-> | (t & msg & ->)].
  - apply policyOnly_refl.
  - apply retier_policyOnly.
Qed.

Lemma measureFPS_policyOnly t m : policyOnly m (measureFPS t m).
Proof.
  unfold measureFPS. destruct (sampler m) as [s|]; [|quiet].
  destruct (Qgeb _ _); [|quiet].
  match goal with
  | |- policyOnly m (with_sampler _ (checkPerformanceDegradation ?x)) =>
      apply (policyOnly_trans m x); [quiet|];
      apply (policyOnly_trans x (checkPerformanceDegradation x));
      [apply checkPerformanceDegradation_policyOnly | quiet]
  end.
Qed.

Lemma init_policyOnly env m : policyOnly m (init env m).
Proof.
  unfold init.
  set (m1 := detectReducedMotion _ _ m).
  set (m2 := detectDevicePerformance _ _ _ m1).
  set (m3 := applyDegradationStrategy m2).
  set (m4 := startMonitoring env m3).
  apply (policyOnly_trans m m1); [apply silent_policyOnly, detectReducedMotion_silent|].
  apply (policyOnly_trans m1 m2); [apply silent_policyOnly, detectDevicePerformance_silent|].
  apply (policyOnly_trans m2 m3); [apply applyDegradationStrategy_policyOnly|].
  apply (policyOnly_trans m3 m4); [apply silent_policyOnly, startMonitoring_silent|].
  quiet.
Qed.

Lemma onReducedMotionChange_policyOnly b m : policyOnly m (onReducedMotionChange b m).
Proof.
  unfold onReducedMotionChange.
  match goal with
  | |- policyOnly m (log _ _ (applyDegradationStrategy ?x)) =>
      apply (policyOnly_trans m x); [quiet|];
      apply (policyOnly_trans x (applyDegradationStrategy x));
      [apply applyDegradationStrategy_policyOnly | quiet]
  end.
Qed.

Lemma onResize_policyOnly s e nav m : policyOnly m (onResize s e nav m).
Proof.
  unfold onResize.
  apply (policyOnly_trans m (detectDevicePerformance s e nav m));
    [apply silent_policyOnly, detectDevicePerformance_silent
    | apply applyDegradationStrategy_policyOnly].
Qed.

Lemma policyOnly_admission m m' :
  policyOnly m m' ->
  (size (tickets m') <= size (tickets m))%nat /\
  (limit m' = limit m \/ tableLimit (limit m')).
Proof. intros [-> Hl]. split; [lia | exact Hl]. Qed.

(** One event: the active set does not grow, or it grows within the limit,
    which stays; the limit stays or becomes one of the table. *)
Lemma step_admission e m :
  ((size (tickets (step e m)) <= size (tickets m))%nat \/
   (Z.of_nat (size (tickets (step e m))) <= limit m /\ limit (step e m) = limit m)) /\
  (limit (step e m) = limit m \/ tableLimit (limit (step e m))).
Proof.
  assert (Hquiet : forall m' : Monitor, policyOnly m m' ->
            ((size (tickets m') <= size (tickets m))%nat \/
             (Z.of_nat (size (tickets m')) <= limit m /\ limit m' = limit m)) /\
            (limit m' = limit m \/ tableLimit (limit m'))).
  { intros m' H. apply policyOnly_admission in H. tauto. }
  destruct e; simpl.
  - apply Hquiet, init_policyOnly.
  - apply Hquiet, measureFPS_policyOnly.
  - destruct (longTaskObserver m); apply Hquiet;
      [apply silent_policyOnly, observeEntries_silent | apply policyOnly_refl].
  - destruct (monitoringInterval m); apply Hquiet;
      [apply silent_policyOnly, samplePerformance_silent | apply policyOnly_refl].
  - destruct (reportTimers m); apply Hquiet;
      [apply policyOnly_refl | apply silent_policyOnly, log_silent].
  - destruct (listeners m); apply Hquiet;
      [apply onReducedMotionChange_policyOnly | apply policyOnly_refl].
  - destruct (listeners m); apply Hquiet;
      [apply onResize_policyOnly | apply policyOnly_refl].
  - destruct (listeners m); [|apply Hquiet, policyOnly_refl].
    unfold onVisibilityChange. destruct hidden; [|apply Hquiet; quiet].
    split; [left | left; reflexivity].
    change (tickets (pauseMonitoring m)) with (∅ : gset string).
    rewrite size_empty. lia.
  - destruct (registerAnimation_spec animationId m) as (Hiff & Hyes & Hno & Hd).
    split; [|left; unfold limit; rewrite Hd; reflexivity].
    destruct (fst (registerAnimation animationId m)) eqn:Hr.
    + right. split; [|unfold limit; rewrite Hd; reflexivity].
      rewrite (Hyes eq_refl), size_add_ticket.
      assert (Hlt : Z.of_nat (size (tickets m)) < limit m) by (apply Hiff; reflexivity).
      destruct (decide (animationId ∈ tickets m)); lia.
    + left. rewrite (Hno eq_refl). lia.
  - split; [left | left; reflexivity].
    apply size_remove_ticket.
Qed.

Lemma reachable_run events m : reachable m -> reachable (run events m).
Proof.
  revert m. induction events as [|e events IH]; intros m Hm.
  - exact Hm.
  - simpl. apply IH. constructor. exact Hm.
Qed.

(** At every reachable state the limit is the 3 of the object literal or one
    of the table, and at most 5 tickets are active. *)
Lemma reachable_bounds m :
  reachable m ->
  (limit m = 3 \/ tableLimit (limit m)) /\ Z.of_nat (size (tickets m)) <= 5.
Proof.
  induction 1 as [|e m Hm [Hl Hs]].
  - split; [left; reflexivity|].
    change (tickets initial) with (∅ : gset string). rewrite size_empty. lia.
  - destruct (step_admission e m) as [Hsize Hlimit]. split.
    + destruct Hlimit as [-> | Ht]; auto.
    + unfold tableLimit in *. lia.
Qed.

(** *** A page on which the limit shrinks under five running animations *)

(** C5, counterexample: the state after [busyThenSlow] is reachable, its
    tier has dropped to low and its limit to 1, and all five tickets are
    still active: the active set exceeds the configured limit. *)
Lemma active_set_exceeds_shrunk_limit :
  reachable (run busyThenSlow initial) /\
  limit (run (firstn 6 busyThenSlow) initial) = 5 /\
  limit (run busyThenSlow initial) = 1 /\
  size (tickets (run busyThenSlow initial)) = 5%nat /\
  ~ withinLimit (run busyThenSlow initial).
Proof.
  assert (Hl : limit (run busyThenSlow initial) = 1) by (vm_compute; reflexivity).
  assert (Hs : size (tickets (run busyThenSlow initial)) = 5%nat)
    by (vm_compute; reflexivity).
  split; [apply reachable_run, reachable_initial|].
  split; [vm_compute; reflexivity|].
  split; [exact Hl|]. split; [exact Hs|].
  unfold withinLimit. rewrite Hl, Hs. lia.
Qed.

(** C5, amended: the bound by the configured limit is kept by admission, not
    by policy changes.  At every reachable state at most 5 tickets (the
    largest limit of the table) are active; an event that does not lower the
    limit keeps the active set within it; [registerAnimation] admits exactly
    when the size is below the limit, adding the id, and refuses without
    change when the size equals the limit; a policy recompute never evicts a
    ticket, and while the size is at or above the limit no call is admitted. *)
Theorem admission_bounded_by_limit :
  (forall m, reachable m -> 0 <= Z.of_nat (size (tickets m)) <= 5) /\
  (forall e m, withinLimit m -> limit m <= limit (step e m) -> withinLimit (step e m)) /\
  (forall id m,
     (fst (registerAnimation id m) = true <-> Z.of_nat (size (tickets m)) < limit m) /\
     (fst (registerAnimation id m) = true ->
        tickets (snd (registerAnimation id m)) = tickets m ∪ {[id]}) /\
     (Z.of_nat (size (tickets m)) = limit m ->
        fst (registerAnimation id m) = false /\
        tickets (snd (registerAnimation id m)) = tickets m)) /\
  (forall m, tickets (applyDegradationStrategy m) = tickets m) /\
  (forall id m, limit m <= Z.of_nat (size (tickets m)) ->
     fst (registerAnimation id m) = false /\
     tickets (snd (registerAnimation id m)) = tickets m).
Proof.
  split; [|split; [|split; [|split]]].
  - intros m Hm. destruct (reachable_bounds m Hm) as [_ Hs]. lia.
  - intros e m Hin Hup. unfold withinLimit in *.
    destruct (step_admission e m) as [[Hs | [Hs _]] _]; lia.
  - intros id m. destruct (registerAnimation_spec id m) as (Hiff & Hyes & Hno & _).
    split; [exact Hiff|]. split; [exact Hyes|].
    intros Heq. rewrite registerAnimation_refused by lia. split; reflexivity.
  - reflexivity.
  - intros id m Hge. rewrite registerAnimation_refused by lia. split; reflexivity.
Qed.

(** ** Sample histories *)

Ltac same_histories :=
  intros; unfold histories; repeat case_match; reflexivity.

Lemma histories_log msg lvl m : histories (log msg lvl m) = histories m.
Proof. same_histories. Qed.

Lemma histories_applyDegradationStrategy m :
  histories (applyDegradationStrategy m) = histories m.
Proof. same_histories. Qed.

Lemma histories_detectReducedMotion b nav m :
  histories (detectReducedMotion b nav m) = histories m.
Proof. unfold detectReducedMotion. same_histories. Qed.

Lemma histories_detectDevicePerformance s e nav m :
  histories (detectDevicePerformance s e nav m) = histories m.
Proof. unfold detectDevicePerformance. same_histories. Qed.

Lemma histories_startMonitoring env m :
  histories (startMonitoring env m) = histories m.
Proof. unfold startMonitoring, startLongTaskMonitoring. same_histories. Qed.

Lemma histories_samplePerformance mem tim m :
  histories (samplePerformance mem tim m) = histories m.
Proof. unfold samplePerformance. same_histories. Qed.

Lemma histories_registerAnimation id m :
  histories (snd (registerAnimation id m)) = histories m.
Proof. unfold registerAnimation. same_histories. Qed.

Lemma histories_checkPerformanceDegradation m :
  histories (checkPerformanceDegradation m) = histories m.
Proof.
  destruct (checkPerformanceDegradation_effect m) as [-> | (t & msg & ->)];
    reflexivity.
Qed.

Lemma histories_setupListeners m : histories (setupListeners m) = histories m.
Proof. reflexivity. Qed.

Lemma histories_startPerformanceLogging m :
  histories (startPerformanceLogging m) = histories m.
Proof. reflexivity. Qed.

Create Rewrite HintDb histories.

#[local] Hint Rewrite histories_setupListeners histories_startPerformanceLogging
  histories_log histories_applyDegradationStrategy
  histories_detectReducedMotion histories_detectDevicePerformance
  histories_startMonitoring histories_samplePerformance
  histories_registerAnimation histories_checkPerformanceDegradation : histories.

Lemma histories_init env m : histories (init env m) = histories m.
Proof.
  unfold init, monitoring.enableLogging.
  autorewrite with histories. reflexivity.
Qed.

(** The buffers after a push are the last [cap] elements of the sequence. *)
Lemma push_shift_drop {A : Type} (cap : nat) (l : list A) (x : A) :
  (length l <= cap)%nat ->
  (if (cap <? length (l ++ [x]))%nat then shift (l ++ [x]) else l ++ [x]) =
    drop (S (length l) - cap) (l ++ [x]) /\
  (length (if (cap <? length (l ++ [x]))%nat then shift (l ++ [x]) else l ++ [x])
     <= cap)%nat.
Proof.
  intros Hlen. rewrite length_app. simpl length.
  destruct (Nat.ltb_spec cap (length l + 1)) as [Hfull | Hroom].
  - assert (Hcap : length l = cap) by lia.
    replace (S (length l) - cap)%nat with 1%nat by lia.
    split; [destruct l; reflexivity|].
    destruct l as [|y l]; simpl in *; [lia|].
    rewrite length_app. simpl. lia.
  - replace (S (length l) - cap)%nat with 0%nat by lia.
    split; [reflexivity|]. rewrite length_app. simpl. lia.
Qed.

Lemma pushFPS_fifo v h :
  (length h <= 30)%nat ->
  pushFPS v h = drop (S (length h) - 30) (h ++ [v]) /\ (length (pushFPS v h) <= 30)%nat.
Proof. intros Hlen. unfold pushFPS. apply (push_shift_drop 30 h v Hlen). Qed.

Lemma recordLongTask_longTasks entry now m :
  longTasks (performanceData (recordLongTask entry now m)) =
  if Qgtb (entry_duration entry) thresholds.longTaskThreshold then
    let tasks := longTasks (performanceData m) ++
                 [mkLongTask (entry_duration entry) (entry_startTime entry) now] in
    if (10 <? length tasks)%nat then shift tasks else tasks
  else longTasks (performanceData m).
Proof. unfold recordLongTask. repeat case_match; reflexivity. Qed.

Lemma recordLongTask_fpsHistory entry now m :
  fpsHistory (performanceData (recordLongTask entry now m)) =
  fpsHistory (performanceData m).
Proof. unfold recordLongTask. repeat case_match; reflexivity. Qed.

Lemma recordLongTask_bounded entry now m :
  (length (longTasks (performanceData m)) <= 10)%nat ->
  (length (longTasks (performanceData (recordLongTask entry now m))) <= 10)%nat.
Proof.
  intros Hlen. rewrite recordLongTask_longTasks.
  destruct (Qgtb _ _); [|exact Hlen].
  apply (push_shift_drop 10 _ _ Hlen).
Qed.

Lemma observeEntries_bounded entries m :
  (length (longTasks (performanceData m)) <= 10)%nat ->
  (length (longTasks (performanceData (observeEntries entries m))) <= 10)%nat /\
  fpsHistory (performanceData (observeEntries entries m)) =
  fpsHistory (performanceData m).
Proof.
  unfold observeEntries. revert m.
  induction entries as [|e entries IH]; intros m Hlen.
  - split; [exact Hlen | reflexivity].
  - simpl.
    destruct (IH (recordLongTask (fst e) (snd e) m)
                 (recordLongTask_bounded _ _ _ Hlen)) as [Hb Hf].
    split; [exact Hb|]. rewrite Hf. apply recordLongTask_fpsHistory.
Qed.

(** What the frame callback does to the history when a window has elapsed. *)
Lemma measureFPS_window currentTime m s :
  sampler m = Some s ->
  (monitoring.fpsWindow <= currentTime - lastTime s)%Q ->
  histories (measureFPS currentTime m) =
  (pushFPS (Math_round (inject_Z ((frameCount s + 1) * 1000) /
                        (currentTime - lastTime s)))
           (fpsHistory (performanceData m)),
   longTasks (performanceData m)).
Proof.
  intros Hs Hwin. unfold measureFPS. rewrite Hs.
  apply Qleb_le in Hwin. unfold Qgeb. rewrite Hwin.
  match goal with
  | |- histories (with_sampler _ (checkPerformanceDegradation ?x)) = _ =>
      change (histories (checkPerformanceDegradation x) =
              (fpsHistory (performanceData x), longTasks (performanceData x)))
  end.
  apply histories_checkPerformanceDegradation.
Qed.

Lemma measureFPS_histories currentTime m :
  histories (measureFPS currentTime m) = histories m \/
  exists v, histories (measureFPS currentTime m) =
            (pushFPS v (fpsHistory (performanceData m)), longTasks (performanceData m)).
Proof.
  unfold measureFPS. destruct (sampler m) as [s|] eqn:Hs; [|left; reflexivity].
  destruct (Qgeb _ _) eqn:Hwin; [|left; reflexivity].
  right. eexists.
  pose proof (measureFPS_window currentTime m s Hs) as H.
  unfold measureFPS in H. rewrite Hs, Hwin in H. apply H.
  apply Qleb_le. exact Hwin.
Qed.

(** One event keeps both histories within their caps. *)
Lemma step_histories e m :
  (length (fpsHistory (performanceData m)) <= 30)%nat ->
  (length (longTasks (performanceData m)) <= 10)%nat ->
  (length (fpsHistory (performanceData (step e m))) <= 30)%nat /\
  (length (longTasks (performanceData (step e m))) <= 10)%nat.
Proof.
  intros Hf Hl.
  assert (Hsame : forall m', histories m' = histories m ->
            (length (fpsHistory (performanceData m')) <= 30)%nat /\
            (length (longTasks (performanceData m')) <= 10)%nat).
  { intros m' H. unfold histories in H. injection H as -> ->. auto. }
  destruct e; cbn [step].
  - apply (Hsame (init env m)), histories_init.
  - destruct (measureFPS_histories currentTime m) as [H | [v H]].
    + apply (Hsame (measureFPS currentTime m)), H.
    + unfold histories in H. injection H as -> ->.
      split; [apply pushFPS_fifo, Hf | exact Hl].
  - destruct (longTaskObserver m); [|auto].
    destruct (observeEntries_bounded entries m Hl) as [Hb ->]. auto.
  - destruct (monitoringInterval m); [|auto].
    apply (Hsame (samplePerformance memory timing m)), histories_samplePerformance.
  - destruct (reportTimers m); [auto|].
    apply (Hsame (logReport m)). reflexivity.
  - destruct (listeners m); [|auto].
    apply (Hsame (onReducedMotionChange matches m)). reflexivity.
  - destruct (listeners m); [|auto].
    apply (Hsame (onResize startTime endTime nav m)).
    unfold onResize. autorewrite with histories. reflexivity.
  - destruct (listeners m); [|auto].
    apply (Hsame (onVisibilityChange hidden m)). destruct hidden; reflexivity.
  - apply (Hsame (snd (registerAnimation animationId m))), histories_registerAnimation.
  - apply (Hsame (unregisterAnimation animationId m)). reflexivity.
Qed.

Lemma reachable_histories m :
  reachable m ->
  (length (fpsHistory (performanceData m)) <= 30)%nat /\
  (length (longTasks (performanceData m)) <= 10)%nat.
Proof.
  induction 1 as [|e m Hm [Hf Hl]].
  - simpl. lia.
  - apply step_histories; assumption.
Qed.

(** C6: both histories are bounded FIFO buffers.  At every reachable state
    the fps history holds at most 30 samples and the long-task history at
    most 10 records; the frame callback that closes a window appends its
    sample and keeps the 30 most recent; the observer appends a record for an
    entry above 50 ms and keeps the 10 most recent, so that an 11th such
    entry (of 80 ms, say) leaves exactly the 10 most recent records. *)
Theorem histories_bounded_fifo :
  (forall m, reachable m ->
     (length (fpsHistory (performanceData m)) <= 30)%nat /\
     (length (longTasks (performanceData m)) <= 10)%nat) /\
  (forall currentTime m s,
     sampler m = Some s ->
     (monitoring.fpsWindow <= currentTime - lastTime s)%Q ->
     (length (fpsHistory (performanceData m)) <= 30)%nat ->
     let h := fpsHistory (performanceData m) in
     let h' := fpsHistory (performanceData (measureFPS currentTime m)) in
     let sample := Math_round (inject_Z ((frameCount s + 1) * 1000) /
                               (currentTime - lastTime s)) in
     h' = drop (S (length h) - 30) (h ++ [sample]) /\ (length h' <= 30)%nat) /\
  (forall entry now m,
     (thresholds.longTaskThreshold < entry_duration entry)%Q ->
     (length (longTasks (performanceData m)) <= 10)%nat ->
     let l := longTasks (performanceData m) in
     let l' := longTasks (performanceData (observeEntries [(entry, now)] m)) in
     let record := mkLongTask (entry_duration entry) (entry_startTime entry) now in
     l' = drop (S (length l) - 10) (l ++ [record]) /\
     (length l' <= 10)%nat /\
     (length l = 10%nat -> l' = tail l ++ [record] /\ length l' = 10%nat)).
Proof.
  split; [exact reachable_histories|]. split.
  - intros currentTime m s Hs Hwin Hlen. cbv zeta.
    pose proof (measureFPS_window currentTime m s Hs Hwin) as H.
    unfold histories in H. injection H as -> _.
    apply pushFPS_fifo, Hlen.
  - intros entry now m Hlong Hlen. cbv zeta.
    change (observeEntries [(entry, now)] m) with (recordLongTask entry now m).
    rewrite recordLongTask_longTasks.
    apply Qltb_lt in Hlong. unfold Qgtb. rewrite Hlong. cbv zeta.
    destruct (push_shift_drop 10 (longTasks (performanceData m))
                (mkLongTask (entry_duration entry) (entry_startTime entry) now) Hlen)
      as [Hdrop Hcap].
    split; [exact Hdrop|]. split; [exact Hcap|].
    intros Hfull. rewrite Hdrop, Hfull.
    destruct (longTasks (performanceData m)) as [|t l]; [discriminate|].
    change (drop (11 - 10) ((t :: l) ++ [mkLongTask (entry_duration entry)
                                                    (entry_startTime entry) now]))
      with (l ++ [mkLongTask (entry_duration entry) (entry_startTime entry) now]).
    split; [reflexivity|]. rewrite length_app. simpl in Hfull. simpl. lia.
Qed.

(** ** Animation optimizer *)

(** [shouldAnimate] is false exactly when a monitor is installed and it holds
    the reduced-motion preference or the low tier. *)
Lemma shouldAnimate_false w :
  shouldAnimate w = false <->
  exists pm, PerformanceMonitor w = Some pm /\
             (isReducedMotion (performanceData pm) = true \/
              deviceTier (performanceData pm) = low).
Proof.
  unfold shouldAnimate. split.
  - destruct (PerformanceMonitor w) as [pm|]; [|discriminate].
    intros H. exists pm. split; [reflexivity|].
    destruct (isReducedMotion (performanceData pm)); [left; reflexivity|].
    destruct (deviceTier (performanceData pm)); try discriminate.
    right. reflexivity.
  - intros (pm & -> & [-> | Hlow]); [reflexivity|].
    rewrite Hlow. destruct (isReducedMotion (performanceData pm)); reflexivity.
Qed.

Lemma truthy_nonempty s : s <> "" -> truthy (Some s) = true.
Proof. intros Hs. simpl. apply negb_true_iff, String.eqb_neq, Hs. Qed.

(** C7: when the monitor holds the reduced-motion preference or the low
    tier, or when the ticket supplied is refused by [registerAnimation],
    [animate] calls [callback(1)] once and nothing else, returns the handle
    whose [cancel] does nothing, and leaves the active set (and the pending
    frame requests) as they were. *)
Theorem animate_skips (callback : nat) (id : option string) (w : Window) :
  (exists pm, PerformanceMonitor w = Some pm /\
              (isReducedMotion (performanceData pm) = true \/
               deviceTier (performanceData pm) = low)) \/
  (exists s pm, id = Some s /\ s <> "" /\ PerformanceMonitor w = Some pm /\
                fst (registerAnimation s pm) = false) ->
  exists w',
    animate callback id w = Some (NoopCancel, w') /\
    callbackCalls w' = callbackCalls w ++ [(callback, 1%Q)] /\
    (forall w0, cancel NoopCancel w0 = Some w0) /\
    activeTickets w' = activeTickets w /\
    closures w' = closures w /\
    frameRequests w' = frameRequests w.
Proof.
  intros Hskip. unfold animate.
  destruct (shouldAnimate w) eqn:Hshould; simpl negb; cbv iota.
  - destruct Hskip as [Hoff | (s & pm & -> & Hs & Hpm & Hrefused)].
    + apply shouldAnimate_false in Hoff. congruence.
    + unfold registrationRefused. rewrite (truthy_nonempty s Hs), Hpm.
      destruct (registerAnimation_spec s pm) as (_ & _ & Hsame & _).
      destruct (registerAnimation s pm) as [admitted pm'] eqn:Hreg.
      simpl in Hrefused, Hsame. subst admitted. simpl negb. cbv iota.
      eexists. split; [reflexivity|].
      repeat split.
      unfold activeTickets. simpl. rewrite Hpm. simpl.
      f_equal. apply (Hsame eq_refl).
  - eexists. split; [reflexivity|]. repeat split.
Qed.

(** ** The theorems at concrete inputs *)

Lemma absent_hints_defaults_witness :
  deviceTier (performanceData
                (detectDevicePerformance 0 10 (noHints false None) initial)) = medium /\
  deviceTier (performanceData (detectDevicePerformance 0 10 eightCores initial)) = high.
Proof.
  split.
  - exact (proj2 (proj1 (absent_hints_defaults 0 10 (noHints false None) initial)
                        eq_refl)).
  - apply (proj2 (absent_hints_defaults 0 10 eightCores initial)).
    + reflexivity.
    + vm_compute. reflexivity.
Defined.

Lemma checkPerformanceDegradation_rule_witness :
  (deviceTier (performanceData (checkPerformanceDegradation sevenPoorSamples)) = low /\
   limit (checkPerformanceDegradation sevenPoorSamples) = 1) /\
  (deviceTier (performanceData (checkPerformanceDegradation fiveGoodSamples)) = high /\
   limit (checkPerformanceDegradation fiveGoodSamples) = 5) /\
  checkPerformanceDegradation sixMiddlingSamples = sixMiddlingSamples.
Proof.
  split; [|split].
  - assert (Hlen : (5 <= length (fpsHistory (performanceData sevenPoorSamples)))%nat)
      by (simpl; lia).
    destruct (checkPerformanceDegradation_rule sevenPoorSamples Hlen)
      as (_ & _ & Hlow & _ & _ & _ & _ & _ & Hnew & _).
    assert (Ht : deviceTier (performanceData (checkPerformanceDegradation sevenPoorSamples))
                 = low) by (apply Hlow; vm_compute; reflexivity).
    split; [exact Ht|].
    destruct Hnew as [_ Hd]; [rewrite Ht; discriminate|].
    unfold limit. rewrite Hd, Ht. reflexivity.
  - assert (Hlen : (5 <= length (fpsHistory (performanceData fiveGoodSamples)))%nat)
      by (simpl; lia).
    destruct (checkPerformanceDegradation_rule fiveGoodSamples Hlen)
      as (_ & _ & _ & _ & _ & Hhigh & _ & _ & Hnew & _).
    assert (Ht : deviceTier (performanceData (checkPerformanceDegradation fiveGoodSamples))
                 = high) by (apply Hhigh; vm_compute; discriminate).
    split; [exact Ht|].
    destruct Hnew as [_ Hd]; [rewrite Ht; discriminate|].
    unfold limit. rewrite Hd, Ht. reflexivity.
  - assert (Hlen : (5 <= length (fpsHistory (performanceData sixMiddlingSamples)))%nat)
      by (simpl; lia).
    destruct (checkPerformanceDegradation_rule sixMiddlingSamples Hlen)
      as (_ & _ & _ & _ & _ & _ & Hdead & _).
    apply Hdead. vm_compute. split; [discriminate | reflexivity].
Defined.

Lemma detectDevicePerformance_classifies_witness :
  deviceTier (performanceData (detectDevicePerformance 0 120 eightCoresEightGB initial)) = low /\
  deviceTier (performanceData (detectDevicePerformance 0 80 eightCoresEightGB initial)) = medium /\
  deviceTier (performanceData (detectDevicePerformance 0 10 eightCoresEightGB initial)) = high /\
  deviceTier (performanceData (detectDevicePerformance 0 10 eightCoresOneGB initial)) = medium /\
  deviceTier (performanceData (detectDevicePerformance 0 10 twoCoresEightGB initial)) = medium.
Proof.
  split; [|split; [|split; [|split]]].
  - apply (proj1 (detectDevicePerformance_classifies 0 120 eightCoresEightGB initial)).
    vm_compute. reflexivity.
  - apply (proj1 (proj2 (detectDevicePerformance_classifies 0 80 eightCoresEightGB initial))).
    split; vm_compute; [reflexivity | discriminate].
  - apply (proj1 (proj2 (proj2 (detectDevicePerformance_classifies 0 10 eightCoresEightGB initial)))).
    + vm_compute. discriminate.
    + intros [Hc | [Hm _]].
      * vm_compute in Hc. apply Hc. reflexivity.
      * vm_compute in Hm. apply Hm. reflexivity.
  - apply (proj1 (proj2 (proj2 (detectDevicePerformance_classifies 0 10 eightCoresOneGB initial)))).
    + vm_compute. discriminate.
    + right. split; [vm_compute; discriminate|]. intros H. vm_compute in H. discriminate H.
  - apply (proj1 (proj2 (proj2 (detectDevicePerformance_classifies 0 10 twoCoresEightGB initial)))).
    + vm_compute. discriminate.
    + left. vm_compute. discriminate.
Defined.

Lemma admission_bounded_by_limit_witness :
  fst (registerAnimation "d" threeTickets) = false /\
  tickets (snd (registerAnimation "d" threeTickets)) = tickets threeTickets.
Proof.
  apply (proj2 (proj2 (proj2 (proj2 admission_bounded_by_limit))) "d" threeTickets).
  vm_compute. discriminate.
Defined.

(** The scenario of the three tickets: "d" is refused, and admitted once "b"
    has been released. *)
Example three_tickets_scenario :
  fst (registerAnimation "d" threeTickets) = false /\
  fst (registerAnimation "d" (unregisterAnimation "b" threeTickets)) = true.
Proof. split; vm_compute; reflexivity. Qed.

Lemma histories_bounded_fifo_witness :
  longTasks (performanceData (observeEntries [(eleventh, 11)] tenLongTasks)) =
    tail (longTasks (performanceData tenLongTasks)) ++ [mkLongTask 80 11 11] /\
  length (longTasks (performanceData (observeEntries [(eleventh, 11)] tenLongTasks)))
    = 10%nat.
Proof.
  assert (Hlong : (thresholds.longTaskThreshold < entry_duration eleventh)%Q)
    by (vm_compute; reflexivity).
  assert (Hlen : (length (longTasks (performanceData tenLongTasks)) <= 10)%nat)
    by (vm_compute; lia).
  destruct (proj2 (proj2 histories_bounded_fifo) eleventh 11 tenLongTasks Hlong Hlen)
    as (_ & _ & Hfull).
  apply Hfull. vm_compute. reflexivity.
Defined.

Lemma animate_skips_witness :
  exists w',
    animate 7 (Some "fade") calmWindow = Some (NoopCancel, w') /\
    callbackCalls w' = callbackCalls calmWindow ++ [(7%nat, 1%Q)] /\
    (forall w0, cancel NoopCancel w0 = Some w0) /\
    activeTickets w' = activeTickets calmWindow /\
    closures w' = closures calmWindow /\
    frameRequests w' = frameRequests calmWindow.
Proof.
  apply (animate_skips 7 (Some "fade") calmWindow).
  left. eexists. split; [reflexivity|]. left. reflexivity.
Defined.

Lemma getAverageFPS_rounded_mean_witness :
  getAverageFPS initial = 60 /\
  getAverageFPS twoSamples = 31 /\
  getAverageFPS sevenPoorSamples = 29.
Proof.
  split; [|split].
  - exact (proj1 (proj1 (getAverageFPS_rounded_mean initial) eq_refl)).
  - apply (proj2 (proj2 (proj2 (proj2 (proj2 (getAverageFPS_rounded_mean twoSamples)
                                         ltac:(discriminate))))) 31).
    vm_compute. split; [discriminate | reflexivity].
  - apply (proj2 (proj2 (proj2 (proj2 (proj2 (getAverageFPS_rounded_mean sevenPoorSamples)
                                         ltac:(discriminate))))) 29).
    vm_compute. split; [discriminate | reflexivity].
Defined.

Lemma unregisterAnimation_idempotent_witness :
  unregisterAnimation "ghost" threeTickets = threeTickets.
Proof.
  apply (proj1 (unregisterAnimation_idempotent "ghost" threeTickets)).
  vm_compute. intros H. discriminate H.
Defined.

Lemma registerAnimation_reregister_witness :
  registerAnimation "a" (snd (registerAnimation "a" initial)) =
  (true, snd (registerAnimation "a" initial)).
Proof.
  apply (proj1 (registerAnimation_reregister "a" (snd (registerAnimation "a" initial)))).
  - apply elem_of_union_r, elem_of_singleton. reflexivity.
  - vm_compute. reflexivity.
Defined.

(** * Further properties *)

(** ** Policy evaluation and its two mirrors *)

Lemma root_eq (r1 r2 : RootElement) :
  style r1 = style r2 -> classList r1 = classList r2 -> r1 = r2.
Proof. destruct r1, r2. simpl. intros -> ->. reflexivity. Qed.

Lemma elem_of_add_if (b : bool) (X : gset string) (s c : string) :
  c ∈ (if b then X ∪ {[s]} else X) <-> c ∈ X \/ (c = s /\ b = true).
Proof.
  destruct b.
  - rewrite elem_of_union, elem_of_singleton. tauto.
  - split; [auto|]. intros [H | [_ H]]; [exact H | discriminate].
Qed.

Lemma applyCSSClasses_classList m c :
  c ∈ classList (root (applyCSSClasses m)) <->
  c = tierClass (deviceTier (performanceData m)) \/
  (c = "reduced-motion" /\ isReducedMotion (performanceData m) = true) \/
  (c = "no-complex-animations" /\ disableComplexAnimations (degradation m) = true) \/
  (c = "no-parallax" /\ disableParallax (degradation m) = true) \/
  (c = "reduced-blur" /\ reduceBlurEffects (degradation m) = true) \/
  (c ∈ classList (root m) /\ c ∉ managedClasses).
Proof.
  unfold applyCSSClasses, managedClasses. cbn [root classList with_root].
  fold (tierClass (deviceTier (performanceData m))).
  rewrite !elem_of_add_if, elem_of_union, !elem_of_difference.
  rewrite !not_elem_of_union, !elem_of_singleton.
  tauto.
Qed.

Lemma applyCSSVariables_style m k :
  style (root (applyCSSVariables m)) !! k =
  if decide (k = "--duration-fast") then
    Some (if reduceAnimationDuration (degradation m) then "100ms" else "150ms")
  else if decide (k = "--duration-base") then
    Some (if reduceAnimationDuration (degradation m) then "150ms" else "300ms")
  else if decide (k = "--duration-slow") then
    Some (if reduceAnimationDuration (degradation m) then "250ms" else "500ms")
  else if decide (k = "--glass-blur") then
    Some (if reduceBlurEffects (degradation m) then "10px" else "20px")
  else style (root m) !! k.
Proof.
  unfold applyCSSVariables. cbn [root style with_root].
  destruct (reduceAnimationDuration (degradation m)),
           (reduceBlurEffects (degradation m));
    repeat case_decide; subst; simplify_map_eq; reflexivity.
Qed.

(** Mirroring a second time adds nothing. *)
Lemma mirror_twice (T R C P B X M : Prop) :
  (T \/ R \/ C \/ P \/ B \/ ((T \/ R \/ C \/ P \/ B \/ (X /\ ~ M)) /\ ~ M)) <->
  (T \/ R \/ C \/ P \/ B \/ (X /\ ~ M)).
Proof.
  split.
  - intros [H|[H|[H|[H|[H|[H _]]]]]]; auto 10.
  - intros [H|[H|[H|[H|[H|[H1 H2]]]]]]; auto 10.
    do 5 right. split; [|exact H2]. auto 10.
Qed.

Lemma applyDegradationStrategy_classList m c :
  let d := degradation (applyDegradationStrategy m) in
  c ∈ classList (root (applyDegradationStrategy m)) <->
  c = tierClass (deviceTier (performanceData m)) \/
  (c = "reduced-motion" /\ isReducedMotion (performanceData m) = true) \/
  (c = "no-complex-animations" /\ disableComplexAnimations d = true) \/
  (c = "no-parallax" /\ disableParallax d = true) \/
  (c = "reduced-blur" /\ reduceBlurEffects d = true) \/
  (c ∈ classList (root m) /\ c ∉ managedClasses).
Proof.
  cbv zeta. rewrite applyDegradationStrategy_degradation.
  change (root (applyDegradationStrategy m)) with
    (root (applyCSSClasses
             (applyCSSVariables
                (with_degradation
                   (strategy (deviceTier (performanceData m))
                             (isReducedMotion (performanceData m)) (degradation m))
                   m)))).
  rewrite applyCSSClasses_classList. reflexivity.
Qed.

Lemma applyDegradationStrategy_style m k :
  let d := degradation (applyDegradationStrategy m) in
  style (root (applyDegradationStrategy m)) !! k =
  if decide (k = "--duration-fast") then
    Some (if reduceAnimationDuration d then "100ms" else "150ms")
  else if decide (k = "--duration-base") then
    Some (if reduceAnimationDuration d then "150ms" else "300ms")
  else if decide (k = "--duration-slow") then
    Some (if reduceAnimationDuration d then "250ms" else "500ms")
  else if decide (k = "--glass-blur") then
    Some (if reduceBlurEffects d then "10px" else "20px")
  else style (root m) !! k.
Proof.
  cbv zeta. rewrite applyDegradationStrategy_degradation.
  change (style (root (applyDegradationStrategy m))) with
    (style (root (applyCSSVariables
                    (with_degradation
                       (strategy (deviceTier (performanceData m))
                                 (isReducedMotion (performanceData m)) (degradation m))
                       m)))).
  rewrite applyCSSVariables_style. reflexivity.
Qed.

(** X1: a policy evaluation writes a policy that is a function of the tier
    and the reduced-motion preference alone (nothing of the previous policy
    survives), with the rows low / medium / high of the table when the
    preference is off; a second evaluation changes neither the policy nor the
    root element. *)
Theorem policy_fully_recomputed (m1 m2 : Monitor) :
  (deviceTier (performanceData m1) = deviceTier (performanceData m2) ->
   isReducedMotion (performanceData m1) = isReducedMotion (performanceData m2) ->
   degradation (applyDegradationStrategy m1) = degradation (applyDegradationStrategy m2)) /\
  (isReducedMotion (performanceData m1) = false ->
   degradation (applyDegradationStrategy m1) =
     match deviceTier (performanceData m1) with
     | low => mkDegradation true true true true 1
     | medium => mkDegradation false true true false 2
     | high => mkDegradation false false false false 5
     end) /\
  degradation (applyDegradationStrategy (applyDegradationStrategy m1)) =
    degradation (applyDegradationStrategy m1) /\
  root (applyDegradationStrategy (applyDegradationStrategy m1)) =
    root (applyDegradationStrategy m1).
Proof.
  assert (Hd : degradation (applyDegradationStrategy (applyDegradationStrategy m1)) =
               degradation (applyDegradationStrategy m1)).
  { rewrite !applyDegradationStrategy_degradation.
    rewrite !applyDegradationStrategy_performanceData. apply strategy_fresh. }
  split; [|split; [|split]].
  - intros Ht Hr. rewrite !applyDegradationStrategy_degradation, Ht, Hr.
    apply strategy_fresh.
  - intros Hr. rewrite applyDegradationStrategy_degradation, Hr.
    destruct (deviceTier (performanceData m1)); reflexivity.
  - exact Hd.
  - apply root_eq.
    + apply map_eq. intros k.
      pose proof (applyDegradationStrategy_style (applyDegradationStrategy m1) k) as H2.
      pose proof (applyDegradationStrategy_style m1 k) as H1.
      cbv zeta in H1, H2. rewrite Hd in H2. rewrite H2.
      repeat case_decide; try reflexivity; rewrite H1;
        repeat case_decide; try reflexivity; congruence.
    + apply set_eq. intros c.
      pose proof (applyDegradationStrategy_classList (applyDegradationStrategy m1) c) as H2.
      pose proof (applyDegradationStrategy_classList m1 c) as H1.
      cbv zeta in H1, H2.
      rewrite Hd, applyDegradationStrategy_performanceData in H2.
      rewrite H2, H1. apply mirror_twice.
Qed.

(** Membership of a literal in a literal set, by evaluation. *)
Ltac by_computation := apply (bool_decide_unpack _); vm_compute; exact I.

Lemma tierClass_inj t t' : tierClass t = tierClass t' -> t = t'.
Proof.
  destruct t, t'; intros H; first [reflexivity | vm_compute in H; discriminate H].
Qed.

Lemma tierClass_managed t : tierClass t ∈ managedClasses.
Proof. destruct t; by_computation. Qed.

(** Closes the cases of the class-list characterisation that cannot be: a
    comparison of two different literals, or a managed class that is not. *)
Ltac mirror_absurd H :=
  lazymatch type of H with
  | _ = tierClass ?t => destruct t; vm_compute in H; discriminate H
  | _ = _ /\ _ => destruct H as [H _]; discriminate H
  | _ /\ _ ∉ managedClasses =>
      destruct H as [_ H]; exfalso; apply H;
      first [by_computation | exact (tierClass_managed _)]
  end.

(** X2: after a policy evaluation the class list of the root element mirrors
    the state: it holds the class of the current tier and of no other tier,
    each of the four flag classes exactly when its flag (or the preference)
    is on, and the classes the monitor does not own are kept as they were. *)
Theorem classes_mirror_policy (m : Monitor) :
  let m' := applyDegradationStrategy m in
  let d := degradation m' in
  let cl := classList (root m') in
  (forall t, tierClass t ∈ cl <-> t = deviceTier (performanceData m)) /\
  ("reduced-motion" ∈ cl <-> isReducedMotion (performanceData m) = true) /\
  ("no-complex-animations" ∈ cl <-> disableComplexAnimations d = true) /\
  ("no-parallax" ∈ cl <-> disableParallax d = true) /\
  ("reduced-blur" ∈ cl <-> reduceBlurEffects d = true) /\
  (forall c, c ∉ managedClasses -> (c ∈ cl <-> c ∈ classList (root m))).
Proof.
  cbv zeta.
  pose proof (applyDegradationStrategy_classList m) as H. cbv zeta in H.
  split; [|split; [|split; [|split; [|split]]]].
  - intros t. rewrite H. split.
    + intros [H1|[H1|[H1|[H1|[H1|H1]]]]].
      * apply tierClass_inj, H1.
      * destruct H1 as [H1 _]. destruct t; vm_compute in H1; discriminate H1.
      * destruct H1 as [H1 _]. destruct t; vm_compute in H1; discriminate H1.
      * destruct H1 as [H1 _]. destruct t; vm_compute in H1; discriminate H1.
      * destruct H1 as [H1 _]. destruct t; vm_compute in H1; discriminate H1.
      * mirror_absurd H1.
    + intros ->. left. reflexivity.
  - rewrite H. split.
    + intros [H1|[H1|[H1|[H1|[H1|H1]]]]];
        [mirror_absurd H1 | exact (proj2 H1) | mirror_absurd H1 ..].
    + intros Hr. right. left. auto.
  - rewrite H. split.
    + intros [H1|[H1|[H1|[H1|[H1|H1]]]]];
        [mirror_absurd H1 | mirror_absurd H1 | exact (proj2 H1) | mirror_absurd H1 ..].
    + intros Hr. right. right. left. auto.
  - rewrite H. split.
    + intros [H1|[H1|[H1|[H1|[H1|H1]]]]];
        [mirror_absurd H1 | mirror_absurd H1 | mirror_absurd H1
         | exact (proj2 H1) | mirror_absurd H1 ..].
    + intros Hr. right. right. right. left. auto.
  - rewrite H. split.
    + intros [H1|[H1|[H1|[H1|[H1|H1]]]]];
        [mirror_absurd H1 | mirror_absurd H1 | mirror_absurd H1 | mirror_absurd H1
         | exact (proj2 H1) | mirror_absurd H1].
    + intros Hr. right. right. right. right. left. auto.
  - intros c Hc. rewrite H. split.
    + intros [H1|[H1|[H1|[H1|[H1|H1]]]]]; [| | | | | exact (proj1 H1)];
        exfalso; apply Hc.
      * rewrite H1. exact (tierClass_managed _).
      * destruct H1 as [-> _]. by_computation.
      * destruct H1 as [-> _]. by_computation.
      * destruct H1 as [-> _]. by_computation.
      * destruct H1 as [-> _]. by_computation.
    + intros Hin. do 5 right. auto.
Qed.

(** X3: after a policy evaluation the four custom properties of the root
    element hold the short durations exactly when [reduceAnimationDuration]
    is on and the small blur exactly when [reduceBlurEffects] is on; every
    other property of the inline style is kept. *)
Theorem variables_mirror_policy (m : Monitor) :
  let m' := applyDegradationStrategy m in
  let d := degradation m' in
  let st := style (root m') in
  st !! "--duration-fast" =
    Some (if reduceAnimationDuration d then "100ms" else "150ms") /\
  st !! "--duration-base" =
    Some (if reduceAnimationDuration d then "150ms" else "300ms") /\
  st !! "--duration-slow" =
    Some (if reduceAnimationDuration d then "250ms" else "500ms") /\
  st !! "--glass-blur" = Some (if reduceBlurEffects d then "10px" else "20px") /\
  (forall k, k ∉ managedVariables -> st !! k = style (root m) !! k).
Proof.
  cbv zeta.
  pose proof (applyDegradationStrategy_style m) as H. cbv zeta in H.
  split; [|split; [|split; [|split]]]; try (rewrite H; reflexivity).
  intros k Hk. rewrite H.
  repeat case_decide; try reflexivity; subst; exfalso; apply Hk;
    by_computation.
Qed.

(** ** The policy follows the tier and the preference *)

Ltac same_profile := intros; unfold profile; repeat case_match; reflexivity.

Lemma profile_log msg lvl m : profile (log msg lvl m) = profile m.
Proof. same_profile. Qed.

Lemma profile_samplePerformance mem tim m :
  profile (samplePerformance mem tim m) = profile m.
Proof. unfold samplePerformance. same_profile. Qed.

Lemma profile_recordLongTask entry now m :
  profile (recordLongTask entry now m) = profile m.
Proof. unfold recordLongTask. same_profile. Qed.

Lemma profile_observeEntries entries m :
  profile (observeEntries entries m) = profile m.
Proof.
  unfold observeEntries. revert m.
  induction entries as [|e entries IH]; intros m; [reflexivity|].
  simpl. rewrite IH. apply profile_recordLongTask.
Qed.

Lemma profile_registerAnimation id m :
  profile (snd (registerAnimation id m)) = profile m.
Proof. unfold registerAnimation. same_profile. Qed.

Lemma inSync_applyDegradationStrategy m : inSync (applyDegradationStrategy m).
Proof.
  unfold inSync. rewrite applyDegradationStrategy_degradation.
  rewrite applyDegradationStrategy_performanceData. apply strategy_fresh.
Qed.

Lemma retier_performanceData t msg m :
  performanceData (retier t msg m) = set_deviceTier t (performanceData m).
Proof. reflexivity. Qed.

Lemma inSync_retier t msg m : inSync (retier t msg m).
Proof.
  unfold inSync. rewrite retier_degradation, retier_performanceData.
  apply strategy_fresh.
Qed.

Lemma inSync_profile m m' : profile m' = profile m -> inSync m -> inSync m'.
Proof.
  unfold profile, inSync. intros H. injection H as Hd Ht Hr _ _.
  rewrite Hd, Ht, Hr. auto.
Qed.

Lemma pristine_profile m m' : profile m' = profile m -> pristine m -> pristine m'.
Proof. unfold pristine. congruence. Qed.

Lemma setupListeners_degradation m : degradation (setupListeners m) = degradation m.
Proof. reflexivity. Qed.

Lemma setupListeners_performanceData m :
  performanceData (setupListeners m) = performanceData m.
Proof. reflexivity. Qed.

Lemma setupListeners_sampler m : sampler (setupListeners m) = sampler m.
Proof. reflexivity. Qed.

Lemma startPerformanceLogging_degradation m :
  degradation (startPerformanceLogging m) = degradation m.
Proof. reflexivity. Qed.

Lemma startPerformanceLogging_performanceData m :
  performanceData (startPerformanceLogging m) = performanceData m.
Proof. reflexivity. Qed.

Lemma startPerformanceLogging_sampler m :
  sampler (startPerformanceLogging m) = sampler m.
Proof. reflexivity. Qed.

Lemma log_sampler msg lvl m : sampler (log msg lvl m) = sampler m.
Proof. reflexivity. Qed.

Lemma applyDegradationStrategy_sampler m :
  sampler (applyDegradationStrategy m) = sampler m.
Proof. reflexivity. Qed.

Lemma startMonitoring_degradation env m :
  degradation (startMonitoring env m) = degradation m.
Proof. apply startMonitoring_silent. Qed.

Lemma startMonitoring_performanceData env m :
  performanceData (startMonitoring env m) =
  set_isMonitoring true (performanceData m).
Proof.
  unfold startMonitoring, startLongTaskMonitoring.
  destruct (isMonitoring (performanceData m)) eqn:Hm.
  - destruct m as [d p ? ? ? ? ? ? ? ?]. destruct p. simpl in *. subst. reflexivity.
  - repeat case_match; reflexivity.
Qed.

Lemma startMonitoring_sampler env m :
  sampler (startMonitoring env m) =
  if isMonitoring (performanceData m) then sampler m
  else Some (mkFpsSampler 0 (monitoringStart env)).
Proof.
  unfold startMonitoring, startLongTaskMonitoring.
  repeat case_match; reflexivity.
Qed.

(** The monitor [init] profiles: after the two detections. *)
Lemma init_degradation env m :
  degradation (init env m) =
  degradation
    (applyDegradationStrategy
       (detectDevicePerformance (benchmarkStart env) (benchmarkEnd env) (navigator env)
          (detectReducedMotion (prefersReducedMotion env) (navigator env) m))).
Proof.
  unfold init, monitoring.enableLogging.
  rewrite log_degradation, startPerformanceLogging_degradation,
    setupListeners_degradation, startMonitoring_degradation.
  reflexivity.
Qed.

Lemma init_performanceData env m :
  performanceData (init env m) =
  set_isMonitoring true
    (performanceData
       (detectDevicePerformance (benchmarkStart env) (benchmarkEnd env) (navigator env)
          (detectReducedMotion (prefersReducedMotion env) (navigator env) m))).
Proof.
  unfold init, monitoring.enableLogging.
  rewrite log_performanceData, startPerformanceLogging_performanceData,
    setupListeners_performanceData, startMonitoring_performanceData,
    applyDegradationStrategy_performanceData.
  reflexivity.
Qed.

Lemma inSync_init env m : inSync (init env m).
Proof.
  unfold inSync. rewrite init_degradation, init_performanceData.
  rewrite applyDegradationStrategy_degradation.
  change (deviceTier (set_isMonitoring true ?p)) with (deviceTier p).
  change (isReducedMotion (set_isMonitoring true ?p)) with (isReducedMotion p).
  apply strategy_fresh.
Qed.

Lemma inSync_log msg lvl m : inSync m -> inSync (log msg lvl m).
Proof.
  unfold inSync. rewrite log_degradation, log_performanceData. auto.
Qed.

Lemma inSync_with_sampler s m : inSync m -> inSync (with_sampler s m).
Proof. unfold inSync. auto. Qed.

Lemma inSync_checkPerformanceDegradation m :
  inSync m -> inSync (checkPerformanceDegradation m).
Proof.
  intros Hs.
  destruct (checkPerformanceDegradation_effect m) as [-> | (t' & msg & ->)];
    [exact Hs | apply inSync_retier].
Qed.

Lemma inSync_measureFPS t m : inSync m -> inSync (measureFPS t m).
Proof.
  intros Hs. unfold measureFPS.
  destruct (sampler m) as [s|]; [|exact Hs].
  destruct (Qgeb _ _).
  - apply inSync_with_sampler, inSync_checkPerformanceDegradation. exact Hs.
  - apply inSync_with_sampler. exact Hs.
Qed.

Lemma pristine_measureFPS t m : pristine m -> measureFPS t m = m.
Proof.
  unfold pristine, profile. intros H. injection H as _ _ _ Hs _.
  unfold measureFPS. rewrite Hs. reflexivity.
Qed.

Lemma pristine_listeners m : pristine m -> listeners m = false.
Proof. unfold pristine, profile. intros H. injection H as _ _ _ _ Hl. exact Hl. Qed.

(** One event keeps "pristine or in sync". *)
Lemma step_pristine_or_inSync e m :
  pristine m \/ inSync m -> pristine (step e m) \/ inSync (step e m).
Proof.
  intros Hm.
  assert (Hquiet : forall m', profile m' = profile m -> pristine m' \/ inSync m').
  { intros m' H. destruct Hm as [Hp | Hs];
      [left; exact (pristine_profile m m' H Hp)
      | right; exact (inSync_profile m m' H Hs)]. }
  destruct e; cbn [step].
  - right. apply inSync_init.
  - destruct Hm as [Hp | Hs].
    + rewrite (pristine_measureFPS _ _ Hp). left. exact Hp.
    + right. apply inSync_measureFPS, Hs.
  - destruct (longTaskObserver m); [|exact Hm].
    apply Hquiet, profile_observeEntries.
  - destruct (monitoringInterval m); [|exact Hm].
    apply Hquiet, profile_samplePerformance.
  - destruct (reportTimers m); [exact Hm|].
    apply (Hquiet (logReport m)). reflexivity.
  - destruct (listeners m); [|exact Hm].
    right. unfold onReducedMotionChange.
    apply inSync_log, inSync_applyDegradationStrategy.
  - destruct (listeners m); [|exact Hm].
    right. unfold onResize. apply inSync_applyDegradationStrategy.
  - destruct (listeners m); [|exact Hm].
    apply (Hquiet (onVisibilityChange hidden m)). destruct hidden; reflexivity.
  - apply Hquiet, profile_registerAnimation.
  - apply (Hquiet (unregisterAnimation animationId m)). reflexivity.
Qed.

Lemma reachable_pristine_or_inSync m : reachable m -> pristine m \/ inSync m.
Proof.
  induction 1 as [|e m Hm IH].
  - left. reflexivity.
  - apply step_pristine_or_inSync, IH.
Qed.

(** X4: the policy never lags behind the state it is derived from.  At every
    reachable state the monitor is still as the object literal has it (no
    frame callback, no listener, tier high, policy of the literal) or its
    policy is the one derived from its current tier and reduced-motion flag;
    once the listeners are installed the second holds, so the limit is 1
    under the preference or at tier low, 2 at medium and 5 at high. *)
Theorem policy_in_sync (m : Monitor) :
  reachable m ->
  (pristine m \/ inSync m) /\
  (listeners m = true ->
   inSync m /\
   limit m = if isReducedMotion (performanceData m) then 1
             else match deviceTier (performanceData m) with
                  | low => 1 | medium => 2 | high => 5
                  end).
Proof.
  intros Hm.
  pose proof (reachable_pristine_or_inSync m Hm) as H.
  split; [exact H|]. intros Hl.
  destruct H as [Hp | Hs].
  - apply pristine_listeners in Hp. congruence.
  - split; [exact Hs|]. unfold limit. rewrite Hs.
    destruct (isReducedMotion (performanceData m)),
             (deviceTier (performanceData m)); reflexivity.
Qed.

(** ** Detection of weak hosts and of the preference *)

Lemma detectLowEndDevice_iff nav :
  detectLowEndDevice nav = true <->
  coresOf nav <= 2 \/ (memoryOf nav <= 2)%Q \/
  connection nav = Some "slow-2g" \/ connection nav = Some "2g".
Proof.
  unfold detectLowEndDevice.
  destruct (Z.leb_spec (coresOf nav) 2) as [Hc | Hc].
  { split; auto. }
  destruct (Qleb (memoryOf nav) 2) eqn:Hm.
  { apply Qleb_le in Hm. split; auto. }
  apply Qleb_gt in Hm.
  assert (Hnm : ~ (memoryOf nav <= 2)%Q) by (apply Qlt_not_le, Hm).
  destruct (connection nav) as [t|].
  - destruct (String.eqb_spec t "slow-2g") as [-> | Hs]; simpl.
    { split; auto. }
    destruct (String.eqb_spec t "2g") as [-> | Hg]; simpl.
    { split; auto. }
    split; [discriminate|].
    intros [H | [H | [H | H]]]; [lia | contradiction | congruence | congruence].
  - split; [discriminate|].
    intros [H | [H | [H | H]]]; [lia | contradiction | discriminate | discriminate].
Qed.

Lemma detectReducedMotion_flag matches nav m :
  isReducedMotion (performanceData (detectReducedMotion matches nav m)) =
  matches || mobileUserAgent nav || detectLowEndDevice nav.
Proof.
  unfold detectReducedMotion.
  destruct (mobileUserAgent nav), (detectLowEndDevice nav), matches; reflexivity.
Qed.

(** X5: the host counts as low-end exactly when it has at most 2 cores or at
    most 2 GB (after the defaults) or a connection of type slow-2g or 2g, so
    a browser that reports no core count always does; and the detection sets
    the reduced-motion flag to the disjunction of the media query, the mobile
    signature and the low-end verdict: these can force the flag on against
    the media query, never off. *)
Theorem reduced_motion_forced_on (matches : bool) (nav : Navigator) (m : Monitor) :
  let flag := isReducedMotion (performanceData (detectReducedMotion matches nav m)) in
  (detectLowEndDevice nav = true <->
     coresOf nav <= 2 \/ (memoryOf nav <= 2)%Q \/
     connection nav = Some "slow-2g" \/ connection nav = Some "2g") /\
  (hardwareConcurrency nav = None -> detectLowEndDevice nav = true) /\
  flag = matches || mobileUserAgent nav || detectLowEndDevice nav /\
  (matches = true -> flag = true) /\
  (flag = false ->
     matches = false /\ mobileUserAgent nav = false /\ detectLowEndDevice nav = false).
Proof.
  cbv zeta. rewrite detectReducedMotion_flag.
  split; [apply detectLowEndDevice_iff|]. split; [|split; [reflexivity|split]].
  - intros Hc. apply detectLowEndDevice_iff. left.
    rewrite (coresOf_absent nav Hc). lia.
  - intros ->. reflexivity.
  - intros H. apply orb_false_iff in H as [H Hl].
    apply orb_false_iff in H as [Hm Hu]. auto.
Qed.

(** ** [init] *)

Lemma detectDevicePerformance_flag s e nav m :
  isReducedMotion (performanceData (detectDevicePerformance s e nav m)) =
  isReducedMotion (performanceData m).
Proof. unfold detectDevicePerformance. repeat case_match; reflexivity. Qed.

Lemma detectors_isMonitoring s e nav b nav' m :
  isMonitoring (performanceData
                  (detectDevicePerformance s e nav (detectReducedMotion b nav' m))) =
  isMonitoring (performanceData m).
Proof.
  unfold detectDevicePerformance, detectReducedMotion. repeat case_match; reflexivity.
Qed.

Lemma detectors_sampler s e nav b nav' m :
  sampler (detectDevicePerformance s e nav (detectReducedMotion b nav' m)) = sampler m.
Proof.
  unfold detectDevicePerformance, detectReducedMotion. repeat case_match; reflexivity.
Qed.

Lemma init_sampler env m :
  sampler (init env m) =
  if isMonitoring (performanceData m) then sampler m
  else Some (mkFpsSampler 0 (monitoringStart env)).
Proof.
  unfold init, monitoring.enableLogging.
  rewrite log_sampler, startPerformanceLogging_sampler, setupListeners_sampler,
    startMonitoring_sampler.
  rewrite applyDegradationStrategy_performanceData, applyDegradationStrategy_sampler.
  rewrite detectors_isMonitoring, detectors_sampler. reflexivity.
Qed.

Ltac same_subscriptions :=
  intros; unfold subscriptions; repeat case_match; reflexivity.

Lemma subscriptions_inv m l r b :
  subscriptions m = (l, r, b) ->
  listenerSets m = l /\ reportTimers m = r /\ loggingInterval m = b.
Proof. unfold subscriptions. intros H. injection H as -> -> ->. auto. Qed.

Lemma subscriptions_log msg lvl m : subscriptions (log msg lvl m) = subscriptions m.
Proof. same_subscriptions. Qed.

Lemma subscriptions_applyDegradationStrategy m :
  subscriptions (applyDegradationStrategy m) = subscriptions m.
Proof. reflexivity. Qed.

Lemma subscriptions_detectReducedMotion b nav m :
  subscriptions (detectReducedMotion b nav m) = subscriptions m.
Proof. unfold detectReducedMotion. same_subscriptions. Qed.

Lemma subscriptions_detectDevicePerformance s e nav m :
  subscriptions (detectDevicePerformance s e nav m) = subscriptions m.
Proof. unfold detectDevicePerformance. same_subscriptions. Qed.

Lemma subscriptions_startMonitoring env m :
  subscriptions (startMonitoring env m) = subscriptions m.
Proof. unfold startMonitoring, startLongTaskMonitoring. same_subscriptions. Qed.

Lemma subscriptions_subscribe m :
  subscriptions (startPerformanceLogging (setupListeners m)) =
  (S (listenerSets m), S (reportTimers m), true).
Proof. reflexivity. Qed.

Lemma startMonitoring_listenerSets env s e nav b nav' m :
  listenerSets (startMonitoring env
                  (applyDegradationStrategy
                     (detectDevicePerformance s e nav (detectReducedMotion b nav' m)))) =
  listenerSets m.
Proof.
  pose proof (subscriptions_startMonitoring env
                (applyDegradationStrategy
                   (detectDevicePerformance s e nav (detectReducedMotion b nav' m)))) as H.
  rewrite subscriptions_applyDegradationStrategy, subscriptions_detectDevicePerformance,
    subscriptions_detectReducedMotion in H.
  unfold subscriptions in H. injection H as H _ _. exact H.
Qed.

Lemma startMonitoring_reportTimers env s e nav b nav' m :
  reportTimers (startMonitoring env
                  (applyDegradationStrategy
                     (detectDevicePerformance s e nav (detectReducedMotion b nav' m)))) =
  reportTimers m.
Proof.
  pose proof (subscriptions_startMonitoring env
                (applyDegradationStrategy
                   (detectDevicePerformance s e nav (detectReducedMotion b nav' m)))) as H.
  rewrite subscriptions_applyDegradationStrategy, subscriptions_detectDevicePerformance,
    subscriptions_detectReducedMotion in H.
  unfold subscriptions in H. injection H as _ H _. exact H.
Qed.

(** Each [init] adds one set of listeners and one report timer, and leaves
    a handle in [loggingInterval]. *)
Lemma init_subscriptions env m :
  subscriptions (init env m) = (S (listenerSets m), S (reportTimers m), true).
Proof.
  unfold init, monitoring.enableLogging.
  rewrite subscriptions_log, subscriptions_subscribe.
  rewrite startMonitoring_listenerSets, startMonitoring_reportTimers.
  reflexivity.
Qed.

Lemma init_isMonitoring env m : isMonitoring (performanceData (init env m)) = true.
Proof.
  rewrite init_performanceData. reflexivity.
Qed.

Lemma detectors_monitoringInterval s e nav b nav' m :
  monitoringInterval (detectDevicePerformance s e nav (detectReducedMotion b nav' m)) =
  monitoringInterval m.
Proof.
  unfold detectDevicePerformance, detectReducedMotion. repeat case_match; reflexivity.
Qed.

Lemma log_monitoringInterval msg lvl m :
  monitoringInterval (log msg lvl m) = monitoringInterval m.
Proof. reflexivity. Qed.

Lemma subscribe_monitoringInterval m :
  monitoringInterval (startPerformanceLogging (setupListeners m)) = monitoringInterval m.
Proof. reflexivity. Qed.

Lemma applyDegradationStrategy_monitoringInterval m :
  monitoringInterval (applyDegradationStrategy m) = monitoringInterval m.
Proof. reflexivity. Qed.

Lemma startMonitoring_monitoringInterval env m :
  monitoringInterval (startMonitoring env m) =
  if isMonitoring (performanceData m) then monitoringInterval m else true.
Proof. unfold startMonitoring. destruct (isMonitoring (performanceData m)); reflexivity. Qed.

Lemma init_monitoringInterval env m :
  monitoringInterval (init env m) =
  if isMonitoring (performanceData m) then monitoringInterval m else true.
Proof.
  unfold init, monitoring.enableLogging.
  rewrite log_monitoringInterval, subscribe_monitoringInterval,
    startMonitoring_monitoringInterval.
  rewrite applyDegradationStrategy_performanceData, detectors_isMonitoring.
  rewrite applyDegradationStrategy_monitoringInterval, detectors_monitoringInterval.
  reflexivity.
Qed.

(** X6: what [init] establishes, from any state: the tier is the
    benchmark's, with high demoted to medium when the navigator reports at
    most 2 cores (or no core count) or at most 2 GB; the reduced-motion flag
    is the disjunction of media query, mobile signature and low-end verdict;
    the policy is derived from these two; monitoring and the listeners are
    on; tickets and histories are kept.  Each [init] adds one more set of
    listeners and one more report timer.  A second [init], in whatever
    environment, profiles again and subscribes again but, monitoring being
    on, starts no second sample timer and leaves the running frame callback
    and its counter alone. *)
Theorem init_establishes (env env2 : Environment) (m : Monitor) :
  let m' := init env m in
  let m'' := init env2 m' in
  let nav := navigator env in
  let d := (benchmarkEnd env - benchmarkStart env)%Q in
  let fewCores :=
    match hardwareConcurrency nav with Some c => c <= 2 | None => True end in
  let littleMemory :=
    match deviceMemory nav with
    | Some mem => (mem <= 2)%Q /\ ~ (mem == 0)%Q
    | None => False
    end in
  ((100 < d)%Q -> deviceTier (performanceData m') = low) /\
  ((50 < d)%Q /\ (d <= 100)%Q -> deviceTier (performanceData m') = medium) /\
  ((d <= 50)%Q -> fewCores \/ littleMemory -> deviceTier (performanceData m') = medium) /\
  ((d <= 50)%Q -> ~ (fewCores \/ littleMemory) -> deviceTier (performanceData m') = high) /\
  isReducedMotion (performanceData m') =
    prefersReducedMotion env || mobileUserAgent nav || detectLowEndDevice nav /\
  (detectLowEndDevice nav = true <->
     fewCores \/ littleMemory \/
     connection nav = Some "slow-2g" \/ connection nav = Some "2g") /\
  inSync m' /\
  isMonitoring (performanceData m') = true /\
  listeners m' = true /\
  tickets m' = tickets m /\
  histories m' = histories m /\
  listenerSets m' = S (listenerSets m) /\
  reportTimers m' = S (reportTimers m) /\
  loggingInterval m' = true /\
  sampler m'' = sampler m' /\
  monitoringInterval m'' = monitoringInterval m' /\
  listenerSets m'' = S (S (listenerSets m)) /\
  reportTimers m'' = S (S (reportTimers m)).
Proof.
  cbv zeta.
  destruct (subscriptions_inv _ _ _ _ (init_subscriptions env m)) as (Hl & Hr & Hi).
  destruct (subscriptions_inv _ _ _ _ (init_subscriptions env2 (init env m)))
    as (Hl2 & Hr2 & _).
  assert (Htier : deviceTier (performanceData (init env m)) =
                  let t := benchmarkTier (benchmarkEnd env - benchmarkStart env) in
                  if (coresOf (navigator env) <=? 2) || Qleb (memoryOf (navigator env)) 2
                  then match t with high => medium | _ => t end else t).
  { rewrite init_performanceData.
    change (deviceTier (set_isMonitoring true ?p)) with (deviceTier p).
    apply detectDevicePerformance_tier. }
  cbv zeta in Htier.
  destruct (benchmarkTier_spec (benchmarkEnd env - benchmarkStart env))
    as (Hlow & Hmed & Hhigh).
  pose proof (weak_hardware_iff (navigator env)) as Hweak.
  rewrite (coresOf_few (navigator env)), (memoryOf_little (navigator env)) in Hweak.
  split; [|split; [|split; [|split]]].
  - intros H. rewrite Htier, (Hlow H). destruct (_ || _); reflexivity.
  - intros [H1 H2]. rewrite Htier, (Hmed H1 H2). destruct (_ || _); reflexivity.
  - intros H Hw. rewrite Htier, (Hhigh H). apply Hweak in Hw. rewrite Hw. reflexivity.
  - intros H Hw. rewrite Htier, (Hhigh H).
    destruct (_ || _); [|reflexivity]. exfalso. apply Hw, Hweak. reflexivity.
  - split.
    { rewrite init_performanceData.
      change (isReducedMotion (set_isMonitoring true ?p)) with (isReducedMotion p).
      rewrite detectDevicePerformance_flag. apply detectReducedMotion_flag. }
    split.
    { rewrite detectLowEndDevice_iff, (coresOf_few (navigator env)),
        (memoryOf_little (navigator env)). reflexivity. }
    split; [apply inSync_init|].
    split; [apply init_isMonitoring|].
    split; [unfold listeners; rewrite Hl; reflexivity|].
    split; [apply init_policyOnly|].
    split; [apply histories_init|].
    split; [exact Hl|]. split; [exact Hr|]. split; [exact Hi|].
    split; [rewrite init_sampler, init_isMonitoring; reflexivity|].
    split; [rewrite init_monitoringInterval, init_isMonitoring; reflexivity|].
    split; [rewrite Hl2, Hl; reflexivity | rewrite Hr2, Hr; reflexivity].
Qed.

(** ** More on the transition rule *)






(** ** The average and the samples *)

Lemma Math_round_inject k : Math_round (inject_Z k) = k.
Proof. apply Math_round_unique; lra. Qed.

Lemma Math_round_mono x y : (x <= y)%Q -> Math_round x <= Math_round y.
Proof. intros H. unfold Math_round. apply Qfloor_resp_le. lra. Qed.

Lemma Qdiv_bounds (lo hi a n : Z) :
  0 < n -> n * lo <= a <= n * hi ->
  (inject_Z lo <= inject_Z a / inject_Z n)%Q /\
  (inject_Z a / inject_Z n <= inject_Z hi)%Q.
Proof.
  intros Hn [Hlo Hhi].
  assert (Hq : (0 < inject_Z n)%Q)
    by (change 0%Q with (inject_Z 0); rewrite <- Zlt_Qlt; exact Hn).
  split.
  - apply Qle_shift_div_l; [exact Hq|].
    rewrite <- inject_Z_mult, <- Zle_Qle. lia.
  - apply Qle_shift_div_r; [exact Hq|].
    rewrite <- inject_Z_mult, <- Zle_Qle. lia.
Qed.

Lemma averageFPS_between lo hi h :
  h <> [] -> Forall (fun v => lo <= v <= hi) h -> lo <= averageFPS h <= hi.
Proof.
  intros Hne Hall. destruct h as [|v h]; [congruence|].
  rewrite averageFPS_cons.
  pose proof (sumFPS_bounds lo hi (v :: h) Hall) as Hsum.
  destruct (Qdiv_bounds lo hi (sumFPS (v :: h)) (Z.of_nat (length (v :: h))))
    as [Hlo Hhi]; [simpl length; lia | exact Hsum |].
  split.
  - rewrite <- (Math_round_inject lo). apply Math_round_mono, Hlo.
  - rewrite <- (Math_round_inject hi). apply Math_round_mono, Hhi.
Qed.

(** X9: the average reported lies between the smallest and the largest
    sample held: if every sample of a non-empty history is within [lo, hi],
    so is [getAverageFPS]; and when all samples are equal it is that value. *)
Theorem getAverageFPS_between (lo hi : Z) (m : Monitor) :
  fpsHistory (performanceData m) <> [] ->
  Forall (fun v => lo <= v <= hi) (fpsHistory (performanceData m)) ->
  lo <= getAverageFPS m <= hi /\
  (lo = hi -> getAverageFPS m = lo).
Proof.
  intros Hne Hall.
  pose proof (averageFPS_between lo hi _ Hne Hall) as H.
  unfold getAverageFPS. split; [exact H | lia].
Qed.

Ltac same_samples := intros; unfold samples; repeat case_match; reflexivity.

Lemma samples_samplePerformance mem tim m :
  samples (samplePerformance mem tim m) = samples m.
Proof. unfold samplePerformance. same_samples. Qed.

Lemma samples_recordLongTask entry now m :
  samples (recordLongTask entry now m) = samples m.
Proof. unfold recordLongTask. same_samples. Qed.

Lemma samples_observeEntries entries m :
  samples (observeEntries entries m) = samples m.
Proof.
  unfold observeEntries. revert m.
  induction entries as [|e entries IH]; intros m; [reflexivity|].
  simpl. rewrite IH. apply samples_recordLongTask.
Qed.

Lemma samples_registerAnimation id m :
  samples (snd (registerAnimation id m)) = samples m.
Proof. unfold registerAnimation. same_samples. Qed.

Lemma samples_detectDevicePerformance s e nav m :
  samples (detectDevicePerformance s e nav m) = samples m.
Proof. unfold detectDevicePerformance. same_samples. Qed.

Lemma samples_detectReducedMotion b nav m :
  samples (detectReducedMotion b nav m) = samples m.
Proof. unfold detectReducedMotion. same_samples. Qed.

Lemma samples_checkPerformanceDegradation m :
  samples (checkPerformanceDegradation m) = samples m.
Proof.
  destruct (checkPerformanceDegradation_effect m) as [-> | (t & msg & ->)];
    reflexivity.
Qed.

Lemma samplesNonNegative_same m m' :
  samples m' = samples m -> samplesNonNegative m -> samplesNonNegative m'.
Proof.
  unfold samples, samplesNonNegative. intros H. injection H as -> -> ->. auto.
Qed.

Lemma Math_round_nonneg x : (0 <= x)%Q -> 0 <= Math_round x.
Proof.
  intros Hx. rewrite <- (Math_round_inject 0). apply Math_round_mono. exact Hx.
Qed.

(** The sample computed when a window closes is not negative. *)
Lemma window_sample_nonneg (count : Z) (elapsed : Q) :
  0 <= count -> (monitoring.fpsWindow <= elapsed)%Q ->
  0 <= Math_round (inject_Z ((count + 1) * 1000) / elapsed).
Proof.
  intros Hc Hwin. apply Math_round_nonneg.
  unfold monitoring.fpsWindow in Hwin.
  apply Qle_shift_div_l; [lra|].
  rewrite Qmult_0_l. change 0%Q with (inject_Z 0). rewrite <- Zle_Qle. lia.
Qed.

Lemma pushFPS_Forall (P : Z -> Prop) v h :
  P v -> Forall P h -> Forall P (pushFPS v h).
Proof.
  intros Hv Hh. unfold pushFPS.
  assert (Hall : Forall P (h ++ [v])) by (apply Forall_app; split; [exact Hh | auto]).
  destruct (30 <? length (h ++ [v]))%nat; [|exact Hall].
  unfold shift. destruct (h ++ [v]) as [|x l]; [constructor|].
  simpl. inversion Hall; assumption.
Qed.

Lemma samplesNonNegative_with_sampler s' m :
  Forall (fun v => 0 <= v) (fpsHistory (performanceData m)) ->
  0 <= fps (performanceData m) ->
  (forall s, s' = Some s -> 0 <= frameCount s) ->
  samplesNonNegative (with_sampler s' m).
Proof. intros Hh Hf Hs. repeat split; assumption. Qed.

Lemma checkPerformanceDegradation_fpsHistory m :
  fpsHistory (performanceData (checkPerformanceDegradation m)) =
  fpsHistory (performanceData m).
Proof.
  pose proof (samples_checkPerformanceDegradation m) as H.
  unfold samples in H. injection H as H _ _. exact H.
Qed.

Lemma checkPerformanceDegradation_fps m :
  fps (performanceData (checkPerformanceDegradation m)) = fps (performanceData m).
Proof.
  pose proof (samples_checkPerformanceDegradation m) as H.
  unfold samples in H. injection H as _ H _. exact H.
Qed.

Lemma samplesNonNegative_measureFPS t m :
  samplesNonNegative m -> samplesNonNegative (measureFPS t m).
Proof.
  intros (Hh & Hf & Hs). unfold measureFPS.
  destruct (sampler m) as [s|] eqn:Es; [|repeat split; auto; rewrite Es; auto].
  pose proof (Hs s eq_refl) as Hc.
  destruct (Qgeb _ _) eqn:Hwin.
  - apply Qleb_le in Hwin.
    pose proof (window_sample_nonneg (frameCount s) _ Hc Hwin) as Hv.
    apply samplesNonNegative_with_sampler.
    + rewrite checkPerformanceDegradation_fpsHistory.
      cbn [performanceData with_performanceData fpsHistory set_fpsHistory set_fps].
      apply pushFPS_Forall; assumption.
    + rewrite checkPerformanceDegradation_fps.
      cbn [performanceData with_performanceData fps set_fpsHistory set_fps].
      exact Hv.
    + intros s' Hs'. injection Hs' as <-. simpl. lia.
  - apply samplesNonNegative_with_sampler; [assumption | assumption |].
    intros s' Hs'. injection Hs' as <-. simpl. lia.
Qed.

Lemma detectors_fpsHistory s e nav b nav' m :
  fpsHistory (performanceData
                (detectDevicePerformance s e nav (detectReducedMotion b nav' m))) =
  fpsHistory (performanceData m).
Proof.
  unfold detectDevicePerformance, detectReducedMotion. repeat case_match; reflexivity.
Qed.

Lemma detectors_fps s e nav b nav' m :
  fps (performanceData
         (detectDevicePerformance s e nav (detectReducedMotion b nav' m))) =
  fps (performanceData m).
Proof.
  unfold detectDevicePerformance, detectReducedMotion. repeat case_match; reflexivity.
Qed.

Lemma samplesNonNegative_init env m :
  samplesNonNegative m -> samplesNonNegative (init env m).
Proof.
  intros (Hh & Hf & Hs). unfold samplesNonNegative.
  rewrite init_performanceData, init_sampler.
  cbn [fpsHistory fps set_isMonitoring].
  rewrite detectors_fpsHistory, detectors_fps.
  repeat split; auto.
  destruct (isMonitoring (performanceData m)); auto.
  intros s Hs'. injection Hs' as <-. simpl. lia.
Qed.

Lemma step_samplesNonNegative e m :
  samplesNonNegative m -> samplesNonNegative (step e m).
Proof.
  intros Hm.
  pose proof (fun m' H => samplesNonNegative_same m m' H Hm) as Hsame.
  destruct e; cbn [step].
  - apply samplesNonNegative_init, Hm.
  - apply samplesNonNegative_measureFPS, Hm.
  - destruct (longTaskObserver m); [|exact Hm].
    apply Hsame, samples_observeEntries.
  - destruct (monitoringInterval m); [|exact Hm].
    apply Hsame, samples_samplePerformance.
  - destruct (reportTimers m); [exact Hm|].
    apply (Hsame (logReport m)). reflexivity.
  - destruct (listeners m); [|exact Hm].
    apply (Hsame (onReducedMotionChange matches m)). reflexivity.
  - destruct (listeners m); [|exact Hm].
    apply (Hsame (onResize startTime endTime nav m)).
    unfold onResize.
    change (samples (applyDegradationStrategy ?x)) with (samples x).
    apply samples_detectDevicePerformance.
  - destruct (listeners m); [|exact Hm].
    apply (Hsame (onVisibilityChange hidden m)). destruct hidden; reflexivity.
  - apply Hsame, samples_registerAnimation.
  - apply (Hsame (unregisterAnimation animationId m)). reflexivity.
Qed.

(** X10: frame-rate samples are never negative.  At every reachable state
    all samples of the history, the last sample [fps] and the frame counter
    are at least 0, whatever clock readings the frame callback was given; so
    the average reported is at least 0 as well. *)
Theorem samples_never_negative (m : Monitor) :
  reachable m ->
  samplesNonNegative m /\ 0 <= getAverageFPS m.
Proof.
  intros Hm.
  assert (H : samplesNonNegative m).
  { induction Hm as [|e m Hm IH].
    - repeat split; [constructor | simpl; lia | discriminate].
    - apply step_samplesNonNegative, IH. }
  split; [exact H|].
  destruct H as (Hh & _ & _). unfold getAverageFPS.
  destruct (fpsHistory (performanceData m)) as [|v h] eqn:E.
  - rewrite averageFPS_nil. lia.
  - rewrite averageFPS_cons. apply Math_round_nonneg.
    assert (Hsum : 0 <= sumFPS (v :: h)).
    { clear E. induction Hh as [|x l Hx Hl IH].
      - unfold sumFPS. simpl. lia.
      - rewrite sumFPS_cons. lia. }
    apply Qle_shift_div_l.
    + change 0%Q with (inject_Z 0). rewrite <- Zlt_Qlt. simpl length. lia.
    + rewrite Qmult_0_l. change 0%Q with (inject_Z 0). rewrite <- Zle_Qle. exact Hsum.
Qed.

(** ** Tickets: release and re-admission *)

Lemma size_remove_member (a : gset string) id :
  id ∈ a -> S (size (a ∖ {[id]})) = size a.
Proof.
  intros Hin.
  assert (Hsub : ({[id]} : gset string) ⊆ a) by (apply singleton_subseteq_l, Hin).
  pose proof (size_difference a {[id]} Hsub) as Hd.
  pose proof (subseteq_size _ _ Hsub) as Hle.
  rewrite size_singleton in Hd, Hle. lia.
Qed.

Lemma add_remove_fresh (a : gset string) id : id ∉ a -> (a ∪ {[id]}) ∖ {[id]} = a.
Proof. intros Hout. apply set_eq. intros x. set_solver. Qed.

(** X11: a ticket taken and given back leaves no trace: for an id that is
    not active and a monitor with a free slot, [registerAnimation] followed
    by [unregisterAnimation] of the same id returns the monitor it started
    from. *)
Theorem register_then_unregister (id : string) (m : Monitor) :
  id ∉ tickets m ->
  Z.of_nat (size (tickets m)) < limit m ->
  fst (registerAnimation id m) = true /\
  unregisterAnimation id (snd (registerAnimation id m)) = m.
Proof.
  intros Hout Hlt. rewrite (registerAnimation_admitted id m Hlt).
  split; [reflexivity|]. cbn [snd].
  unfold unregisterAnimation, with_performanceData, set_activeAnimations, tickets in *.
  destruct m as [d p mi li sa lo ls ro co pr]. destruct p as [f fh lt mu dt rm aa im].
  cbn [performanceData activeAnimations fps fpsHistory longTasks memoryUsage
       deviceTier isReducedMotion isMonitoring degradation monitoringInterval
       loggingInterval sampler longTaskObserver listeners root console
       policyRecomputes] in *.
  rewrite (add_remove_fresh _ _ Hout). reflexivity.
Qed.

(** X12: releasing an active ticket frees a slot: if the active set is
    within the limit and holds [id], then after [unregisterAnimation id] the
    next [registerAnimation], of any id, is admitted. *)
Theorem unregister_frees_slot (id id' : string) (m : Monitor) :
  id ∈ tickets m ->
  withinLimit m ->
  fst (registerAnimation id' (unregisterAnimation id m)) = true /\
  withinLimit (snd (registerAnimation id' (unregisterAnimation id m))).
Proof.
  intros Hin Hwithin. unfold withinLimit in *.
  pose proof (size_remove_member (tickets m) id Hin) as Hsize.
  assert (Hlt : Z.of_nat (size (tickets (unregisterAnimation id m))) <
                limit (unregisterAnimation id m)).
  { change (tickets (unregisterAnimation id m)) with (tickets m ∖ {[id]}).
    change (limit (unregisterAnimation id m)) with (limit m). lia. }
  rewrite (registerAnimation_admitted id' _ Hlt). split; [reflexivity|].
  cbn [snd].
  change (tickets (with_performanceData
                     (set_activeAnimations
                        (tickets (unregisterAnimation id m) ∪ {[id']})
                        (performanceData (unregisterAnimation id m)))
                     (unregisterAnimation id m)))
    with (tickets (unregisterAnimation id m) ∪ {[id']}).
  change (limit (with_performanceData
                   (set_activeAnimations
                      (tickets (unregisterAnimation id m) ∪ {[id']})
                      (performanceData (unregisterAnimation id m)))
                   (unregisterAnimation id m)))
    with (limit m).
  change (tickets (unregisterAnimation id m)) with (tickets m ∖ {[id]}).
  rewrite size_add_ticket. case_decide; lia.
Qed.

(** ** What the side channels never touch *)

(** X13: memory samples, page-load timing and long-task records are
    recorded and logged only.  Whatever [samplePerformance] reads and
    whatever entries the observer delivers, the tier, the reduced-motion
    flag, the policy, the active tickets and the fps history stay as they
    are: these channels never feed the classification. *)
Theorem side_channels_do_not_classify
    (memory : option HeapInfo) (timing : option (Z * Z))
    (entries : list (PerformanceEntry * Z)) (m : Monitor) :
  let m1 := samplePerformance memory timing m in
  let m2 := observeEntries entries m in
  (profile m1 = profile m /\ tickets m1 = tickets m /\ samples m1 = samples m /\
   longTasks (performanceData m1) = longTasks (performanceData m)) /\
  (profile m2 = profile m /\ tickets m2 = tickets m /\ samples m2 = samples m /\
   memoryUsage (performanceData m2) = memoryUsage (performanceData m)).
Proof.
  cbv zeta. split; split.
  - apply profile_samplePerformance.
  - split; [apply samplePerformance_silent|].
    split; [apply samples_samplePerformance|].
    pose proof (histories_samplePerformance memory timing m) as H.
    unfold histories in H. injection H as _ H. exact H.
  - apply profile_observeEntries.
  - split; [apply observeEntries_silent|].
    split; [apply samples_observeEntries|].
    unfold observeEntries. revert m.
    induction entries as [|e entries IH]; intros m; [reflexivity|].
    simpl. rewrite IH. unfold recordLongTask. repeat case_match; reflexivity.
Qed.

(** ** Running animations *)

Lemma registrationRefused_no_id id w :
  truthy id = false -> registrationRefused id w = Some (false, w).
Proof. intros H. unfold registrationRefused. destruct id; [rewrite H|]; reflexivity. Qed.

Lemma registrationRefused_admitted s pm w :
  s <> "" -> PerformanceMonitor w = Some pm ->
  Z.of_nat (size (tickets pm)) < limit pm ->
  registrationRefused (Some s) w =
  Some (false,
        with_monitor
          (Some (with_performanceData
                   (set_activeAnimations (tickets pm ∪ {[s]}) (performanceData pm)) pm))
          w).
Proof.
  intros Hs Hpm Hlt. unfold registrationRefused.
  rewrite (truthy_nonempty s Hs), Hpm, (registerAnimation_admitted s pm Hlt).
  reflexivity.
Qed.

Lemma insert_last {A : Type} (l : list A) (x y : A) :
  <[length l := y]> (l ++ [x]) = l ++ [y].
Proof.
  induction l as [|z l IH]; [reflexivity|].
  simpl. f_equal. exact IH.
Qed.

(** What [animate] returns once the registration has let it pass. *)
Lemma animate_running callback id w w1 :
  shouldAnimate w = true ->
  registrationRefused id w = Some (false, w1) ->
  animate callback id w =
  Some (CancelOf (length (closures w1)),
        mkWindow (PerformanceMonitor w1)
                 (closures w1 ++
                  [mkAnimation callback id None false (Some (S (nextFrameRequest w1)))])
                 (<[S (nextFrameRequest w1) := length (closures w1)]> (frameRequests w1))
                 (S (nextFrameRequest w1)) (callbackCalls w1)).
Proof.
  intros Hshould Hreg. unfold animate. rewrite Hshould, Hreg.
  cbn [negb requestAnimationFrame PerformanceMonitor closures
       frameRequests nextFrameRequest callbackCalls].
  unfold with_closure.
  cbn [PerformanceMonitor closures frameRequests nextFrameRequest callbackCalls].
  rewrite insert_last. reflexivity.
Qed.

(** X14: [shouldAnimate] tolerates a page without [window.PerformanceMonitor]
    (it answers true), but [animate] does not: there, a call with a non-empty
    ticket id throws on the method call on [undefined], while a call without
    id starts the animation (callback not yet called, one frame requested). *)
Theorem animate_without_monitor (callback : nat) (id : option string) (w : Window) :
  PerformanceMonitor w = None ->
  shouldAnimate w = true /\
  (truthy id = true -> animate callback id w = None) /\
  (truthy id = false ->
     exists w',
       animate callback id w = Some (CancelOf (length (closures w)), w') /\
       callbackCalls w' = callbackCalls w /\
       frameRequests w' !! S (nextFrameRequest w) = Some (length (closures w))).
Proof.
  intros Hpm.
  assert (Hshould : shouldAnimate w = true) by (unfold shouldAnimate; rewrite Hpm; reflexivity).
  split; [exact Hshould|]. split.
  - intros Hid. unfold animate. rewrite Hshould. cbn [negb].
    unfold registrationRefused. destruct id as [s|]; [|discriminate].
    rewrite Hid, Hpm. reflexivity.
  - intros Hid.
    rewrite (animate_running callback id w w Hshould (registrationRefused_no_id id w Hid)).
    eexists. split; [reflexivity|]. split; [reflexivity|].
    cbn [frameRequests]. apply lookup_insert_eq.
Qed.

(** X15: when animation is allowed and the ticket (if any) is admitted,
    [animate] does not call the callback yet: it creates the closure with no
    start time, requests exactly one frame for it, takes the ticket, and
    returns the handle of that closure. *)
Theorem animate_starts (callback : nat) (id : option string) (w : Window) (pm : Monitor) :
  PerformanceMonitor w = Some pm ->
  shouldAnimate w = true ->
  (truthy id = true -> Z.of_nat (size (tickets pm)) < limit pm) ->
  exists w',
    let k := length (closures w) in
    let r := S (nextFrameRequest w) in
    animate callback id w = Some (CancelOf k, w') /\
    closures w' = closures w ++ [mkAnimation callback id None false (Some r)] /\
    frameRequests w' = <[r := k]> (frameRequests w) /\
    callbackCalls w' = callbackCalls w /\
    activeTickets w' = Some (holdTicket id (tickets pm)).
Proof.
  intros Hpm Hshould Hroom. cbv zeta.
  destruct (truthy id) eqn:Hid.
  - destruct id as [s|]; [|discriminate].
    assert (Hs : s <> "").
    { intros ->. discriminate Hid. }
    rewrite (animate_running callback (Some s) w _ Hshould
               (registrationRefused_admitted s pm w Hs Hpm (Hroom eq_refl))).
    eexists. split; [reflexivity|].
    cbn [closures frameRequests callbackCalls nextFrameRequest with_monitor].
    repeat split. unfold holdTicket. rewrite Hid. reflexivity.
  - rewrite (animate_running callback id w w Hshould (registrationRefused_no_id id w Hid)).
    eexists. split; [reflexivity|].
    cbn [closures frameRequests callbackCalls nextFrameRequest].
    repeat split. unfold activeTickets, holdTicket. rewrite Hpm.
    destruct id; [rewrite Hid|]; reflexivity.
Qed.

Lemma Qdiv300 (x : Q) : (x / 300 == x * (1 # 300))%Q.
Proof. unfold Qdiv. reflexivity. Qed.

(** The progress [Math.min(x / 300, 1)] of an elapsed time [x]. *)
Lemma progress_bounds (x : Q) :
  (Math_min (x / 300) 1 <= 1)%Q /\
  ((0 <= x)%Q -> (0 <= Math_min (x / 300) 1)%Q) /\
  (Qltb (Math_min (x / 300) 1) 1 = true <-> (x < 300)%Q) /\
  ((x < 300)%Q -> Math_min (x / 300) 1 = (x / 300)%Q) /\
  ((300 <= x)%Q -> (Math_min (x / 300) 1 == 1)%Q).
Proof.
  pose proof (Qdiv300 x) as Hd.
  unfold Math_min. destruct (Qleb (x / 300) 1) eqn:Hle.
  - apply Qleb_le in Hle. rewrite Qltb_lt.
    repeat split; intros; try lra.
  - apply Qleb_gt in Hle. rewrite Qltb_lt.
    repeat split; intros; try lra.
Qed.

Lemma unregisterIfId_no_id id w :
  truthy id = false -> unregisterIfId id w = Some w.
Proof. intros H. unfold unregisterIfId. destruct id; [rewrite H|]; reflexivity. Qed.

Lemma unregisterIfId_monitor id w pm :
  PerformanceMonitor w = Some pm ->
  exists pm',
    unregisterIfId id w = Some (with_monitor (Some pm') w) /\
    tickets pm' = releaseTicket id (tickets pm) /\
    profile pm' = profile pm.
Proof.
  intros Hpm. unfold unregisterIfId, releaseTicket.
  destruct id as [s|].
  - destruct (truthy (Some s)).
    + rewrite Hpm. eexists. split; [reflexivity|]. split; reflexivity.
    + exists pm. split; [|split; reflexivity].
      f_equal. destruct w. simpl in *. subst. reflexivity.
  - exists pm. split; [|split; reflexivity].
    f_equal. destruct w. simpl in *. subst. reflexivity.
Qed.

(** The frame callback of a closure that is not cancelled. *)
Lemma animateFrame_active k ts w a :
  closures w !! k = Some a ->
  an_cancelled a = false ->
  animateFrame k ts w =
  let st := effectiveStart a ts in
  let p := Math_min ((ts - st) / 300) 1 in
  let w1 := call (an_callback a) p
              (with_closure k (mkAnimation (an_callback a) (an_id a) (Some st) false
                                           (an_rafId a)) w) in
  if Qltb p 1 then
    Some (with_closure k
            (mkAnimation (an_callback a) (an_id a) (Some st) false
                         (Some (S (nextFrameRequest w))))
            (snd (requestAnimationFrame k w1)))
  else unregisterIfId (an_id a) w1.
Proof.
  intros Hk Hc. unfold animateFrame. rewrite Hk, Hc.
  fold (effectiveStart a ts). cbv zeta.
  cbn [an_callback an_id an_startTime an_cancelled an_rafId].
  destruct (Qltb _ _); reflexivity.
Qed.

(** X16: one frame of a running animation.  The callback is called exactly
    once, with a progress that is at most 1 (and at least 0 when the clock
    has not gone back); before 300 ms have elapsed the progress is the
    elapsed fraction, the ticket is kept and exactly one further frame is
    requested; from 300 ms on the progress is 1, no frame is requested and
    the ticket is released. *)
Theorem animation_frame (r k : nat) (ts : Q) (w : Window) (a : Animation) (pm : Monitor) :
  frameRequests w !! r = Some k ->
  closures w !! k = Some a ->
  an_cancelled a = false ->
  PerformanceMonitor w = Some pm ->
  let elapsed := (ts - effectiveStart a ts)%Q in
  exists p w',
    deliverFrame r ts w = Some w' /\
    callbackCalls w' = callbackCalls w ++ [(an_callback a, p)] /\
    (p <= 1)%Q /\ ((0 <= elapsed)%Q -> (0 <= p)%Q) /\
    ((elapsed < 300)%Q ->
       p = (elapsed / 300)%Q /\
       frameRequests w' = <[S (nextFrameRequest w) := k]> (delete r (frameRequests w)) /\
       activeTickets w' = Some (tickets pm)) /\
    ((300 <= elapsed)%Q ->
       (p == 1)%Q /\
       frameRequests w' = delete r (frameRequests w) /\
       activeTickets w' = Some (releaseTicket (an_id a) (tickets pm))).
Proof.
  intros Hr Hk Hc Hpm. cbv zeta.
  unfold deliverFrame. rewrite Hr.
  rewrite (animateFrame_active k ts (cancelAnimationFrame r w) a Hk Hc). cbv zeta.
  destruct (progress_bounds (ts - effectiveStart a ts)) as (Hle & Hge & Hlt & Hin & Hout).
  set (p := Math_min ((ts - effectiveStart a ts) / 300) 1) in *.
  destruct (Qltb p 1) eqn:Hp.
  - exists p. eexists. split; [reflexivity|].
    split; [reflexivity|]. split; [exact Hle|]. split; [exact Hge|].
    assert (Hlt' : (ts - effectiveStart a ts < 300)%Q) by (apply Hlt; reflexivity).
    split.
    + intros _. split; [apply Hin, Hlt'|]. split; [reflexivity|].
      unfold activeTickets. cbn [PerformanceMonitor with_closure requestAnimationFrame
                                 snd call cancelAnimationFrame].
      rewrite Hpm. reflexivity.
    + intros Hfin. lra.
  - assert (Hfin : (300 <= ts - effectiveStart a ts)%Q).
    { destruct (Qlt_le_dec (ts - effectiveStart a ts) 300) as [Hl | Hg]; [|exact Hg].
      apply Hlt in Hl. congruence. }
    match goal with
    | |- context [unregisterIfId ?i ?w0] =>
        destruct (unregisterIfId_monitor i w0 pm) as (pm' & Hun & Ht & _);
        [cbn [PerformanceMonitor call with_closure cancelAnimationFrame]; exact Hpm|];
        rewrite Hun
    end.
    exists p. eexists. split; [reflexivity|].
    split; [reflexivity|]. split; [exact Hle|]. split; [exact Hge|].
    split.
    + intros Hl. lra.
    + intros _. split; [apply Hout, Hfin|]. split; [reflexivity|].
      unfold activeTickets. cbn [PerformanceMonitor with_monitor]. cbn [fmap option_fmap option_map].
      f_equal. exact Ht.
Qed.

Lemma window_eta w :
  mkWindow (PerformanceMonitor w) (closures w) (frameRequests w)
           (nextFrameRequest w) (callbackCalls w) = w.
Proof. destruct w; reflexivity. Qed.

Lemma unregisterIfId_releaseIn id w pm :
  PerformanceMonitor w = Some pm ->
  unregisterIfId id w = Some (with_monitor (Some (releaseIn id pm)) w).
Proof.
  intros Hpm. unfold unregisterIfId, releaseIn.
  destruct id as [s|]; [destruct (truthy (Some s))|];
    rewrite ?Hpm; try reflexivity;
    f_equal; unfold with_monitor; rewrite <- Hpm; symmetry; apply window_eta.
Qed.

Lemma tickets_releaseIn id pm : tickets (releaseIn id pm) = releaseTicket id (tickets pm).
Proof.
  unfold releaseIn, releaseTicket.
  destruct id as [s|]; [destruct (truthy (Some s))|]; reflexivity.
Qed.

Lemma unregisterAnimation_twice s pm :
  unregisterAnimation s (unregisterAnimation s pm) = unregisterAnimation s pm.
Proof.
  apply set_tickets_same.
  change (tickets (unregisterAnimation s pm)) with (tickets pm ∖ {[s]}).
  apply set_eq. intros x. set_solver.
Qed.

Lemma releaseIn_twice id pm : releaseIn id (releaseIn id pm) = releaseIn id pm.
Proof.
  unfold releaseIn.
  destruct id as [s|]; [destruct (truthy (Some s))|]; try reflexivity.
  apply unregisterAnimation_twice.
Qed.

(** The window after [handle.cancel()]. *)
Lemma cancel_result k r w a pm :
  closures w !! k = Some a ->
  an_rafId a = Some r ->
  PerformanceMonitor w = Some pm ->
  cancel (CancelOf k) w =
  Some (mkWindow (Some (releaseIn (an_id a) pm)) (<[k := cancelled a]> (closures w))
                 (delete r (frameRequests w)) (nextFrameRequest w) (callbackCalls w)).
Proof.
  intros Hk Hraf Hpm. unfold cancel. rewrite Hk.
  cbn [an_rafId an_id]. rewrite Hraf.
  rewrite (unregisterIfId_releaseIn (an_id a) _ pm); [|exact Hpm].
  unfold cancelled. rewrite Hraf. reflexivity.
Qed.

(** X17: cancelling a running animation.  [cancel] marks the closure as
    cancelled, withdraws its pending frame request and releases its ticket,
    without calling the callback; if the browser delivered the withdrawn
    request all the same nothing would happen; and a second [cancel] changes
    nothing. *)
Theorem cancel_stops_animation (k r : nat) (w : Window) (a : Animation) (pm : Monitor) :
  closures w !! k = Some a ->
  an_rafId a = Some r ->
  PerformanceMonitor w = Some pm ->
  exists w',
    cancel (CancelOf k) w = Some w' /\
    closures w' !! k = Some (cancelled a) /\
    frameRequests w' = delete r (frameRequests w) /\
    callbackCalls w' = callbackCalls w /\
    activeTickets w' = Some (releaseTicket (an_id a) (tickets pm)) /\
    (forall ts, deliverFrame r ts w' = Some w') /\
    cancel (CancelOf k) w' = Some w'.
Proof.
  intros Hk Hraf Hpm.
  rewrite (cancel_result k r w a pm Hk Hraf Hpm).
  eexists. split; [reflexivity|].
  assert (Hlen : (k < length (closures w))%nat) by (eapply lookup_lt_Some; exact Hk).
  assert (Hk' : <[k := cancelled a]> (closures w) !! k = Some (cancelled a))
    by (apply list_lookup_insert_eq, Hlen).
  cbn [closures frameRequests callbackCalls].
  split; [exact Hk'|]. split; [reflexivity|]. split; [reflexivity|].
  split; [rewrite <- tickets_releaseIn; reflexivity|].
  split.
  - intros ts. unfold deliverFrame. cbn [frameRequests].
    rewrite lookup_delete_eq. reflexivity.
  - rewrite (cancel_result k r
               (mkWindow (Some (releaseIn (an_id a) pm)) (<[k := cancelled a]> (closures w))
                         (delete r (frameRequests w)) (nextFrameRequest w)
                         (callbackCalls w))
               (cancelled a) (releaseIn (an_id a) pm) Hk' Hraf eq_refl).
    cbn [closures frameRequests nextFrameRequest callbackCalls].
    change (cancelled (cancelled a)) with (cancelled a).
    change (an_id (cancelled a)) with (an_id a).
    rewrite releaseIn_twice, delete_delete_eq.
    rewrite (list_insert_id (<[k := cancelled a]> (closures w)) k _ Hk').
    reflexivity.
Qed.

(** The window after a frame that does not finish the animation. *)
Lemma deliverFrame_continue r k ts w a :
  frameRequests w !! r = Some k ->
  closures w !! k = Some a ->
  an_cancelled a = false ->
  (ts - effectiveStart a ts < 300)%Q ->
  deliverFrame r ts w =
  Some (mkWindow (PerformanceMonitor w)
          (<[k := mkAnimation (an_callback a) (an_id a) (Some (effectiveStart a ts)) false
                              (Some (S (nextFrameRequest w)))]> (closures w))
          (<[S (nextFrameRequest w) := k]> (delete r (frameRequests w)))
          (S (nextFrameRequest w))
          (callbackCalls w ++ [(an_callback a, ((ts - effectiveStart a ts) / 300)%Q)])).
Proof.
  intros Hr Hk Hc Hlt. unfold deliverFrame. rewrite Hr.
  rewrite (animateFrame_active k ts (cancelAnimationFrame r w) a Hk Hc). cbv zeta.
  destruct (progress_bounds (ts - effectiveStart a ts)) as (_ & _ & Hp & Hin & _).
  rewrite (Hin Hlt). rewrite Hin in Hp by exact Hlt.
  rewrite (proj2 Hp Hlt).
  unfold with_closure, call, requestAnimationFrame, cancelAnimationFrame.
  cbn [snd PerformanceMonitor closures frameRequests nextFrameRequest callbackCalls].
  rewrite list_insert_insert_eq. reflexivity.
Qed.

(** The window after the frame that finishes the animation. *)
Lemma deliverFrame_finish r k ts w a pm :
  frameRequests w !! r = Some k ->
  closures w !! k = Some a ->
  an_cancelled a = false ->
  (300 <= ts - effectiveStart a ts)%Q ->
  PerformanceMonitor w = Some pm ->
  deliverFrame r ts w =
  Some (mkWindow (Some (releaseIn (an_id a) pm))
          (<[k := mkAnimation (an_callback a) (an_id a) (Some (effectiveStart a ts)) false
                              (an_rafId a)]> (closures w))
          (delete r (frameRequests w))
          (nextFrameRequest w)
          (callbackCalls w ++
           [(an_callback a, Math_min ((ts - effectiveStart a ts) / 300) 1)])).
Proof.
  intros Hr Hk Hc Hge Hpm. unfold deliverFrame. rewrite Hr.
  rewrite (animateFrame_active k ts (cancelAnimationFrame r w) a Hk Hc). cbv zeta.
  destruct (progress_bounds (ts - effectiveStart a ts)) as (_ & _ & Hp & _ & _).
  assert (Hb : Qltb (Math_min ((ts - effectiveStart a ts) / 300) 1) 1 = false).
  { apply not_true_is_false. intros E. apply Hp in E. lra. }
  rewrite Hb.
  rewrite (unregisterIfId_releaseIn (an_id a) _ pm); [reflexivity | exact Hpm].
Qed.

(** X18: a ticketed animation from start to end.  On a page where animation
    is allowed and a slot is free, [animate] with a fresh ticket followed by
    a first frame (at a time other than 0) and a frame 300 ms or more later
    calls the callback exactly twice, with progress 0 and then 1; the ticket
    is held in between and released at the end, and no frame request of the
    animation is left pending. *)
Theorem animation_runs_to_completion
    (callback : nat) (s : string) (t0 t1 : Q) (w : Window) (pm : Monitor) :
  PerformanceMonitor w = Some pm ->
  shouldAnimate w = true ->
  s <> "" ->
  s ∉ tickets pm ->
  Z.of_nat (size (tickets pm)) < limit pm ->
  ~ (t0 == 0)%Q ->
  (300 <= t1 - t0)%Q ->
  let r1 := S (nextFrameRequest w) in
  let r2 := S r1 in
  exists h w1 w2 w3 p0 p1,
    animate callback (Some s) w = Some (h, w1) /\
    deliverFrame r1 t0 w1 = Some w2 /\
    deliverFrame r2 t1 w2 = Some w3 /\
    callbackCalls w3 = callbackCalls w ++ [(callback, p0); (callback, p1)] /\
    (p0 == 0)%Q /\ (p1 == 1)%Q /\
    activeTickets w1 = Some (tickets pm ∪ {[s]}) /\
    activeTickets w2 = Some (tickets pm ∪ {[s]}) /\
    activeTickets w3 = Some (tickets pm) /\
    frameRequests w3 !! r1 = None /\ frameRequests w3 !! r2 = None.
Proof.
  intros Hpm Hshould Hs Hfresh Hroom Ht0 Hlate. cbv zeta.
  set (k := length (closures w)).
  set (r1 := S (nextFrameRequest w)).
  set (pm1 := with_performanceData
                (set_activeAnimations (tickets pm ∪ {[s]}) (performanceData pm)) pm).
  set (a0 := mkAnimation callback (Some s) None false (Some r1)).
  set (w1 := mkWindow (Some pm1) (closures w ++ [a0])
                      (<[r1 := k]> (frameRequests w)) r1 (callbackCalls w)).
  assert (H1 : animate callback (Some s) w = Some (CancelOf k, w1)).
  { rewrite (animate_running callback (Some s) w _ Hshould
               (registrationRefused_admitted s pm w Hs Hpm Hroom)).
    reflexivity. }
  assert (Hr1 : frameRequests w1 !! r1 = Some k) by apply lookup_insert_eq.
  assert (Hk1 : closures w1 !! k = Some a0) by (apply list_lookup_middle; reflexivity).
  assert (Hlt0 : (t0 - effectiveStart a0 t0 < 300)%Q)
    by (cbn [effectiveStart a0 an_startTime]; lra).
  pose proof (deliverFrame_continue r1 k t0 w1 a0 Hr1 Hk1 eq_refl Hlt0) as H2.
  cbn [effectiveStart a0 an_startTime an_callback an_id w1 PerformanceMonitor closures
       frameRequests nextFrameRequest callbackCalls] in H2.
  set (a1 := mkAnimation callback (Some s) (Some t0) false (Some (S r1))) in *.
  set (w2 := mkWindow (Some pm1) (<[k := a1]> (closures w ++ [a0]))
                      (<[S r1 := k]> (delete r1 (<[r1 := k]> (frameRequests w))))
                      (S r1) (callbackCalls w ++ [(callback, ((t0 - t0) / 300)%Q)])) in *.
  assert (Hr2 : frameRequests w2 !! S r1 = Some k) by apply lookup_insert_eq.
  assert (Hk2 : closures w2 !! k = Some a1).
  { apply list_lookup_insert_eq. rewrite length_app. simpl. unfold k. lia. }
  assert (Hstart : effectiveStart a1 t1 = t0).
  { cbn [effectiveStart a1 an_startTime].
    destruct (Qeq_bool t0 0) eqn:E; [|reflexivity].
    apply Qeq_bool_iff in E. contradiction. }
  assert (Hge1 : (300 <= t1 - effectiveStart a1 t1)%Q) by (rewrite Hstart; exact Hlate).
  pose proof (deliverFrame_finish (S r1) k t1 w2 a1 pm1 Hr2 Hk2 eq_refl Hge1 eq_refl) as H3.
  rewrite Hstart in H3.
  cbn [a1 an_callback an_id an_rafId w2 closures frameRequests nextFrameRequest
       callbackCalls] in H3.
  destruct (progress_bounds (t1 - t0)) as (_ & _ & _ & _ & Hone).
  eexists _, w1, w2, _, _, _.
  split; [exact H1|]. split; [exact H2|]. split; [exact H3|].
  cbn [callbackCalls frameRequests].
  split; [rewrite <- app_assoc; reflexivity|].
  split; [rewrite Qdiv300; lra|].
  split; [apply Hone, Hlate|].
  split; [reflexivity|]. split; [reflexivity|].
  split.
  - unfold activeTickets. cbn [PerformanceMonitor fmap option_fmap option_map].
    f_equal. change (activeAnimations (performanceData (releaseIn (Some s) pm1)))
      with (tickets (releaseIn (Some s) pm1)).
    rewrite tickets_releaseIn. unfold releaseTicket.
    rewrite (truthy_nonempty s Hs).
    change (tickets pm1) with (tickets pm ∪ {[s]}).
    apply add_remove_fresh, Hfresh.
  - split.
    + rewrite lookup_delete_ne by lia. rewrite lookup_insert_ne by lia.
      apply lookup_delete_eq.
    + apply lookup_delete_eq.
Qed.

(** X19: hiding the page forgets the tickets but stops no animation.  After
    the [visibilitychange] listener has run, the active set is empty while
    closures, pending frame requests and calls so far are untouched: a
    frame pending for a running animation still calls its callback, and with
    a positive limit the next [registerAnimation] is admitted although the
    earlier animations are still running. *)
Theorem hidden_page_keeps_animations
    (r k : nat) (ts : Q) (w : Window) (a : Animation) (pm : Monitor) :
  PerformanceMonitor w = Some pm ->
  frameRequests w !! r = Some k ->
  closures w !! k = Some a ->
  an_cancelled a = false ->
  let w' := hidePage w in
  activeTickets w' = Some ∅ /\
  closures w' = closures w /\
  frameRequests w' = frameRequests w /\
  callbackCalls w' = callbackCalls w /\
  (exists p w'', deliverFrame r ts w' = Some w'' /\
                 callbackCalls w'' = callbackCalls w ++ [(an_callback a, p)]) /\
  (forall id, 0 < limit pm ->
     exists pm', PerformanceMonitor w' = Some pm' /\
                 fst (registerAnimation id pm') = true).
Proof.
  intros Hpm Hr Hk Hc. cbv zeta. unfold hidePage. rewrite Hpm.
  cbn [fmap option_fmap option_map].
  split; [reflexivity|]. split; [reflexivity|]. split; [reflexivity|].
  split; [reflexivity|]. split.
  - set (w' := with_monitor (Some (onVisibilityChange true pm)) w).
    destruct (Qlt_le_dec (ts - effectiveStart a ts) 300) as [Hlt | Hge].
    + rewrite (deliverFrame_continue r k ts w' a Hr Hk Hc Hlt).
      eexists _, _. split; reflexivity.
    + rewrite (deliverFrame_finish r k ts w' a _ Hr Hk Hc Hge eq_refl).
      eexists _, _. split; reflexivity.
  - intros id Hpos. eexists. split; [reflexivity|].
    rewrite registerAnimation_admitted; [reflexivity|].
    change (tickets (onVisibilityChange true pm)) with (∅ : gset string).
    change (limit (onVisibilityChange true pm)) with (limit pm).
    rewrite size_empty. lia.
Qed.

(** ** Evaluations in closed form, and [stopMonitoring] *)













(** ** Batched updates *)

Lemma setAdd_spec x l :
  (forall y, y ∈ setAdd x l <-> y ∈ l \/ y = x) /\ (NoDup l -> NoDup (setAdd x l)).
Proof.
  unfold setAdd. destruct (decide (x ∈ l)) as [Hin | Hout].
  - split; [|auto]. intros y. split; [auto|]. intros [H | ->]; assumption.
  - split.
    + intros y. rewrite elem_of_app, list_elem_of_singleton. reflexivity.
    + intros Hnd. apply NoDup_app. split; [exact Hnd|]. split.
      * intros y Hy Hy'. apply list_elem_of_singleton in Hy'. subst. contradiction.
      * apply NoDup_singleton.
Qed.

Lemma addAll_spec fns l :
  (forall y, y ∈ addAll fns l <-> y ∈ l \/ y ∈ fns) /\
  (NoDup l -> NoDup (addAll fns l)).
Proof.
  unfold addAll. revert l. induction fns as [|x fns IH]; intros l; simpl.
  - split; [|auto]. intros y. rewrite elem_of_nil. tauto.
  - destruct (IH (setAdd x l)) as [Hmem Hnd].
    destruct (setAdd_spec x l) as [Hmem' Hnd'].
    split.
    + intros y. rewrite Hmem, Hmem', elem_of_cons. tauto.
    + auto.
Qed.

Lemma addAll_distinct fns l :
  NoDup (l ++ fns) -> addAll fns l = l ++ fns.
Proof.
  unfold addAll. revert l. induction fns as [|x fns IH]; intros l Hnd; simpl.
  - rewrite app_nil_r. reflexivity.
  - assert (Hx : x ∉ l).
    { apply NoDup_app in Hnd as (_ & Hdis & _). intros Hin.
      apply (Hdis x Hin). left. }
    unfold setAdd at 2. destruct (decide (x ∈ l)); [contradiction|].
    rewrite IH; rewrite <- app_assoc; [reflexivity | exact Hnd].
Qed.

Lemma batchUpdates_pending fns b :
  pendingUpdates (batchUpdates fns b) = addAll fns (pendingUpdates b).
Proof.
  unfold batchUpdates, addAll. revert b.
  induction fns as [|x fns IH]; intros b; [reflexivity|].
  simpl. rewrite IH. f_equal. unfold batchUpdate.
  destruct (batchUpdateTimer b); reflexivity.
Qed.

(** Besides the pending set, a call of [batchUpdate] with the timer armed
    changes nothing. *)
Lemma batchUpdates_armed fns b r :
  batchUpdateTimer b = Some r ->
  batchUpdates fns b =
  mkBatcher (addAll fns (pendingUpdates b)) (Some r) (batchFrames b) (nextBatchFrame b)
            (updatesRun b) (batchErrors b).
Proof.
  unfold batchUpdates, addAll. revert b.
  induction fns as [|x fns IH]; intros b Hr; simpl.
  - destruct b. simpl in *. subst. reflexivity.
  - rewrite IH.
    + unfold batchUpdate. rewrite Hr. reflexivity.
    + unfold batchUpdate. rewrite Hr. reflexivity.
Qed.

(** A first call arms the timer with one flush request; the calls after it
    only add to the pending set. *)
Lemma batchUpdates_idle fns b :
  batchUpdateTimer b = None -> fns <> [] ->
  batchUpdates fns b =
  mkBatcher (addAll fns (pendingUpdates b)) (Some (S (nextBatchFrame b)))
            (<[S (nextBatchFrame b) := FlushPending]> (batchFrames b))
            (S (nextBatchFrame b)) (updatesRun b) (batchErrors b).
Proof.
  intros Hidle Hne. destruct fns as [|x fns]; [congruence|].
  change (batchUpdates (x :: fns) b) with (batchUpdates fns (batchUpdate x b)).
  assert (Hb : batchUpdate x b =
               mkBatcher (setAdd x (pendingUpdates b)) (Some (S (nextBatchFrame b)))
                         (<[S (nextBatchFrame b) := FlushPending]> (batchFrames b))
                         (S (nextBatchFrame b)) (updatesRun b) (batchErrors b))
    by (unfold batchUpdate; rewrite Hidle; reflexivity).
  rewrite Hb.
  rewrite (batchUpdates_armed fns
             (mkBatcher (setAdd x (pendingUpdates b)) (Some (S (nextBatchFrame b)))
                        (<[S (nextBatchFrame b) := FlushPending]> (batchFrames b))
                        (S (nextBatchFrame b)) (updatesRun b) (batchErrors b))
             (S (nextBatchFrame b)) eq_refl).
  reflexivity.
Qed.

Lemma fold_runUpdate throws updates b :
  fold_left (runUpdate throws) updates b =
  mkBatcher (pendingUpdates b) (batchUpdateTimer b) (batchFrames b) (nextBatchFrame b)
            (updatesRun b ++ updates)
            (batchErrors b ++ filter (fun fn => throws fn = true) updates).
Proof.
  revert b. induction updates as [|x updates IH]; intros b; simpl.
  - rewrite !app_nil_r. destruct b; reflexivity.
  - rewrite IH. unfold runUpdate. simpl.
    rewrite <- !app_assoc. simpl.
    rewrite filter_cons. destruct (throws x) eqn:Hx.
    + rewrite decide_True by reflexivity. rewrite <- app_assoc. reflexivity.
    + rewrite decide_False by discriminate. reflexivity.
Qed.

(** The three states of a batch: submitted, flushed, run. *)
Lemma batch_two_frames throws fns b :
  batchUpdateTimer b = None ->
  pendingUpdates b = [] ->
  fns <> [] ->
  let r := S (nextBatchFrame b) in
  let b1 := mkBatcher (addAll fns []) (Some r) (<[r := FlushPending]> (batchFrames b)) r
                      (updatesRun b) (batchErrors b) in
  let b2 := mkBatcher [] None
                      (<[S r := RunUpdates (addAll fns [])]>
                         (delete r (<[r := FlushPending]> (batchFrames b))))
                      (S r) (updatesRun b) (batchErrors b) in
  let b3 := mkBatcher [] None
                      (delete (S r)
                         (<[S r := RunUpdates (addAll fns [])]>
                            (delete r (<[r := FlushPending]> (batchFrames b)))))
                      (S r) (updatesRun b ++ addAll fns [])
                      (batchErrors b ++ filter (fun fn => throws fn = true) (addAll fns []))
  in
  batchUpdates fns b = b1 /\
  deliverBatchFrame throws r b1 = b2 /\
  deliverBatchFrame throws (S r) b2 = b3.
Proof.
  intros Hidle Hempty Hne. cbv zeta.
  split; [|split].
  - rewrite (batchUpdates_idle fns b Hidle Hne), Hempty. reflexivity.
  - unfold deliverBatchFrame. cbn [batchFrames]. rewrite lookup_insert_eq. reflexivity.
  - unfold deliverBatchFrame. cbn [batchFrames]. rewrite lookup_insert_eq.
    rewrite fold_runUpdate. reflexivity.
Qed.

(** X21: updates submitted between two frames are coalesced.  From an idle
    optimizer, any non-empty sequence of [batchUpdate] calls requests one
    frame only; that frame runs nothing but hands the batch to a second
    frame, which calls every distinct update function exactly once, in the
    order of first submission, a throwing update being logged without
    stopping the ones after it; afterwards the optimizer is idle again. *)
Theorem batch_runs_each_update_once
    (throws : nat -> bool) (fns : list nat) (b : Batcher) :
  batchUpdateTimer b = None ->
  pendingUpdates b = [] ->
  fns <> [] ->
  let r := S (nextBatchFrame b) in
  let b1 := batchUpdates fns b in
  let b2 := deliverBatchFrame throws r b1 in
  let b3 := deliverBatchFrame throws (S r) b2 in
  let batch := addAll fns [] in
  batchFrames b1 = <[r := FlushPending]> (batchFrames b) /\
  updatesRun b2 = updatesRun b /\
  updatesRun b3 = updatesRun b ++ batch /\
  batchErrors b3 = batchErrors b ++ filter (fun fn => throws fn = true) batch /\
  NoDup batch /\ (forall fn, fn ∈ batch <-> fn ∈ fns) /\
  (NoDup fns -> batch = fns) /\
  pendingUpdates b3 = [] /\ batchUpdateTimer b3 = None /\
  batchFrames b3 !! r = None /\ batchFrames b3 !! S r = None.
Proof.
  intros Hidle Hempty Hne. cbv zeta.
  destruct (batch_two_frames throws fns b Hidle Hempty Hne) as (H1 & H2 & H3).
  rewrite H1, H2, H3.
  cbn [pendingUpdates batchUpdateTimer nextBatchFrame updatesRun batchErrors batchFrames].
  destruct (addAll_spec fns []) as [Hmem Hnd].
  split; [reflexivity|]. split; [reflexivity|]. split; [reflexivity|].
  split; [reflexivity|]. split; [apply Hnd, NoDup_nil_2|].
  split; [intros fn; rewrite Hmem, elem_of_nil; tauto|].
  split; [intros Hd; apply (addAll_distinct fns []); exact Hd|].
  split; [reflexivity|]. split; [reflexivity|].
  split.
  - rewrite lookup_delete_ne by lia. rewrite lookup_insert_ne by lia.
    apply lookup_delete_eq.
  - apply lookup_delete_eq.
Qed.

(** X22: [cleanup] can recall a batch only before it is flushed.  Called
    while the flush request is pending, it withdraws the request and empties
    the pending set, so none of the updates ever runs; called after the
    flush, it finds no timer to cancel and the batch still runs on the next
    frame. *)
Theorem cleanup_recalls_only_unflushed
    (throws : nat -> bool) (fns : list nat) (b : Batcher) :
  batchUpdateTimer b = None ->
  pendingUpdates b = [] ->
  fns <> [] ->
  let r := S (nextBatchFrame b) in
  let b1 := batchUpdates fns b in
  let early := cleanup b1 in
  let late := cleanup (deliverBatchFrame throws r b1) in
  (pendingUpdates early = [] /\ batchUpdateTimer early = None /\
   deliverBatchFrame throws r early = early /\ updatesRun early = updatesRun b) /\
  updatesRun (deliverBatchFrame throws (S r) late) = updatesRun b ++ addAll fns [].
Proof.
  intros Hidle Hempty Hne. cbv zeta.
  destruct (batch_two_frames throws fns b Hidle Hempty Hne) as (H1 & H2 & H3).
  rewrite H1, H2.
  split.
  - unfold cleanup. cbn [batchUpdateTimer batchFrames nextBatchFrame updatesRun
                         batchErrors pendingUpdates].
    split; [reflexivity|]. split; [reflexivity|]. split; [|reflexivity].
    unfold deliverBatchFrame. cbn [batchFrames]. rewrite lookup_delete_eq. reflexivity.
  - unfold cleanup. cbn [batchUpdateTimer batchFrames nextBatchFrame updatesRun
                         batchErrors pendingUpdates].
    rewrite H3. reflexivity.
Qed.

(** ** [renderList] *)

Section RenderListProperties.

Context {Item Node : Type}.

Variable renderItem : Item -> nat -> Node.

Lemma renderedFrom_cons i (item : Item) (rest : list Item) :
  renderedFrom renderItem i (item :: rest) =
  renderItem item i :: renderedFrom renderItem (S i) rest.
Proof.
  unfold renderedFrom. rewrite imap_cons. rewrite Nat.add_0_r. f_equal.
  apply imap_ext. intros j x _. simpl. f_equal. lia.
Qed.

Lemma isBatchEnd_spec (i q len b : nat) :
  (0 < b)%nat -> (len < b)%nat -> i = (q * b + len)%nat ->
  isBatchEnd i b = Nat.eqb (S len) b.
Proof.
  intros Hb Hlen ->. unfold isBatchEnd. destruct b as [|b']; [lia|].
  replace (S (q * S b' + len)) with (S len + q * S b')%nat by lia.
  rewrite Nat.Div0.mod_add.
  destruct (Nat.eqb_spec (S len) (S b')) as [-> | Hne].
  - rewrite Nat.Div0.mod_same. reflexivity.
  - rewrite Nat.mod_small by lia. reflexivity.
Qed.

(** The loop invariant: the children are the appends so far; with a positive
    batch size the fragment is shorter than a batch, the index is a multiple
    of the batch size plus the fragment, and every append was a full batch. *)
Lemma renderLoop_spec (b : nat) (items : list Item) :
  forall (i : nat) (st : RenderState),
  rs_children st = concat (rs_appends st) ->
  ((0 < b)%nat ->
     (length (rs_fragment st) < b)%nat /\
     (exists q, i = (q * b + length (rs_fragment st))%nat) /\
     Forall (fun batch : list Node => length batch = b) (rs_appends st)) ->
  let st' := renderLoop renderItem b items i st in
  rs_children st' ++ rs_fragment st' =
    rs_children st ++ rs_fragment st ++ renderedFrom renderItem i items /\
  rs_children st' = concat (rs_appends st') /\
  ((0 < b)%nat ->
     (length (rs_fragment st') < b)%nat /\
     Forall (fun batch : list Node => length batch = b) (rs_appends st')) /\
  (b = 0%nat -> rs_appends st' = rs_appends st).
Proof.
  induction items as [|item rest IH]; intros i st Hch Hpos; cbv zeta.
  - simpl. unfold renderedFrom. simpl. rewrite app_nil_r.
    split; [reflexivity|]. split; [exact Hch|]. split; [|reflexivity].
    intros Hb. destruct (Hpos Hb) as (H1 & _ & H3). auto.
  - cbn [renderLoop]. rewrite renderedFrom_cons.
    set (st1 := renderStep renderItem b st item i).
    assert (Hst1 :
      rs_children st1 ++ rs_fragment st1 =
        rs_children st ++ rs_fragment st ++ [renderItem item i] /\
      rs_children st1 = concat (rs_appends st1) /\
      ((0 < b)%nat ->
         (length (rs_fragment st1) < b)%nat /\
         (exists q, S i = (q * b + length (rs_fragment st1))%nat) /\
         Forall (fun batch : list Node => length batch = b) (rs_appends st1)) /\
      (b = 0%nat -> rs_appends st1 = rs_appends st)).
    { unfold st1, renderStep.
      destruct b as [|b'].
      - simpl. split; [reflexivity|]. split; [exact Hch|]. split; [lia | reflexivity].
      - destruct (Hpos ltac:(lia)) as (Hlen & [q Hq] & Hall).
        rewrite (isBatchEnd_spec i q (length (rs_fragment st)) (S b') ltac:(lia) Hlen Hq).
        destruct (Nat.eqb_spec (S (length (rs_fragment st))) (S b')) as [Hfull | Hroom].
        + unfold appendFragment. cbn [rs_children rs_fragment rs_appends].
          split; [rewrite app_nil_r; reflexivity|]. split.
          * rewrite concat_app, Hch. simpl. rewrite app_nil_r. reflexivity.
          * split; [|discriminate]. intros _. simpl length.
            split; [lia|]. split; [exists (S q); lia|].
            apply Forall_app. split; [exact Hall|].
            constructor; [|constructor]. rewrite length_app. simpl. lia.
        + cbn [rs_children rs_fragment rs_appends].
          split; [reflexivity|]. split; [exact Hch|]. split; [|discriminate].
          intros _. rewrite length_app. simpl.
          split; [lia|]. split; [exists q; lia | exact Hall]. }
    destruct Hst1 as (Happ1 & Hch1 & Hpos1 & Hzero1).
    destruct (IH (S i) st1 Hch1) as (Happ & Hch' & Hpos' & Hzero').
    { intros Hb. destruct (Hpos1 Hb) as (H1 & H2 & H3). auto. }
    split.
    + rewrite Happ. rewrite app_assoc, Happ1. rewrite <- !app_assoc. reflexivity.
    + split; [exact Hch'|]. split; [exact Hpos'|].
      intros Hb. rewrite (Hzero' Hb). apply Hzero1, Hb.
Qed.

(** X23: [renderList] renders every item once, in order, whatever the batch
    size.  A null container gives nothing; an empty item list returns before
    the container is cleared, so the old children stay; otherwise the old
    children are replaced by the nodes of the items in order.  With a
    positive batch size the nodes arrive in appends of exactly that size,
    the last one possibly shorter and never empty; with batch size 0 they
    arrive in a single append. *)
Theorem renderList_renders_all (items : list Item) (old : list Node) (b : nat) :
  renderList renderItem items None b = (None, []) /\
  renderList renderItem [] (Some old) b = (Some old, []) /\
  (items <> [] ->
   let after := fst (renderList renderItem items (Some old) b) in
   let appends := snd (renderList renderItem items (Some old) b) in
   after = Some (renderedFrom renderItem 0 items) /\
   concat appends = renderedFrom renderItem 0 items /\
   ((0 < b)%nat ->
      Forall (fun batch : list Node => (0 < length batch <= b)%nat) appends /\
      (forall k batch, appends !! k = Some batch -> (S k < length appends)%nat ->
                       length batch = b)) /\
   (b = 0%nat -> appends = [renderedFrom renderItem 0 items])).
Proof.
  split; [reflexivity|]. split; [reflexivity|].
  intros Hne. cbv zeta. unfold renderList.
  destruct (Nat.eqb_spec (length items) 0) as [Hz | _];
    [destruct items; [congruence | discriminate]|].
  assert (Hfirst : exists n ns, renderedFrom renderItem 0 items = n :: ns).
  { destruct items as [|item rest]; [congruence|].
    rewrite renderedFrom_cons. eauto. }
  pose proof (renderLoop_spec b items 0 (mkRenderState [] [] []) eq_refl) as Hspec.
  cbv zeta in Hspec.
  cbn [rs_children rs_fragment rs_appends length] in Hspec.
  rewrite !app_nil_l in Hspec.
  destruct Hspec as (Happ & Hch & Hpos & Hzero).
  { intros Hb. split; [exact Hb|]. split; [exists 0%nat; lia | constructor]. }
  destruct (renderLoop renderItem b items 0 (mkRenderState [] [] []))
    as [ch frag apps].
  cbn [rs_children rs_fragment rs_appends] in *.
  destruct frag as [|n frag].
  - (* nothing left over: the last batch was full *)
    cbn [length Nat.ltb Nat.leb fst snd rs_children rs_appends].
    rewrite app_nil_r in Happ.
    split; [rewrite Happ; reflexivity|].
    split; [rewrite <- Hch; exact Happ|]. split.
    + intros Hb. destruct (Hpos Hb) as [_ Hall]. split.
      * eapply Forall_impl; [exact Hall|]. intros batch Hlen. simpl in Hlen. lia.
      * intros k batch Hk _.
        eapply (proj1 (Forall_lookup _ _) Hall); exact Hk.
    + intros Hb. exfalso. rewrite (Hzero Hb) in Hch. simpl in Hch.
      destruct Hfirst as (n & ns & Hn). congruence.
  - (* a last, shorter append *)
    cbn [length Nat.ltb Nat.leb fst snd]. unfold appendFragment.
    cbn [rs_children rs_fragment rs_appends fst snd].
    split; [rewrite Happ; reflexivity|].
    split; [rewrite concat_app, <- Hch; simpl; rewrite app_nil_r; exact Happ|]. split.
    + intros Hb. destruct (Hpos Hb) as [Hlen Hall]. split.
      * apply Forall_app. split.
        -- eapply Forall_impl; [exact Hall|]. intros batch Hl. simpl in Hl. lia.
        -- constructor; [|constructor]. simpl in *. lia.
      * intros k batch Hk Hlt. rewrite length_app in Hlt. simpl in Hlt.
        rewrite lookup_app_l in Hk by lia.
        eapply (proj1 (Forall_lookup _ _) Hall); exact Hk.
    + intros Hb. rewrite (Hzero Hb). simpl. f_equal.
      rewrite (Hzero Hb) in Hch. simpl in Hch. rewrite Hch in Happ. exact Happ.
Qed.

End RenderListProperties.

(** ** [animateElement] and the entrances *)

Lemma assignStyles_lookup styles el k :
  el_style (assignStyles styles el) !! k =
  match styles !! k with
  | Some v => Some v
  | None => el_style el !! k
  end.
Proof.
  unfold assignStyles. cbn [el_style].
  destruct (styles !! k) as [v|] eqn:Hk.
  - apply lookup_union_Some_l, Hk.
  - apply lookup_union_r, Hk.
Qed.

Lemma setStyle_lookup k v el k' :
  el_style (setStyle k v el) !! k' =
  if decide (k = k') then Some v else el_style el !! k'.
Proof. unfold setStyle. cbn [el_style]. apply lookup_insert. Qed.

(** The styles of the element once a call of [animateElement] has settled. *)
Lemma animateElement_settled w el styles options :
  exists el',
    settledElement (animateElement w (Some el) styles options) = Some el' /\
    forall k, k <> "transition" ->
      el_style el' !! k =
      match styles !! k with
      | Some v => Some v
      | None => el_style el !! k
      end.
Proof.
  unfold animateElement. destruct (shouldAnimate w); cbn [negb settledElement].
  - eexists. split; [reflexivity|]. intros k Hk. unfold finishTransition.
    rewrite setStyle_lookup. rewrite decide_False by congruence.
    rewrite assignStyles_lookup. destruct (styles !! k); [reflexivity|].
    rewrite setStyle_lookup. rewrite decide_False by congruence. reflexivity.
  - eexists. split; [reflexivity|]. intros k _. apply assignStyles_lookup.
Qed.

(** X24: [animateElement] degrades gracefully but does not accept a missing
    element.  With [null] it throws.  On an element it applies the target
    styles at once when animation is off, and otherwise sets the transition
    (duration 300 ms when none or 0 is given, easing ease-out when none is
    given), applies the styles and clears the transition when the timer
    fires; either way the element ends with the same styles, the transition
    property apart. *)
Theorem animateElement_same_end_state
    (w : Window) (el : Element) (styles : gmap string StyleValue)
    (options : AnimateOptions) :
  let s := animateElement w (Some el) styles options in
  let duration := or_defaultQ (opt_duration options) 300 in
  animateElement w None styles options = Threw /\
  (shouldAnimate w = false -> s = Resolved (Some (assignStyles styles el))) /\
  (shouldAnimate w = true ->
     exists el', s = Pending el' duration /\
       (styles !! "transition" = None ->
          el_style el' !! "transition" =
          Some (TransitionAll duration (or_defaultS (opt_easing options) "ease-out"))) /\
       el_style (finishTransition el') !! "transition" = Some (Text "")) /\
  (opt_duration options = None \/ opt_duration options = Some 0%Q -> duration = 300%Q) /\
  (exists el', settledElement s = Some el' /\
     forall k, k <> "transition" ->
       el_style el' !! k = el_style (assignStyles styles el) !! k).
Proof.
  cbv zeta. split; [reflexivity|]. split; [|split; [|split]].
  - intros Hoff. unfold animateElement. rewrite Hoff. reflexivity.
  - intros Hon. unfold animateElement. rewrite Hon. cbn [negb].
    eexists. split; [reflexivity|]. split.
    + intros Hnone. rewrite assignStyles_lookup, Hnone, setStyle_lookup.
      rewrite decide_True by reflexivity. reflexivity.
    + unfold finishTransition. rewrite setStyle_lookup.
      rewrite decide_True by reflexivity. reflexivity.
  - intros [-> | ->]; reflexivity.
  - destruct (animateElement_settled w el styles options) as (el' & Hs & Hk).
    exists el'. split; [exact Hs|]. intros k Hne.
    rewrite (Hk k Hne), assignStyles_lookup. reflexivity.
Qed.

(** X25: the three entrances never throw and always end visible.  On a
    missing element [fadeIn], [slideIn] and [scaleIn] resolve without doing
    anything; on an element, animated or not, the settled element has
    opacity 1 and the resting transform of the entrance. *)
Theorem entrances_end_visible (w : Window) (duration : option Q) (el : Element) :
  (fadeIn w None duration = Resolved None /\
   slideIn w None duration = Resolved None /\
   scaleIn w None duration = Resolved None) /\
  (exists el', settledElement (fadeIn w (Some el) duration) = Some el' /\
     el_style el' !! "opacity" = Some (Text "1") /\
     el_style el' !! "transform" = Some (Text "translateZ(0) scale(1)")) /\
  (exists el', settledElement (slideIn w (Some el) duration) = Some el' /\
     el_style el' !! "opacity" = Some (Text "1") /\
     el_style el' !! "transform" = Some (Text "translateZ(0) translateY(0)")) /\
  (exists el', settledElement (scaleIn w (Some el) duration) = Some el' /\
     el_style el' !! "opacity" = Some (Text "1") /\
     el_style el' !! "transform" = Some (Text "translateZ(0) scale(1)")).
Proof.
  split; [repeat split|].
  split; [|split].
  - unfold fadeIn.
    match goal with
    | |- context [animateElement w (Some ?e) ?st ?o] =>
        destruct (animateElement_settled w e st o) as (el' & Hs & Hk)
    end.
    exists el'. split; [exact Hs|].
    split; rewrite Hk by discriminate; reflexivity.
  - unfold slideIn. cbv zeta.
    match goal with
    | |- context [animateElement w (Some ?e) ?st ?o] =>
        destruct (animateElement_settled w e st o) as (el' & Hs & Hk)
    end.
    exists el'. split; [exact Hs|].
    split; rewrite Hk by discriminate; reflexivity.
  - unfold scaleIn. cbv zeta.
    match goal with
    | |- context [animateElement w (Some ?e) ?st ?o] =>
        destruct (animateElement_settled w e st o) as (el' & Hs & Hk)
    end.
    exists el'. split; [exact Hs|].
    split; rewrite Hk by discriminate; reflexivity.
Qed.

(** ** Throttled and debounced handlers *)

Lemma throttledHandler_ticking events t :
  th_ticking t = true ->
  fold_left (fun t e => throttledHandler e t) events t = t.
Proof.
  intros Ht. induction events as [|e events IH]; [reflexivity|].
  simpl. unfold throttledHandler at 2. rewrite Ht. exact IH.
Qed.

(** X26: the throttled handler lets one event per frame through, the first.
    From a closure at rest, a burst of events before the next frame requests
    a single frame callback, and that frame calls the callback once, with
    the first event of the burst; the closure is then at rest again.  A
    frame without events calls nothing. *)
Theorem throttle_passes_first_event (e : nat) (es : list nat) (t : Throttled) :
  th_ticking t = false ->
  th_frames t = [] ->
  let burst := fold_left (fun t e => throttledHandler e t) (e :: es) t in
  th_frames burst = [e] /\
  th_calls burst = th_calls t /\
  throttledFrame burst = mkThrottled false [] (th_calls t ++ [e]) /\
  throttledFrame t = t.
Proof.
  intros Ht Hf. cbv zeta.
  assert (H1 : throttledHandler e t = mkThrottled true [e] (th_calls t)).
  { unfold throttledHandler. rewrite Ht, Hf. reflexivity. }
  change (fold_left (fun t e => throttledHandler e t) (e :: es) t)
    with (fold_left (fun t e => throttledHandler e t) es (throttledHandler e t)).
  rewrite H1.
  rewrite (throttledHandler_ticking es (mkThrottled true [e] (th_calls t)) eq_refl).
  repeat split.
  destruct t. simpl in *. subst. reflexivity.
Qed.

(** At most one timer of the closure is pending, the one in [timeout]. *)
Lemma debouncedHandler_single e d :
  (db_timeout d = None /\ db_timers d = ∅) \/
  (exists t ev, db_timeout d = Some t /\ db_timers d = {[t := ev]}) ->
  debouncedHandler e d =
  mkDebounced (Some (S (db_nextTimer d))) {[S (db_nextTimer d) := e]}
              (S (db_nextTimer d)) (db_calls d).
Proof.
  unfold debouncedHandler. intros [[-> ->] | (t & ev & -> & ->)].
  - rewrite insert_empty. reflexivity.
  - rewrite delete_singleton_eq, insert_empty. reflexivity.
Qed.

Lemma debounced_burst es :
  forall e d,
  (db_timeout d = None /\ db_timers d = ∅) \/
  (exists t ev, db_timeout d = Some t /\ db_timers d = {[t := ev]}) ->
  fold_left (fun d e => debouncedHandler e d) (es ++ [e]) d =
  mkDebounced (Some (db_nextTimer d + length (es ++ [e]))%nat)
              {[(db_nextTimer d + length (es ++ [e]))%nat := e]}
              (db_nextTimer d + length (es ++ [e]))%nat (db_calls d).
Proof.
  induction es as [|x es IH]; intros e d Hd.
  - simpl. rewrite (debouncedHandler_single e d Hd).
    replace (db_nextTimer d + 1)%nat with (S (db_nextTimer d)) by lia. reflexivity.
  - change (fold_left (fun d e => debouncedHandler e d) ((x :: es) ++ [e]) d)
      with (fold_left (fun d e => debouncedHandler e d) (es ++ [e]) (debouncedHandler x d)).
    rewrite (debouncedHandler_single x d Hd).
    rewrite IH by (right; eauto).
    cbn [db_nextTimer db_calls].
    replace (S (db_nextTimer d) + length (es ++ [e]))%nat
      with (db_nextTimer d + length ((x :: es) ++ [e]))%nat by (simpl; lia).
    reflexivity.
Qed.

(** X27: the debounced handler lets the last event of a burst through.  From
    a closure at rest, after any burst of events (each arriving before the
    timer of the one before has fired) exactly one timer is pending, the one
    of the last event; when it fires the callback is called once, with that
    last event, and the closure is at rest again; a timer cleared earlier
    does nothing if it fires. *)
Theorem debounce_passes_last_event (e : nat) (es : list nat) (d : Debounced) :
  db_timeout d = None ->
  db_timers d = ∅ ->
  let burst := fold_left (fun d e => debouncedHandler e d) (es ++ [e]) d in
  let t := (db_nextTimer d + length (es ++ [e]))%nat in
  db_timeout burst = Some t /\
  db_timers burst = {[t := e]} /\
  db_calls burst = db_calls d /\
  debouncedFire t burst = mkDebounced None ∅ t (db_calls d ++ [e]) /\
  (forall t', t' <> t -> debouncedFire t' burst = burst).
Proof.
  intros Ht Hm. cbv zeta.
  rewrite (debounced_burst es e d (or_introl (conj Ht Hm))).
  cbn [db_timeout db_timers db_calls db_nextTimer].
  split; [reflexivity|]. split; [reflexivity|]. split; [reflexivity|]. split.
  - unfold debouncedFire. cbn [db_timers db_nextTimer db_calls].
    rewrite lookup_singleton_eq, delete_singleton_eq. reflexivity.
  - intros t' Hne. unfold debouncedFire. cbn [db_timers].
    rewrite lookup_singleton_ne by congruence. reflexivity.
Qed.

(** ** Admission as [animate] meets it *)

(** X28: on an initialised page, [shouldAnimate] refuses exactly when the
    limit is 1.  At every reachable state with the listeners installed,
    [shouldAnimate] is false if and only if the configured limit is 1, and
    when it is true the limit is 2 (tier medium) or 5 (tier high): a ticket
    is never requested through [animate] under the limit 1. *)
Theorem animate_meets_limit_2_or_5 (m : Monitor) (w : Window) :
  reachable m ->
  listeners m = true ->
  PerformanceMonitor w = Some m ->
  (shouldAnimate w = false <-> limit m = 1) /\
  (shouldAnimate w = true ->
     (deviceTier (performanceData m) = medium /\ limit m = 2) \/
     (deviceTier (performanceData m) = high /\ limit m = 5)).
Proof.
  intros Hm Hl Hw.
  destruct (reachable_pristine_or_inSync m Hm) as [Hp | Hs].
  { apply pristine_listeners in Hp. congruence. }
  unfold shouldAnimate. rewrite Hw. unfold limit. rewrite Hs.
  destruct (isReducedMotion (performanceData m)),
           (deviceTier (performanceData m)); cbn; split;
    first [ split; [reflexivity | discriminate]
          | split; [discriminate | reflexivity]
          | split; reflexivity
          | discriminate
          | intros _; left; split; reflexivity
          | intros _; right; split; reflexivity
          | idtac ].
  all: try (split; intros H; [reflexivity | reflexivity]).
  all: try (split; intros H; discriminate H).
Qed.

(** * The further properties at concrete inputs *)

(** The page [runningWindow] is the one [animate] leaves. *)
Example animate_gives_runningWindow :
  animate 7 (Some "fade") readyWindow = Some (CancelOf 0, runningWindow).
Proof. vm_compute. reflexivity. Qed.

Lemma policy_in_sync_witness :
  inSync (run busyThenSlow initial) /\ limit (run busyThenSlow initial) = 1.
Proof.
  destruct (policy_in_sync (run busyThenSlow initial)
              (reachable_run busyThenSlow initial reachable_initial)) as [_ H].
  destruct (H ltac:(vm_compute; reflexivity)) as [Hs Hl].
  split; [exact Hs|]. rewrite Hl. vm_compute. reflexivity.
Defined.

Lemma getAverageFPS_between_witness :
  58 <= getAverageFPS fiveGoodSamples <= 61.
Proof.
  apply (proj1 (getAverageFPS_between 58 61 fiveGoodSamples
                  ltac:(discriminate)
                  ltac:(cbn; repeat constructor; lia))).
Defined.

Lemma samples_never_negative_witness :
  0 <= getAverageFPS (run busyThenSlow initial).
Proof.
  exact (proj2 (samples_never_negative (run busyThenSlow initial)
                  (reachable_run busyThenSlow initial reachable_initial))).
Defined.

Lemma register_then_unregister_witness :
  unregisterAnimation "c" (snd (registerAnimation "c" (run [EvRegister "a"; EvRegister "b"] initial)))
  = run [EvRegister "a"; EvRegister "b"] initial.
Proof.
  apply (proj2 (register_then_unregister "c" (run [EvRegister "a"; EvRegister "b"] initial)
                  ltac:(vm_compute; intros H; discriminate H)
                  ltac:(vm_compute; reflexivity))).
Defined.

Lemma unregister_frees_slot_witness :
  fst (registerAnimation "d" (unregisterAnimation "b" threeTickets)) = true.
Proof.
  apply (proj1 (unregister_frees_slot "b" "d" threeTickets
                  ltac:(apply (bool_decide_unpack _); vm_compute; exact I)
                  ltac:(vm_compute; intros H; discriminate H))).
Defined.

Lemma animate_without_monitor_witness :
  shouldAnimate bareWindow = true /\ animate 7 (Some "fade") bareWindow = None.
Proof.
  destruct (animate_without_monitor 7 (Some "fade") bareWindow eq_refl)
    as (Hs & Hthrow & _).
  split; [exact Hs | exact (Hthrow eq_refl)].
Defined.

Lemma animate_starts_witness :
  exists w',
    animate 7 (Some "fade") readyWindow = Some (CancelOf 0, w') /\
    callbackCalls w' = [] /\
    activeTickets w' = Some (holdTicket (Some "fade") (tickets readyMonitor)).
Proof.
  destruct (animate_starts 7 (Some "fade") readyWindow readyMonitor eq_refl
              ltac:(vm_compute; reflexivity)
              ltac:(intros _; vm_compute; reflexivity))
    as (w' & Ha & _ & _ & Hc & Ht).
  exists w'. split; [exact Ha|]. split; [exact Hc | exact Ht].
Defined.

Lemma animation_frame_witness :
  exists p w',
    deliverFrame 1 100 runningWindow = Some w' /\
    callbackCalls w' = [(7%nat, p)] /\
    (p <= 1)%Q.
Proof.
  destruct (animation_frame 1 0 100 runningWindow fadeAnimation runningMonitor
              eq_refl eq_refl eq_refl eq_refl)
    as (p & w' & Hd & Hc & Hp & _).
  exists p, w'. split; [exact Hd|]. split; [exact Hc | exact Hp].
Defined.

Lemma cancel_stops_animation_witness :
  exists w',
    cancel (CancelOf 0) runningWindow = Some w' /\
    callbackCalls w' = [] /\
    activeTickets w' = Some (releaseTicket (Some "fade") (tickets runningMonitor)) /\
    cancel (CancelOf 0) w' = Some w'.
Proof.
  destruct (cancel_stops_animation 0 1 runningWindow fadeAnimation runningMonitor
              eq_refl eq_refl eq_refl)
    as (w' & Hc & _ & _ & Hcalls & Ht & _ & Hagain).
  exists w'. split; [exact Hc|]. split; [exact Hcalls|]. split; [exact Ht | exact Hagain].
Defined.

Lemma animation_runs_to_completion_witness :
  exists h w1 w2 w3 p0 p1,
    animate 7 (Some "fade") readyWindow = Some (h, w1) /\
    deliverFrame 1 100 w1 = Some w2 /\
    deliverFrame 2 400 w2 = Some w3 /\
    callbackCalls w3 = [(7%nat, p0); (7%nat, p1)] /\
    (p0 == 0)%Q /\ (p1 == 1)%Q /\
    activeTickets w3 = Some (tickets readyMonitor).
Proof.
  destruct (animation_runs_to_completion 7 "fade" 100 400 readyWindow readyMonitor
              eq_refl
              ltac:(vm_compute; reflexivity)
              ltac:(discriminate)
              ltac:(vm_compute; intros H; discriminate H)
              ltac:(vm_compute; reflexivity)
              ltac:(intros H; vm_compute in H; discriminate H)
              ltac:(vm_compute; intros H; discriminate H))
    as (h & w1 & w2 & w3 & p0 & p1 & Ha & H1 & H2 & Hc & Hp0 & Hp1 & _ & _ & Ht & _).
  exists h, w1, w2, w3, p0, p1.
  split; [exact Ha|]. split; [exact H1|]. split; [exact H2|]. split; [exact Hc|].
  split; [exact Hp0|]. split; [exact Hp1 | exact Ht].
Defined.

Lemma hidden_page_keeps_animations_witness :
  activeTickets (hidePage runningWindow) = Some ∅ /\
  closures (hidePage runningWindow) = closures runningWindow /\
  frameRequests (hidePage runningWindow) = frameRequests runningWindow.
Proof.
  pose proof (hidden_page_keeps_animations 1 0 100 runningWindow fadeAnimation
                runningMonitor eq_refl eq_refl eq_refl eq_refl) as H.
  cbv zeta in H. destruct H as (Ht & Hc & Hf & _).
  split; [exact Ht|]. split; [exact Hc | exact Hf].
Defined.

Lemma batch_runs_each_update_once_witness :
  updatesRun
    (deliverBatchFrame secondThrows 2
       (deliverBatchFrame secondThrows 1 (batchUpdates [1; 2; 1; 3]%nat idleBatcher)))
  = [1; 2; 3]%nat /\
  batchErrors
    (deliverBatchFrame secondThrows 2
       (deliverBatchFrame secondThrows 1 (batchUpdates [1; 2; 1; 3]%nat idleBatcher)))
  = [2%nat].
Proof.
  pose proof (batch_runs_each_update_once secondThrows [1; 2; 1; 3]%nat idleBatcher
                eq_refl eq_refl ltac:(discriminate)) as H.
  cbv zeta in H. destruct H as (_ & _ & Hrun & Herr & _).
  split; [exact Hrun | exact Herr].
Defined.

Lemma cleanup_recalls_only_unflushed_witness :
  updatesRun (cleanup (batchUpdates [1; 2]%nat idleBatcher)) = [] /\
  updatesRun
    (deliverBatchFrame secondThrows 2
       (cleanup (deliverBatchFrame secondThrows 1 (batchUpdates [1; 2]%nat idleBatcher))))
  = [1; 2]%nat.
Proof.
  pose proof (cleanup_recalls_only_unflushed secondThrows [1; 2]%nat idleBatcher
                eq_refl eq_refl ltac:(discriminate)) as H.
  cbv zeta in H. destruct H as ((_ & _ & _ & Hearly) & Hlate).
  split; [exact Hearly | exact Hlate].
Defined.

Lemma throttle_passes_first_event_witness :
  throttledFrame
    (fold_left (fun t e => throttledHandler e t) [1; 2; 3]%nat restingThrottle)
  = mkThrottled false [] [1%nat].
Proof.
  pose proof (throttle_passes_first_event 1 [2; 3]%nat restingThrottle
                eq_refl eq_refl) as H.
  cbv zeta in H. destruct H as (_ & _ & Hframe & _).
  exact Hframe.
Defined.

Lemma debounce_passes_last_event_witness :
  debouncedFire 3
    (fold_left (fun d e => debouncedHandler e d) [1; 2; 3]%nat restingDebounce)
  = mkDebounced None ∅ 3 [3%nat].
Proof.
  pose proof (debounce_passes_last_event 3 [1; 2]%nat restingDebounce
                eq_refl eq_refl) as H.
  cbv zeta in H. destruct H as (_ & _ & _ & Hfire & _).
  exact Hfire.
Defined.

Lemma animate_meets_limit_2_or_5_witness :
  shouldAnimate slowWindow = false.
Proof.
  apply (proj2 (proj1 (animate_meets_limit_2_or_5 (run busyThenSlow initial) slowWindow
                         (reachable_run busyThenSlow initial reachable_initial)
                         ltac:(vm_compute; reflexivity)
                         eq_refl))).
  vm_compute. reflexivity.
Defined.

Lemma init_establishes_witness :
  deviceTier (performanceData (init smallPhone initial)) = medium /\
  isReducedMotion (performanceData (init smallPhone initial)) = true /\
  listenerSets (init fastDesktop (init smallPhone initial)) = 2%nat /\
  reportTimers (init fastDesktop (init smallPhone initial)) = 2%nat /\
  sampler (init fastDesktop (init smallPhone initial)) = Some (mkFpsSampler 0 5).
Proof.
  pose proof (init_establishes smallPhone fastDesktop initial) as H.
  cbv zeta in H.
  destruct H as (_ & _ & Hweak & _ & Hflag & _ & _ & _ & _ & _ & _ & _ & _ & _ &
                 Hs & _ & Hl & Hr).
  split; [|split; [|split; [|split]]].
  - apply Hweak.
    + vm_compute. discriminate.
    + right. split; [vm_compute; discriminate|].
      intros E. vm_compute in E. discriminate E.
  - rewrite Hflag. reflexivity.
  - exact Hl.
  - exact Hr.
  - rewrite Hs. vm_compute. reflexivity.
Defined.

